(** * sampleOnnxMNIST: the ONNX MNIST sample, embedded and verified

    The sample in [samples/sampleOnnxMNIST/sampleOnnxMNIST.cpp] sequences calls
    into the inference runtime: it either builds an engine from [mnist.onnx] or
    loads a serialized plan, runs one inference pass on a random digit image
    and checks the classification.

    The embedding follows the C++ source function by function.

    - The runtime, the ONNX parser, the sample-common helpers and the operating
      system are not part of the source file.  Their answers are collected in a
      record [World]; every call made by the sample is recorded, in order, as
      an [Event] of the run.
    - Member functions of [SampleOnnxMNIST] take the object as an explicit
      state and return the updated one.
    - [float] is IEEE binary32, [double] is binary64, both through the
      [SpecFloat] operations of the standard library (round to nearest even).
      The C library function [exp] is a field of [World].
    - A failed [ASSERT], the dereference of a null pointer and an exception
      that nothing catches end the run: they are the outcomes [Aborts],
      [Undefined] and [Throws]. *)

From Stdlib Require Import ZArith String Ascii Bool Lia DecimalString List.
From Stdlib Require Import Strings.Byte.
From Stdlib Require Import SpecFloat.
Import ListNotations.
Local Open Scope Z_scope.

(* ================================================================== *)
(** ** Floating point: binary32 and binary64 *)
(* ================================================================== *)

Abbreviation float := spec_float.

Module F32.
Definition prec : Z := 24.
Definition emax : Z := 128.
Definition of_Z (n : Z) : float := binary_normalize prec emax n 0 false.
Definition add : float -> float -> float := SFadd prec emax.
Definition div : float -> float -> float := SFdiv prec emax.
Definition ltb : float -> float -> bool := SFltb.
Definition eqb : float -> float -> bool := SFeqb.
(** The literal [0.0F]. *)
Definition zero : float := S754_zero false.
(** The literal [0.9F]: the binary32 number nearest to 9/10. *)
Definition c0_9 : float := Eval vm_compute in div (of_Z 9) (of_Z 10).
Definition mul : float -> float -> float := SFmul prec emax.
(** The literal [0.5F]. *)
Definition c0_5 : float := Eval vm_compute in div (of_Z 1) (of_Z 2).
(** [std::floor] on [float]: the largest integral value not above [x]. *)
Definition floor (x : float) : float :=
  match x with
  | S754_finite s m e =>
      if 0 <=? e then x
      else binary_normalize prec emax (cond_Zopp s (Zpos m) / 2 ^ (- e)) 0 s
  | _ => x
  end.
(** The conversion [int(x)]: the value of [x] truncated toward zero.  It is
    undefined, here [None], when [x] is NaN or infinite or when the truncated
    value is not a value of [int]. *)
Definition to_int (x : float) : option Z :=
  match x with
  | S754_zero _ => Some 0
  | S754_finite s m e =>
      let z := if 0 <=? e
               then cond_Zopp s (Zpos m) * 2 ^ e
               else Z.quot (cond_Zopp s (Zpos m)) (2 ^ (- e)) in
      if (- 2 ^ 31 <=? z) && (z <? 2 ^ 31) then Some z else None
  | _ => None
  end.
End F32.

Module F64.
Definition prec : Z := 53.
Definition emax : Z := 1024.
Definition of_Z (n : Z) : float := binary_normalize prec emax n 0 false.
Definition sub : float -> float -> float := SFsub prec emax.
Definition div : float -> float -> float := SFdiv prec emax.
(** Conversion [float(x)] of a double to binary32. *)
Definition to_float (x : float) : float :=
  match x with
  | S754_finite s m e => binary_normalize F32.prec F32.emax (cond_Zopp s (Zpos m)) e s
  | _ => x
  end.
End F64.

(** [std::max(a, b)] is [(a < b) ? b : a]. *)
Definition std_max (a b : float) : float := if F32.ltb a b then b else a.

(** Whether a value is NaN. *)
Definition is_nan (x : float) : bool :=
  match x with S754_nan => true | _ => false end.

(** The sign bit of a value is clear, or the value is NaN. *)
Definition sign_clear (x : float) : Prop :=
  match x with
  | S754_nan => True
  | S754_zero s | S754_infinity s | S754_finite s _ _ => s = false
  end.

(** Position of a non-NaN value in the order that [SFcompare] implements:
    class first (infinities outside, zeros in the middle), then exponent, then
    mantissa, the last two negated for negative numbers. *)
Definition rank (x : float) : Z * Z * Z :=
  match x with
  | S754_nan => (0, 0, 0)
  | S754_zero _ => (0, 0, 0)
  | S754_infinity true => (-2, 0, 0)
  | S754_infinity false => (2, 0, 0)
  | S754_finite true m e => (-1, - e, Zneg m)
  | S754_finite false m e => (1, e, Zpos m)
  end.

Definition lex3 (a b : Z * Z * Z) : comparison :=
  let '(a1, a2, a3) := a in
  let '(b1, b2, b3) := b in
  match a1 ?= b1 with
  | Eq => match a2 ?= b2 with Eq => a3 ?= b3 | c => c end
  | c => c
  end.

(** [lex3 a b] is [Lt], resp. [Eq], exactly when: *)
Definition lexlt (a b : Z * Z * Z) : Prop :=
  let '(a1, a2, a3) := a in
  let '(b1, b2, b3) := b in
  a1 < b1 \/ (a1 = b1 /\ (a2 < b2 \/ (a2 = b2 /\ a3 < b3))).

Definition lexeq (a b : Z * Z * Z) : Prop :=
  let '(a1, a2, a3) := a in
  let '(b1, b2, b3) := b in
  a1 = b1 /\ a2 = b2 /\ a3 = b3.

(* ================================================================== *)
(** ** Arrays *)
(* ================================================================== *)

(** Reading [a[i]] and the assignment [a[i] = v].  The source indexes raw
    buffers; an index outside the buffer is undefined there, here the read
    gives NaN and the write does nothing.  The theorems are about buffers that
    hold all the elements the loops touch. *)
Definition elem (i : nat) (a : list float) : float := nth i a S754_nan.

Fixpoint assign (i : nat) (v : float) (a : list float) : list float :=
  match a, i with
  | [], _ => []
  | _ :: a', O => v :: a'
  | x :: a', S i' => x :: assign i' v a'
  end.

(* ================================================================== *)
(** ** verifyOutput: softmax, argmax and the confidence threshold *)
(* ================================================================== *)

(** [const int outputSize = 10;] *)
Definition outputSize : nat := 10.

Section VerifyOutput.

(** [exp] of the C library, on floats. *)
Variable fexp : float -> float.

(** First loop body: [output[i] = exp(output[i]); sum += output[i];] *)
Definition exp_step (st : list float * float) (i : nat) : list float * float :=
  let output := assign i (fexp (elem i (fst st))) (fst st) in
  (output, F32.add (snd st) (elem i output)).

(** Second loop body:
    [output[i] /= sum; val = std::max(val, output[i]);
     if (val == output[i]) idx = i;]
    The body ends with a line of the log, which assigns to none of these
    variables; its string of stars is [stars] below. *)
Definition div_step (sum : float) (st : list float * float * Z) (i : nat)
  : list float * float * Z :=
  let '(output, val, idx) := st in
  let output := assign i (F32.div (elem i output) sum) output in
  let val := std_max val (elem i output) in
  let idx := if F32.eqb val (elem i output) then Z.of_nat i else idx in
  (output, val, idx).

(** The two loops of [verifyOutput]: the buffer after them, [val] and [idx].
    [float val{0.0F}; int idx{0}; float sum{0.0F};] *)
Definition verifyOutput_loops (output : list float) : list float * float * Z :=
  let '(output, sum) := fold_left exp_step (seq 0 outputSize) (output, F32.zero) in
  fold_left (div_step sum) (seq 0 outputSize) (output, F32.zero, 0).

(** [return idx == mNumber && val > 0.9F;] *)
Definition verifyOutput (output : list float) (mNumber : Z) : bool :=
  let '(_, val, idx) := verifyOutput_loops output in
  (idx =? mNumber) && F32.ltb F32.c0_9 val.

(** The softmax of a vector in the words of the specification: every entry is
    replaced by its exponential divided by the sum of all exponentials (the sum
    taken in index order from [0.0F], in binary32). *)
Definition softmax_spec (output : list float) : list float :=
  let e := map fexp output in
  let sum := fold_left F32.add e F32.zero in
  map (fun x => F32.div x sum) e.

End VerifyOutput.

(** The running maximum and its index over a vector [l] whose first element
    has index [i]: the second loop of [verifyOutput] once the entries are
    known. *)
Fixpoint scan (l : list float) (i : Z) (val : float) (idx : Z) : float * Z :=
  match l with
  | [] => (val, idx)
  | x :: l' =>
      let val' := std_max val x in
      scan l' (i + 1) val' (if F32.eqb val' x then i else idx)
  end.

(** [K] is the index of the maximal entry of [p]: the entry is a number, no
    entry is greater, and among entries of equal value [K] is the last. *)
Definition is_argmax (p : list float) (K : nat) : Prop :=
  (K < length p)%nat /\
  is_nan (elem K p) = false /\
  (forall j, (j < length p)%nat -> F32.ltb (elem K p) (elem j p) = false) /\
  (forall j, (K < j < length p)%nat -> F32.eqb (elem j p) (elem K p) = false).

(* ================================================================== *)
(** ** Command-line arguments and sample parameters *)
(* ================================================================== *)

Local Open Scope string_scope.
Local Open Scope list_scope.
Local Open Scope Z_scope.

(** [std::string::empty()]. *)
Definition empty (s : string) : bool :=
  match s with EmptyString => true | String _ _ => false end.

(** [std::to_string(int)]. *)
Definition to_string (n : Z) : string := NilZero.string_of_int (Z.to_int n).

(** [samplesCommon::Args], as filled by [samplesCommon::parseArgs]: the fields
    that the sample reads. *)
Module Args.
Record t := {
  help : bool;
  runInInt8 : bool;
  runInFp16 : bool;
  runInBf16 : bool;
  useDLACore : Z;
  dataDirs : list string;
  saveEngine : string;
  loadEngine : string;
  timingCacheFile : string
}.
End Args.

(** [struct sampleOnnxMNISTParams : samplesCommon::OnnxSampleParams]. *)
Module Params.
Record t := {
  dataDirs : list string;
  onnxFileName : string;
  inputTensorNames : list string;
  outputTensorNames : list string;
  dlaCore : Z;
  int8 : bool;
  fp16 : bool;
  bf16 : bool;
  timingCacheFile : string;
  saveEngine : string;
  loadEngine : string
}.
End Params.

(* ================================================================== *)
(** ** The world outside the source file *)
(* ================================================================== *)

(** [nvinfer1::Dims]. *)
Record Dims := { nbDims : Z; d : list Z }.

(** A file opened through [std::ifstream]: its bytes up to the end of the
    stream, whether the stream can seek to its end and tell the position there
    (a regular file can; a pipe cannot), whether a buffer of that many bytes
    can be allocated (no buffer can for the position a directory reports), and
    whether extracting the bytes succeeds. *)
Record EngineFile := {
  file_bytes : list byte;
  file_seek_ok : bool;
  file_alloc_ok : bool;
  file_get_ok : bool
}.

(** [engineFile.tellg()] after [engineFile.seekg(0, engineFile.end)]: the
    number of bytes of the file, and [-1] on a stream whose [seekg] failed. *)
Definition tellg (f : EngineFile) : Z :=
  if file_seek_ok f then Z.of_nat (length (file_bytes f)) else -1.

(** What [if (!engineFile)] tests after [read]: the stream is good when
    neither [seekg] nor [read] failed (a failure stays set in the stream);
    the test is reached when the buffer for [read] exists. *)
Definition file_read_ok (f : EngineFile) : bool :=
  file_seek_ok f && file_alloc_ok f && file_get_ok f.

(** The answers of everything the sample calls.  A field [_ok] tells whether
    the call returns a non-null object (resp. [true]). *)
Record World := {
  (* samples/common *)
  locateFile : string -> list string -> string;
  makeCudaStream_ok : bool;
  buildTimingCacheFromFile_ok : string -> bool;
  saveEngine_ok : string -> bool;
  getEngine_ok : string -> Z -> bool;
  readPGMFile : string -> Z -> Z -> list byte;
  (* builder, network and parser *)
  createInferBuilder_ok : bool;
  createNetworkV2_ok : bool;
  createBuilderConfig_ok : bool;
  createParser_ok : bool;
  parseFromFile_ok : string -> bool;
  buildSerializedNetwork : option (list byte);
  getNbInputs : Z;
  getInput0_getDimensions : Dims;
  getNbOutputs : Z;
  getOutput0_getDimensions : Dims;
  (* runtime, engine and execution context *)
  createInferRuntime_ok : bool;
  deserializeCudaEngine_ok : list byte -> Z -> bool;
  createExecutionContext_ok : bool;
  getNbIOTensors : Z;
  getIOTensorName : Z -> string;
  executeV2 : list float -> option (list float);
  (* operating system and C library *)
  ifstream : string -> option EngineFile;
  rand : Z;
  exp : float -> float
}.

Inductive BuilderFlag := kFP16 | kBF16 | kINT8.

(** The calls a run makes, with their arguments. *)
Inductive Event :=
| E_gLogError (text : string)
| E_gLogInfo (text : string)
| E_cout (text : string)
| E_cerr (text : string)
| E_printHelpInfo
| E_reportTestStart
| E_reportFail
| E_reportPass
| E_createInferBuilder
| E_createNetworkV2 (flags : Z)
| E_createBuilderConfig
| E_createParser
| E_parseFromFile (path : string)
| E_setFlag (flag : BuilderFlag)
| E_setAllDynamicRanges
| E_buildTimingCacheFromFile (file : string)
| E_enableDLA (core : Z)
| E_makeCudaStream
| E_setProfileStream
| E_buildSerializedNetwork
| E_updateTimingCacheFile (file : string)
| E_createInferRuntime
| E_setDLACore (core : Z)
| E_deserializeCudaEngine (data : list byte) (size : Z)
| E_saveEngine (file : string)
| E_getEngine (file : string) (core : Z)
| E_ifstream (path : string)
| E_read (count : Z)
| E_BufferManager
| E_createExecutionContext
| E_setTensorAddress (name : string)
| E_readPGMFile (path : string) (h w : Z)
| E_copyInputToDevice
| E_executeV2
| E_copyOutputToHost.

(** The stages of the pipeline named by the specification. *)
Inductive Stage :=
| StParse | StConfigure | StBuild | StDeserialize | StBind | StExecute | StPostProcess.

(** The stage a call belongs to.  Creating objects, updating the timing cache
    file, saving the engine, reading and copying the input and the reports
    belong to none of the named stages. *)
Definition stage_of (e : Event) : option Stage :=
  match e with
  | E_parseFromFile _ => Some StParse
  | E_setFlag _ | E_setAllDynamicRanges | E_buildTimingCacheFromFile _
  | E_enableDLA _ | E_setProfileStream => Some StConfigure
  | E_buildSerializedNetwork => Some StBuild
  | E_deserializeCudaEngine _ _ => Some StDeserialize
  | E_BufferManager | E_setTensorAddress _ => Some StBind
  | E_executeV2 => Some StExecute
  | E_copyOutputToHost => Some StPostProcess
  | _ => None
  end.

(** The staged calls of a trace, in order. *)
Fixpoint stages (tr : list Event) : list Stage :=
  match tr with
  | [] => []
  | e :: tr' =>
      match stage_of e with
      | Some st => st :: stages tr'
      | None => stages tr'
      end
  end.

(* ================================================================== *)
(** ** Runs: a trace of calls and an outcome *)
(* ================================================================== *)

Inductive Outcome (A : Type) : Type :=
| Returns (a : A)
| Aborts (condition : string)
| Undefined (expression : string)
| Throws (exception : string).
Arguments Returns {A} a.
Arguments Aborts {A} condition.
Arguments Undefined {A} expression.
Arguments Throws {A} exception.

Definition Run (A : Type) : Type := (list Event * Outcome A)%type.

Definition trace {A} (r : Run A) : list Event := fst r.
Definition outcome {A} (r : Run A) : Outcome A := snd r.

Definition ret {A} (a : A) : Run A := ([], Returns a).

Definition bind {A B} (m : Run A) (f : A -> Run B) : Run B :=
  match snd m with
  | Returns a => let r := f a in (fst m ++ fst r, snd r)
  | Aborts c => (fst m, Aborts c)
  | Undefined e => (fst m, Undefined e)
  | Throws x => (fst m, Throws x)
  end.

Notation "x <- c1 ;; c2" := (bind c1 (fun x => c2))
  (at level 61, c1 at next level, right associativity).
Notation "c1 ;; c2" := (bind c1 (fun _ => c2))
  (at level 61, right associativity).

Definition call (e : Event) : Run unit := ([e], Returns tt).

(** The macro [ASSERT] of samples/common: a false condition ends the program. *)
Definition ASSERT (c : bool) (condition : string) : Run unit :=
  if c then ret tt else ([], Aborts condition).

(** [p->...] on a null [p]. *)
Definition undefined {A} (expression : string) : Run A := ([], Undefined expression).

(** [throw]: no function of the sample catches an exception. *)
Definition throw {A} (exception : string) : Run A := ([], Throws exception).

Fixpoint for_each {A} (l : list A) (body : A -> Run unit) : Run unit :=
  match l with
  | [] => ret tt
  | x :: l' => body x ;; for_each l' body
  end.

(** The value [main] returns. *)
Inductive ExitStatus :=
| EXIT_FAILURE
| EXIT_SUCCESS
| Status_reportFail   (* the value of [sample::gLogger.reportFail(sampleTest)] *)
| Status_reportPass.  (* the value of [sample::gLogger.reportPass(sampleTest)] *)

(* ================================================================== *)
(** ** class SampleOnnxMNIST *)
(* ================================================================== *)

(** Objects of the runtime held by the sample; [None] is the null pointer. *)
Inductive IRuntime := TheRuntime.
Record ICudaEngine := { plan : list byte }.

Record SampleOnnxMNIST := {
  mParams : Params.t;
  mInputDims : Dims;
  mOutputDims : Dims;
  mNumber : Z;
  mRuntime : option IRuntime;
  mEngine : option ICudaEngine
}.

Definition with_mInputDims (v : Dims) (s : SampleOnnxMNIST) : SampleOnnxMNIST :=
  {| mParams := mParams s; mInputDims := v; mOutputDims := mOutputDims s;
     mNumber := mNumber s; mRuntime := mRuntime s; mEngine := mEngine s |}.

Definition with_mOutputDims (v : Dims) (s : SampleOnnxMNIST) : SampleOnnxMNIST :=
  {| mParams := mParams s; mInputDims := mInputDims s; mOutputDims := v;
     mNumber := mNumber s; mRuntime := mRuntime s; mEngine := mEngine s |}.

Definition with_mNumber (v : Z) (s : SampleOnnxMNIST) : SampleOnnxMNIST :=
  {| mParams := mParams s; mInputDims := mInputDims s; mOutputDims := mOutputDims s;
     mNumber := v; mRuntime := mRuntime s; mEngine := mEngine s |}.

Definition with_mRuntime (v : option IRuntime) (s : SampleOnnxMNIST) : SampleOnnxMNIST :=
  {| mParams := mParams s; mInputDims := mInputDims s; mOutputDims := mOutputDims s;
     mNumber := mNumber s; mRuntime := v; mEngine := mEngine s |}.

Definition with_mEngine (v : option ICudaEngine) (s : SampleOnnxMNIST) : SampleOnnxMNIST :=
  {| mParams := mParams s; mInputDims := mInputDims s; mOutputDims := mOutputDims s;
     mNumber := mNumber s; mRuntime := mRuntime s; mEngine := v |}.

(** The constructor: [mParams(params), mRuntime(nullptr), mEngine(nullptr)],
    [mNumber{0}].  The dimensions, which the constructor does not initialise
    and which nothing reads before [build] assigns them, start empty. *)
Definition SampleOnnxMNIST_new (params : Params.t) : SampleOnnxMNIST :=
  {| mParams := params;
     mInputDims := {| nbDims := 0; d := [] |};
     mOutputDims := {| nbDims := 0; d := [] |};
     mNumber := 0; mRuntime := None; mEngine := None |}.

Section Sample.

Variable w : World.

(** [SampleOnnxMNIST::constructNetwork]: the result and the timing cache it
    leaves in its reference argument ([true]: not null). *)
Definition constructNetwork (s : SampleOnnxMNIST) : Run (bool * bool) :=
  let p := mParams s in
  let file := locateFile w (Params.onnxFileName p) (Params.dataDirs p) in
  call (E_parseFromFile file) ;;
  if negb (parseFromFile_ok w file) then ret (false, false) else
  (if Params.fp16 p then call (E_setFlag kFP16) else ret tt) ;;
  (if Params.bf16 p then call (E_setFlag kBF16) else ret tt) ;;
  (if Params.int8 p
   then call (E_setFlag kINT8) ;; call E_setAllDynamicRanges
   else ret tt) ;;
  timingCache <-
    (if negb (empty (Params.timingCacheFile p))
     then call (E_buildTimingCacheFromFile (Params.timingCacheFile p)) ;;
          ret (buildTimingCacheFromFile_ok w (Params.timingCacheFile p))
     else ret false) ;;
  call (E_enableDLA (Params.dlaCore p)) ;;
  ret (true, timingCache).

(** [SampleOnnxMNIST::build]. *)
Definition build (s : SampleOnnxMNIST) : Run (bool * SampleOnnxMNIST) :=
  call E_createInferBuilder ;;
  if negb (createInferBuilder_ok w) then ret (false, s) else
  call (E_createNetworkV2 0) ;;
  if negb (createNetworkV2_ok w) then ret (false, s) else
  call E_createBuilderConfig ;;
  if negb (createBuilderConfig_ok w) then ret (false, s) else
  call E_createParser ;;
  if negb (createParser_ok w) then ret (false, s) else
  c <- constructNetwork s ;;
  if negb (fst c) then ret (false, s) else
  call E_makeCudaStream ;;
  if negb (makeCudaStream_ok w) then ret (false, s) else
  call E_setProfileStream ;;
  call E_buildSerializedNetwork ;;
  match buildSerializedNetwork w with
  | None => ret (false, s)
  | Some plan =>
      (if snd c && negb (empty (Params.timingCacheFile (mParams s)))
       then call (E_updateTimingCacheFile (Params.timingCacheFile (mParams s)))
       else ret tt) ;;
      call E_createInferRuntime ;;
      let s := with_mRuntime
                 (if createInferRuntime_ok w then Some TheRuntime else None) s in
      match mRuntime s with
      | None => ret (false, s)
      | Some _ =>
          let size := Z.of_nat (length plan) in
          call (E_deserializeCudaEngine plan size) ;;
          let s := with_mEngine
                     (if deserializeCudaEngine_ok w plan size
                      then Some {| plan := plan |} else None) s in
          match mEngine s with
          | None => ret (false, s)
          | Some _ =>
              let engineFileName := Params.saveEngine (mParams s) in
              call (E_saveEngine engineFileName) ;;
              if negb (saveEngine_ok w engineFileName) then ret (false, s) else
              ASSERT (getNbInputs w =? 1) "network->getNbInputs() == 1" ;;
              let s := with_mInputDims (getInput0_getDimensions w) s in
              ASSERT (nbDims (mInputDims s) =? 4) "mInputDims.nbDims == 4" ;;
              ASSERT (getNbOutputs w =? 1) "network->getNbOutputs() == 1" ;;
              let s := with_mOutputDims (getOutput0_getDimensions w) s in
              ASSERT (nbDims (mOutputDims s) =? 2) "mOutputDims.nbDims == 2" ;;
              ret (true, s)
          end
      end
  end.

(** [const int inputH = 28; const int inputW = 28;] *)
Definition inputH : Z := 28.
Definition inputW : Z := 28.

Definition uint8 (b : byte) : Z := Z.of_N (Byte.to_N b).

(** [std::vector<uint8_t> fileData(inputH * inputW)] after [readPGMFile]
    wrote into it: zeros where nothing was written. *)
Definition fill (n : nat) (l : list byte) : list byte :=
  firstn n (l ++ repeat x00 n).

(** [" .:-=+*#%@"[fileData[i] / 26]] followed by a line break after every
    [inputW] characters. *)
Fixpoint ascii_art (i : Z) (fileData : list byte) : string :=
  match fileData with
  | [] => ""
  | b :: rest =>
      String (nth (Z.to_nat (uint8 b / 26)) (list_ascii_of_string " .:-=+*#%@") " "%char)
        (if Z.rem (i + 1) inputW =? 0
         then String "010"%char (ascii_art (i + 1) rest)
         else ascii_art (i + 1) rest)
  end.

(** [hostDataBuffer[i] = 1.0 - float(fileData[i] / 255.0);] *)
Definition pixel (b : byte) : float :=
  F64.to_float
    (F64.sub (F64.of_Z 1) (F64.to_float (F64.div (F64.of_Z (uint8 b)) (F64.of_Z 255)))).

(** [SampleOnnxMNIST::processInput]: the result, the object and the host input
    buffer it filled.  [srand] only seeds the generator: the value that
    [rand()] then returns is [rand w].  [locateFile] is taken as a function
    from the file name and the directories to a path. *)
Definition processInput (s : SampleOnnxMNIST) : Run (bool * SampleOnnxMNIST * list float) :=
  let s := with_mNumber (Z.rem (rand w) 10) s in
  let file := locateFile w (String.append (to_string (mNumber s)) ".pgm")
                (Params.dataDirs (mParams s)) in
  call (E_readPGMFile file inputH inputW) ;;
  let fileData := fill (Z.to_nat (inputH * inputW)) (readPGMFile w file inputH inputW) in
  call (E_gLogInfo "Input:") ;;
  call (E_gLogInfo (ascii_art 0 fileData)) ;;
  let hostDataBuffer := map pixel fileData in
  ret (true, s, hostDataBuffer).

(** The names [getIOTensorName(i)] for [0 <= i < getNbIOTensors()]. *)
Definition ioTensorNames : list string :=
  map (fun i => getIOTensorName w (Z.of_nat i)) (seq 0 (Z.to_nat (getNbIOTensors w))).

(** [SampleOnnxMNIST::infer].  The lines written to the log by [verifyOutput]
    are represented by their heading; the result is the one of runs in which
    the line of every class can be written (see [stars]). *)
Definition infer (s : SampleOnnxMNIST) : Run (bool * SampleOnnxMNIST) :=
  call E_BufferManager ;;
  match mEngine s with
  | None => undefined "mEngine->createExecutionContext()"
  | Some _ =>
      call E_createExecutionContext ;;
      if negb (createExecutionContext_ok w) then ret (false, s) else
      for_each ioTensorNames (fun name => call (E_setTensorAddress name)) ;;
      ASSERT (Z.of_nat (length (Params.inputTensorNames (mParams s))) =? 1)
        "mParams.inputTensorNames.size() == 1" ;;
      r <- processInput s ;;
      let s := snd (fst r) in
      if negb (fst (fst r)) then ret (false, s) else
      call E_copyInputToDevice ;;
      call E_executeV2 ;;
      match executeV2 w (snd r) with
      | None => ret (false, s)
      | Some output =>
          call E_copyOutputToHost ;;
          call (E_gLogInfo "Output:") ;;
          if negb (verifyOutput (exp w) output (mNumber s)) then ret (false, s) else
          ret (true, s)
      end
  end.

(** [SampleOnnxMNIST::checkEngineLoad]. *)
Definition checkEngineLoad (s : SampleOnnxMNIST) : bool :=
  negb (empty (Params.loadEngine (mParams s))).

(** [SampleOnnxMNIST::load], which [main] does not call. *)
Definition load (s : SampleOnnxMNIST) : Run (bool * SampleOnnxMNIST) :=
  let file := Params.loadEngine (mParams s) in
  call (E_getEngine file (-1)) ;;
  let s := with_mEngine
             (if getEngine_ok w file (-1) then Some {| plan := [] |} else None) s in
  match mEngine s with
  | None => call (E_cout "load engine failed") ;; ret (false, s)
  | Some _ => ret (true, s)
  end.

(** [SampleOnnxMNIST::loadV3].  The size of the buffer is what [tellg]
    returned, unchecked; elsewhere in the sample the sizes are small and
    allocation is taken to succeed. *)
Definition loadV3 (s : SampleOnnxMNIST) : Run (bool * SampleOnnxMNIST) :=
  let enginePath := Params.loadEngine (mParams s) in
  call (E_ifstream enginePath) ;;
  match ifstream w enginePath with
  | None =>
      call (E_cerr (String.append "Error opening engine file: " enginePath)) ;;
      ret (false, s)
  | Some engineFile =>
      let fsize := tellg engineFile in
      (* std::vector<char> engineData(fsize): a negative size, converted to
         size_t, is beyond max_size(); the allocation of fsize bytes can fail *)
      if fsize <? 0 then throw "std::length_error" else
      if negb (file_alloc_ok engineFile) then throw "std::bad_alloc" else
      call (E_read fsize) ;;
      if negb (file_read_ok engineFile)
      then call (E_cerr (String.append "Error loading engine file: " enginePath)) ;;
           ret (false, s)
      else
      let engineData := file_bytes engineFile in
      call E_createInferRuntime ;;
      let s := with_mRuntime
                 (if createInferRuntime_ok w then Some TheRuntime else None) s in
      let DLACore := -1 in
      (if negb (DLACore =? -1)
       then match mRuntime s with
            | None => undefined "mRuntime->setDLACore(DLACore)"
            | Some _ => call (E_setDLACore DLACore)
            end
       else ret tt) ;;
      match mRuntime s with
      | None => undefined "mRuntime->deserializeCudaEngine(engineData.data(), fsize)"
      | Some _ =>
          call (E_deserializeCudaEngine engineData fsize) ;;
          let s := with_mEngine
                     (if deserializeCudaEngine_ok w engineData fsize
                      then Some {| plan := engineData |} else None) s in
          ret (true, s)
      end
  end.

End Sample.

(** [initializeSampleParams]. *)
Definition initializeSampleParams (args : Args.t) : Run Params.t :=
  let params :=
    {| Params.dataDirs :=
         match Args.dataDirs args with
         | [] => ["data/mnist/"; "data/samples/mnist/"]
         | _ :: _ => Args.dataDirs args
         end;
       Params.onnxFileName := "mnist.onnx";
       Params.inputTensorNames := ["Input3"];
       Params.outputTensorNames := ["Plus214_Output_0"];
       Params.dlaCore := Args.useDLACore args;
       Params.int8 := Args.runInInt8 args;
       Params.fp16 := Args.runInFp16 args;
       Params.bf16 := Args.runInBf16 args;
       Params.timingCacheFile := Args.timingCacheFile args;
       Params.saveEngine := Args.saveEngine args;
       Params.loadEngine := Args.loadEngine args |} in
  call (E_cout (String.append "save Engine path: " (Params.saveEngine params))) ;;
  ret params.

(** [main], from the result [argsOK] of [samplesCommon::parseArgs] and the
    arguments it parsed. *)
Definition main (w : World) (argsOK : bool) (args : Args.t) : Run ExitStatus :=
  if negb argsOK
  then call (E_gLogError "Invalid arguments") ;; call E_printHelpInfo ;; ret EXIT_FAILURE
  else
  if Args.help args
  then call E_printHelpInfo ;; ret EXIT_SUCCESS
  else
  call E_reportTestStart ;;
  params <- initializeSampleParams args ;;
  let sample := SampleOnnxMNIST_new params in
  call (E_gLogInfo "Building and running a GPU inference engine for Onnx MNIST") ;;
  acquired <-
    (if checkEngineLoad sample
     then call (E_cout "Engine load path is set") ;; loadV3 w sample
     else build w sample) ;;
  if negb (fst acquired) then call E_reportFail ;; ret Status_reportFail else
  inferred <- infer w (snd acquired) ;;
  if negb (fst inferred) then call E_reportFail ;; ret Status_reportFail else
  call E_reportPass ;; ret Status_reportPass.

(* ================================================================== *)
(** ** Concrete worlds and arguments for the examples *)
(* ================================================================== *)

(** A stand-in for [exp] in the examples: large above 10, one elsewhere. *)
Definition demo_exp (x : float) : float :=
  if F32.ltb (F32.of_Z 10) x then F32.of_Z 1048576 else F32.of_Z 1.

(** Ten logits, all zero but the one at [digit], which is 20. *)
Definition demo_logits (digit : nat) : list float :=
  assign digit (F32.of_Z 20) (repeat F32.zero 10).

Definition demo_plan : list byte := [x54; x52; x54; x01].

(** A regular file that holds [demo_plan] and reads without error. *)
Definition demo_file : EngineFile :=
  {| file_bytes := demo_plan; file_seek_ok := true; file_alloc_ok := true;
     file_get_ok := true |}.

(** A world in which every call succeeds unless a parameter says otherwise:
    [r] is the value of [rand()], [engine_ok] the success of
    [deserializeCudaEngine], [save_ok] that of [sample::saveEngine], [nin] the
    number of network inputs, [out] the output tensor after [executeV2]. *)
Definition demo_world (r : Z) (engine_ok save_ok : bool) (nin : Z) (out : list float)
  : World :=
  {| locateFile := fun name dirs => String.append (hd "" dirs) name;
     makeCudaStream_ok := true;
     buildTimingCacheFromFile_ok := fun _ => true;
     saveEngine_ok := fun _ => save_ok;
     getEngine_ok := fun _ _ => engine_ok;
     readPGMFile := fun _ _ _ => repeat xff 784;
     createInferBuilder_ok := true;
     createNetworkV2_ok := true;
     createBuilderConfig_ok := true;
     createParser_ok := true;
     parseFromFile_ok := fun _ => true;
     buildSerializedNetwork := Some demo_plan;
     getNbInputs := nin;
     getInput0_getDimensions := {| nbDims := 4; d := [1; 1; 28; 28] |};
     getNbOutputs := 1;
     getOutput0_getDimensions := {| nbDims := 2; d := [1; 10] |};
     createInferRuntime_ok := true;
     deserializeCudaEngine_ok := fun _ _ => engine_ok;
     createExecutionContext_ok := true;
     getNbIOTensors := 2;
     getIOTensorName := fun i => if i =? 0 then "Input3" else "Plus214_Output_0";
     executeV2 := fun _ => Some out;
     ifstream := fun path =>
       if String.eqb path "mnist.engine"
       then Some demo_file
       else None;
     rand := r;
     exp := demo_exp |}.

(** Command lines: no option at all, [--saveEngine=mnist.engine],
    [--loadEngine=mnist.engine --useDLACore=3], and [--help]. *)
Definition args_default : Args.t :=
  {| Args.help := false; Args.runInInt8 := false; Args.runInFp16 := false;
     Args.runInBf16 := false; Args.useDLACore := -1; Args.dataDirs := [];
     Args.saveEngine := ""; Args.loadEngine := ""; Args.timingCacheFile := "" |}.

Definition args_save : Args.t :=
  {| Args.help := false; Args.runInInt8 := false; Args.runInFp16 := true;
     Args.runInBf16 := false; Args.useDLACore := 3; Args.dataDirs := ["data/"];
     Args.saveEngine := "mnist.engine"; Args.loadEngine := "";
     Args.timingCacheFile := "timing.cache" |}.

Definition args_load : Args.t :=
  {| Args.help := false; Args.runInInt8 := false; Args.runInFp16 := false;
     Args.runInBf16 := false; Args.useDLACore := 3; Args.dataDirs := [];
     Args.saveEngine := ""; Args.loadEngine := "mnist.engine";
     Args.timingCacheFile := "" |}.

Definition args_help : Args.t :=
  {| Args.help := true; Args.runInInt8 := false; Args.runInFp16 := false;
     Args.runInBf16 := false; Args.useDLACore := -1; Args.dataDirs := [];
     Args.saveEngine := ""; Args.loadEngine := ""; Args.timingCacheFile := "" |}.

(** Ten logits with the same largest value at two positions. *)
Definition demo_tie (i j : nat) : list float :=
  assign j (F32.of_Z 20) (demo_logits i).

(* ================================================================== *)
(** ** Observations on traces *)
(* ================================================================== *)

(** Some call of the trace satisfies [P]. *)
Definition emits (P : Event -> bool) (tr : list Event) : bool := existsb P tr.

(** The first call of [loadV3] opens the plan file; the first call of [build]
    creates the builder.  No other function makes these calls. *)
Definition is_ifstream (e : Event) : bool :=
  match e with E_ifstream _ => true | _ => false end.

Definition is_createInferBuilder (e : Event) : bool :=
  match e with E_createInferBuilder => true | _ => false end.

Definition runs_load (tr : list Event) : bool := emits is_ifstream tr.
Definition runs_build (tr : list Event) : bool := emits is_createInferBuilder tr.

(** The calls that hand a DLA core to the runtime or the builder. *)
Definition is_dla (e : Event) : bool :=
  match e with E_enableDLA _ | E_setDLACore _ => true | _ => false end.

Definition dla_reaches_runtime (core : Z) (tr : list Event) : Prop :=
  In (E_enableDLA core) tr \/ In (E_setDLACore core) tr.

Definition is_saveEngine (e : Event) : bool :=
  match e with E_saveEngine _ => true | _ => false end.

Definition is_infer (e : Event) : bool :=
  match e with E_BufferManager => true | _ => false end.

Definition is_reportFail (e : Event) : bool :=
  match e with E_reportFail => true | _ => false end.

(** The network that [parseFromFile] produced has the shape of the MNIST
    model: one input of 4 dimensions and one output of 2. *)
Definition mnist_shape (w : World) : bool :=
  (getNbInputs w =? 1) && (nbDims (getInput0_getDimensions w) =? 4) &&
  (getNbOutputs w =? 1) && (nbDims (getOutput0_getDimensions w) =? 2).

(** The calls of [constructNetwork] after a successful parse. *)
Definition configure_calls (p : Params.t) : list Event :=
  (if Params.fp16 p then [E_setFlag kFP16] else []) ++
  (if Params.bf16 p then [E_setFlag kBF16] else []) ++
  (if Params.int8 p then [E_setFlag kINT8; E_setAllDynamicRanges] else []) ++
  (if negb (empty (Params.timingCacheFile p))
   then [E_buildTimingCacheFromFile (Params.timingCacheFile p)] else []) ++
  [E_enableDLA (Params.dlaCore p)].


(* ================================================================== *)
(** ** The calls of the straight-line paths *)
(* ================================================================== *)

(** The parameters [initializeSampleParams] returns. *)
Definition params_of (args : Args.t) : Params.t :=
  {| Params.dataDirs :=
       match Args.dataDirs args with
       | [] => ["data/mnist/"; "data/samples/mnist/"]
       | _ :: _ => Args.dataDirs args
       end;
     Params.onnxFileName := "mnist.onnx";
     Params.inputTensorNames := ["Input3"];
     Params.outputTensorNames := ["Plus214_Output_0"];
     Params.dlaCore := Args.useDLACore args;
     Params.int8 := Args.runInInt8 args;
     Params.fp16 := Args.runInFp16 args;
     Params.bf16 := Args.runInBf16 args;
     Params.timingCacheFile := Args.timingCacheFile args;
     Params.saveEngine := Args.saveEngine args;
     Params.loadEngine := Args.loadEngine args |}.

(** The file [constructNetwork] parses. *)
Definition onnx_file (w : World) (s : SampleOnnxMNIST) : string :=
  locateFile w (Params.onnxFileName (mParams s)) (Params.dataDirs (mParams s)).

(** Every check of [build] before [sample::saveEngine] passes. *)
Definition reaches_save (w : World) (s : SampleOnnxMNIST) : bool :=
  createInferBuilder_ok w && createNetworkV2_ok w && createBuilderConfig_ok w &&
  createParser_ok w && parseFromFile_ok w (onnx_file w s) && makeCudaStream_ok w &&
  match buildSerializedNetwork w with
  | Some plan =>
      createInferRuntime_ok w &&
      deserializeCudaEngine_ok w plan (Z.of_nat (length plan))
  | None => false
  end.

(** The calls of [build] up to and including [sample::saveEngine], for the
    serialized network [plan]. *)
Definition build_calls (w : World) (s : SampleOnnxMNIST) (plan : list byte) : list Event :=
  [E_createInferBuilder; E_createNetworkV2 0; E_createBuilderConfig; E_createParser;
   E_parseFromFile (onnx_file w s)] ++
  configure_calls (mParams s) ++
  [E_makeCudaStream; E_setProfileStream; E_buildSerializedNetwork] ++
  (if negb (empty (Params.timingCacheFile (mParams s))) &&
      buildTimingCacheFromFile_ok w (Params.timingCacheFile (mParams s))
   then [E_updateTimingCacheFile (Params.timingCacheFile (mParams s))] else []) ++
  [E_createInferRuntime;
   E_deserializeCudaEngine plan (Z.of_nat (length plan));
   E_saveEngine (Params.saveEngine (mParams s))].

(** The digit [processInput] draws, the file it reads and the buffer it
    fills. *)
Definition drawn_digit (w : World) : Z := Z.rem (rand w) 10.

Definition digit_file (w : World) (s : SampleOnnxMNIST) : string :=
  locateFile w (String.append (to_string (drawn_digit w)) ".pgm")
    (Params.dataDirs (mParams s)).

Definition host_input (w : World) (s : SampleOnnxMNIST) : list float :=
  map pixel (fill 784 (readPGMFile w (digit_file w s) 28 28)).

(** The calls of [infer] when the engine and the execution context exist. *)
Definition infer_calls (w : World) (s : SampleOnnxMNIST) : list Event :=
  [E_BufferManager; E_createExecutionContext] ++
  map E_setTensorAddress (ioTensorNames w) ++
  [E_readPGMFile (digit_file w s) 28 28;
   E_gLogInfo "Input:";
   E_gLogInfo (ascii_art 0 (fill 784 (readPGMFile w (digit_file w s) 28 28)));
   E_copyInputToDevice; E_executeV2] ++
  match executeV2 w (host_input w s) with
  | Some _ => [E_copyOutputToHost; E_gLogInfo "Output:"]
  | None => []
  end.

(** The engine acquisition step [main] chooses. *)
Definition acquire (w : World) (sample : SampleOnnxMNIST) : Run (bool * SampleOnnxMNIST) :=
  if checkEngineLoad sample
  then call (E_cout "Engine load path is set") ;; loadV3 w sample
  else build w sample.

(** The calls of [main] before the engine is acquired. *)
Definition main_prologue (args : Args.t) : list Event :=
  [E_reportTestStart;
   E_cout (String.append "save Engine path: " (Args.saveEngine args));
   E_gLogInfo "Building and running a GPU inference engine for Onnx MNIST"].

(** What [main] calls and returns after the engine acquisition step ended
    with outcome [o]. *)
Definition main_epilogue (w : World) (o : Outcome (bool * SampleOnnxMNIST)) : list Event :=
  match o with
  | Returns (true, s1) =>
      trace (infer w s1) ++
      match outcome (infer w s1) with
      | Returns (true, _) => [E_reportPass]
      | Returns (false, _) => [E_reportFail]
      | _ => []
      end
  | Returns (false, _) => [E_reportFail]
  | _ => []
  end.

Definition main_result (w : World) (o : Outcome (bool * SampleOnnxMNIST))
  : Outcome ExitStatus :=
  match o with
  | Returns (true, s1) =>
      match outcome (infer w s1) with
      | Returns (true, _) => Returns Status_reportPass
      | Returns (false, _) => Returns Status_reportFail
      | Aborts c => Aborts c
      | Undefined e => Undefined e
      | Throws x => Throws x
      end
  | Returns (false, _) => Returns Status_reportFail
  | Aborts c => Aborts c
  | Undefined e => Undefined e
  | Throws x => Throws x
  end.

Definition is_deserialize (e : Event) : bool :=
  match e with E_deserializeCudaEngine _ _ => true | _ => false end.


(** The world of a run that passes on digit 3, and an object that holds an
    engine. *)
Definition demo_pass : World := demo_world 13 true true 1 (demo_logits 3).

Definition demo_sample : SampleOnnxMNIST :=
  with_mEngine (Some {| plan := demo_plan |})
    (SampleOnnxMNIST_new (params_of args_default)).

(** The world of a run on the load path whose plan file does not
    deserialize: [deserializeCudaEngine] returns null. *)
Definition demo_bad_plan : World := demo_world 13 false true 1 (demo_logits 3).


(* ================================================================== *)
(** ** Further definitions: overflow, bytes, loadV2, variants of worlds *)
(* ================================================================== *)

(** A sum of exponentials that is no number or is infinite. *)
Definition overflowed (x : float) : Prop :=
  x = S754_nan \/ x = S754_infinity false.

(** [a <= b] on floats. *)
Definition leb (a b : float) : bool := SFleb a b.

(** The 256 values of [uint8_t]. *)
Definition byte_of_nat (n : nat) : byte :=
  match Byte.of_nat n with Some b => b | None => x00 end.

Definition all_bytes : list byte := map byte_of_nat (seq 0 256).

(** Ten logits whose entry at [i] is [v], the others zero. *)
Definition logits_with (i : nat) (v : float) : list float :=
  assign i v (repeat F32.zero 10).

(** A stand-in for [exp] that overflows above 10 and maps NaN to NaN. *)
Definition overflowing_exp (x : float) : float :=
  match x with
  | S754_nan => S754_nan
  | _ => if F32.ltb (F32.of_Z 10) x then S754_infinity false else F32.of_Z 1
  end.

(** The argument of [std::string(..., '*')] in the log line that the second
    loop of [verifyOutput] writes for every class:
    [int(std::floor(output[i] * 10 + 0.5F))]. *)
Definition star_count (x : float) : option Z :=
  F32.to_int (F32.floor (F32.add (F32.mul x (F32.of_Z 10)) F32.c0_5)).

(** The string of stars of that line.  Where the conversion to [int] is
    undefined the program has no defined behaviour; a negative count,
    converted to [size_t], is beyond [max_size()] and the constructor of
    [std::string] throws. *)
Definition stars (x : float) : Outcome string :=
  match star_count x with
  | None => Undefined "int(std::floor(output[i] * 10 + 0.5F))"
  | Some n =>
      if n <? 0 then Throws "std::length_error"
      else Returns (string_of_list_ascii (repeat "*"%char (Z.to_nat n)))
  end.

(** [SampleOnnxMNIST::loadV2], which [main] does not call: as [loadV3], with
    the runtime in a local variable instead of [mRuntime].  (Destructors of
    local objects are not recorded as calls, here as elsewhere.) *)
Definition loadV2 (w : World) (s : SampleOnnxMNIST) : Run (bool * SampleOnnxMNIST) :=
  let enginePath := Params.loadEngine (mParams s) in
  call (E_ifstream enginePath) ;;
  match ifstream w enginePath with
  | None =>
      call (E_cerr (String.append "Error opening engine file: " enginePath)) ;;
      ret (false, s)
  | Some engineFile =>
      let fsize := tellg engineFile in
      if fsize <? 0 then throw "std::length_error" else
      if negb (file_alloc_ok engineFile) then throw "std::bad_alloc" else
      call (E_read fsize) ;;
      if negb (file_read_ok engineFile)
      then call (E_cerr (String.append "Error loading engine file: " enginePath)) ;;
           ret (false, s)
      else
      let engineData := file_bytes engineFile in
      call E_createInferRuntime ;;
      let runtime := if createInferRuntime_ok w then Some TheRuntime else None in
      let DLACore := -1 in
      (if negb (DLACore =? -1)
       then match runtime with
            | None => undefined "runtime->setDLACore(DLACore)"
            | Some _ => call (E_setDLACore DLACore)
            end
       else ret tt) ;;
      match runtime with
      | None => undefined "runtime->deserializeCudaEngine(engineData.data(), fsize)"
      | Some _ =>
          call (E_deserializeCudaEngine engineData fsize) ;;
          let s := with_mEngine
                     (if deserializeCudaEngine_ok w engineData fsize
                      then Some {| plan := engineData |} else None) s in
          ret (true, s)
      end
  end.

(** A world that differs from [w] in the plan files and in the success of
    [createInferRuntime]. *)
Definition with_files (files : string -> option EngineFile) (runtime_ok : bool)
  (w : World) : World :=
  {| locateFile := locateFile w;
     makeCudaStream_ok := makeCudaStream_ok w;
     buildTimingCacheFromFile_ok := buildTimingCacheFromFile_ok w;
     saveEngine_ok := saveEngine_ok w;
     getEngine_ok := getEngine_ok w;
     readPGMFile := readPGMFile w;
     createInferBuilder_ok := createInferBuilder_ok w;
     createNetworkV2_ok := createNetworkV2_ok w;
     createBuilderConfig_ok := createBuilderConfig_ok w;
     createParser_ok := createParser_ok w;
     parseFromFile_ok := parseFromFile_ok w;
     buildSerializedNetwork := buildSerializedNetwork w;
     getNbInputs := getNbInputs w;
     getInput0_getDimensions := getInput0_getDimensions w;
     getNbOutputs := getNbOutputs w;
     getOutput0_getDimensions := getOutput0_getDimensions w;
     createInferRuntime_ok := runtime_ok;
     deserializeCudaEngine_ok := deserializeCudaEngine_ok w;
     createExecutionContext_ok := createExecutionContext_ok w;
     getNbIOTensors := getNbIOTensors w;
     getIOTensorName := getIOTensorName w;
     executeV2 := executeV2 w;
     ifstream := files;
     rand := rand w;
     exp := exp w |}.

(** A plan file that opens and tells its size, but cannot be read to its
    end. *)
Definition demo_unreadable : World :=
  with_files
    (fun _ => Some {| file_bytes := demo_plan; file_seek_ok := true;
                      file_alloc_ok := true; file_get_ok := false |})
    true demo_pass.





(** No plan file can be opened. *)
Definition demo_no_file : World := with_files (fun _ => None) true demo_pass.

(** [createInferRuntime] returns null. *)
Definition demo_no_runtime : World := with_files (ifstream demo_pass) false demo_pass.

(** [--loadEngine=mnist.engine] with every other option set. *)
Definition args_load_all : Args.t :=
  {| Args.help := false; Args.runInInt8 := true; Args.runInFp16 := true;
     Args.runInBf16 := true; Args.useDLACore := 1; Args.dataDirs := [];
     Args.saveEngine := ""; Args.loadEngine := "mnist.engine";
     Args.timingCacheFile := "timing.cache" |}.

(** The calls [constructNetwork] makes: parsing the model and configuring
    the builder. *)
Definition is_constructNetwork (e : Event) : bool :=
  match e with
  | E_parseFromFile _ | E_setFlag _ | E_setAllDynamicRanges
  | E_buildTimingCacheFromFile _ | E_enableDLA _ => true
  | _ => false
  end.

Definition is_readPGMFile (e : Event) : bool :=
  match e with E_readPGMFile _ _ _ => true | _ => false end.

Definition is_executeV2 (e : Event) : bool :=
  match e with E_executeV2 => true | _ => false end.

(** The picture of the image in the words of its description: one line for
    every row of 28 bytes, one character of the ramp for every byte, a line
    break after every line. *)
Definition ramp_char (b : byte) : ascii :=
  nth (Z.to_nat (uint8 b / 26)) (list_ascii_of_string " .:-=+*#%@") " "%char.

Fixpoint rows (n : nat) (fileData : list byte) : list (list byte) :=
  match n with
  | O => []
  | S n' => firstn 28 fileData :: rows n' (skipn 28 fileData)
  end.

Definition picture_line (row : list byte) (rest : string) : string :=
  String.append (string_of_list_ascii (map ramp_char row)) (String "010"%char rest).

Definition picture (fileData : list byte) : string :=
  fold_right picture_line "" (rows 28 fileData).

(** The calls that report the result of the test. *)
Definition is_report (e : Event) : bool :=
  match e with E_reportPass | E_reportFail => true | _ => false end.

Definition is_createInferRuntime (e : Event) : bool :=
  match e with E_createInferRuntime => true | _ => false end.

Definition is_updateTimingCacheFile (e : Event) : bool :=
  match e with E_updateTimingCacheFile _ => true | _ => false end.


(** The verdict of [infer] once the engine exists: the execution context was
    created, [executeV2] succeeded and [verifyOutput] accepted its output for
    the drawn digit. *)
Definition infer_verdict (w : World) (s : SampleOnnxMNIST) : bool :=
  createExecutionContext_ok w &&
  match executeV2 w (host_input w s) with
  | Some output => verifyOutput (exp w) output (Z.rem (rand w) 10)
  | None => false
  end.

(** The exit status for a verdict of [infer]. *)
Definition status_of (verdict : bool) : ExitStatus :=
  if verdict then Status_reportPass else Status_reportFail.

(* ================================================================== *)
(** * Properties *)
(* ================================================================== *)

(** ** The order of binary32 values *)

Lemma lex3_Lt (a b : Z * Z * Z) : lex3 a b = Lt <-> lexlt a b.
Proof.
  destruct a as [[a1 a2] a3], b as [[b1 b2] b3]; unfold lex3, lexlt.
  destruct (Z.compare_spec a1 b1), (Z.compare_spec a2 b2), (Z.compare_spec a3 b3);
    split; intros; try discriminate; try reflexivity; lia.
Qed.

Lemma lex3_Eq (a b : Z * Z * Z) : lex3 a b = Eq <-> lexeq a b.
Proof.
  destruct a as [[a1 a2] a3], b as [[b1 b2] b3]; unfold lex3, lexeq.
  destruct (Z.compare_spec a1 b1), (Z.compare_spec a2 b2), (Z.compare_spec a3 b3);
    split; intros; try discriminate; try reflexivity; lia.
Qed.

Lemma SFcompare_rank (a b : float) :
  is_nan a = false -> is_nan b = false ->
  SFcompare a b = Some (lex3 (rank a) (rank b)).
Proof.
  destruct a as [[]|[]| |[] ma ea], b as [[]|[]| |[] mb eb];
    intros Ha Hb; try discriminate; try reflexivity; simpl.
  rewrite Z.compare_opp, (Z.compare_antisym ea eb).
  destruct (ea ?= eb); reflexivity.
Qed.

Lemma SFcompare_nan (a b : float) :
  is_nan a = true \/ is_nan b = true -> SFcompare a b = None.
Proof.
  destruct a as [[]|[]| |[] ma ea], b as [[]|[]| |[] mb eb];
    intros [H|H]; try discriminate; reflexivity.
Qed.

Lemma ltb_spec (a b : float) :
  F32.ltb a b = true <->
  is_nan a = false /\ is_nan b = false /\ lexlt (rank a) (rank b).
Proof.
  unfold F32.ltb, SFltb.
  destruct (is_nan a) eqn:Ha.
  { rewrite SFcompare_nan by auto. split; [discriminate | intros [? _]; discriminate]. }
  destruct (is_nan b) eqn:Hb.
  { rewrite SFcompare_nan by auto. split; [discriminate | intros (_ & ? & _); discriminate]. }
  rewrite SFcompare_rank by assumption. rewrite <- lex3_Lt.
  destruct (lex3 (rank a) (rank b)); split; intros; try discriminate; auto.
  all: destruct H as (_ & _ & ?); discriminate.
Qed.

Lemma eqb_spec (a b : float) :
  F32.eqb a b = true <->
  is_nan a = false /\ is_nan b = false /\ lexeq (rank a) (rank b).
Proof.
  unfold F32.eqb, SFeqb.
  destruct (is_nan a) eqn:Ha.
  { rewrite SFcompare_nan by auto. split; [discriminate | intros [? _]; discriminate]. }
  destruct (is_nan b) eqn:Hb.
  { rewrite SFcompare_nan by auto. split; [discriminate | intros (_ & ? & _); discriminate]. }
  rewrite SFcompare_rank by assumption. rewrite <- lex3_Eq.
  destruct (lex3 (rank a) (rank b)); split; intros; try discriminate; auto.
  all: destruct H as (_ & _ & ?); discriminate.
Qed.

(** Turns comparisons of floats in the context and the goal into statements
    on ranks and solves them by linear arithmetic. *)
Ltac float_order :=
  repeat match goal with
  | H : F32.ltb _ _ = true |- _ => apply ltb_spec in H; destruct H as (? & ? & H)
  | H : F32.eqb _ _ = true |- _ => apply eqb_spec in H; destruct H as (? & ? & H)
  | H : F32.ltb _ _ = false |- _ =>
      apply not_true_iff_false in H; rewrite ltb_spec in H
  | H : F32.eqb _ _ = false |- _ =>
      apply not_true_iff_false in H; rewrite eqb_spec in H
  | |- F32.ltb _ _ = false => apply not_true_iff_false; intro
  | |- F32.eqb _ _ = false => apply not_true_iff_false; intro
  | |- F32.ltb _ _ = true => apply ltb_spec
  | |- F32.eqb _ _ = true => apply eqb_spec
  end;
  repeat match goal with
  | |- context [rank ?x] =>
      let r1 := fresh "r" in let r2 := fresh "r" in let r3 := fresh "r" in
      destruct (rank x) as [[r1 r2] r3]
  | H : context [rank ?x] |- _ =>
      let r1 := fresh "r" in let r2 := fresh "r" in let r3 := fresh "r" in
      destruct (rank x) as [[r1 r2] r3]
  end;
  unfold lexlt, lexeq in *;
  repeat match goal with
  | H : is_nan _ = _ |- _ => revert H
  end;
  intros;
  try solve [intuition (congruence || lia)].

Lemma ltb_irrefl (a : float) : F32.ltb a a = false.
Proof. float_order. Qed.

Lemma ltb_trans (a b c : float) :
  F32.ltb a b = true -> F32.ltb b c = true -> F32.ltb a c = true.
Proof. intros; float_order. Qed.

Lemma ltb_not_below (a b c : float) :
  F32.ltb a b = true -> F32.ltb a c = false -> F32.ltb b c = false.
Proof. intros; float_order. Qed.

Lemma eqb_refl (a : float) : is_nan a = false -> F32.eqb a a = true.
Proof. intros; float_order. Qed.

Lemma eqb_sym (a b : float) : F32.eqb a b = F32.eqb b a.
Proof.
  destruct (F32.eqb a b) eqn:E1, (F32.eqb b a) eqn:E2; try reflexivity;
    exfalso; float_order.
Qed.

Lemma eqb_trichotomy (a b : float) :
  is_nan a = false -> is_nan b = false ->
  F32.ltb a b = false -> F32.ltb b a = false -> F32.eqb a b = true.
Proof. intros; float_order. Qed.

Lemma ltb_not_nan (a b : float) :
  F32.ltb a b = true -> is_nan a = false /\ is_nan b = false.
Proof. intros H; apply ltb_spec in H; tauto. Qed.

Lemma eqb_not_nan (a b : float) :
  F32.eqb a b = true -> is_nan a = false /\ is_nan b = false.
Proof. intros H; apply eqb_spec in H; tauto. Qed.

Lemma eqb_ltb_l (a b c : float) :
  F32.eqb a b = true -> F32.ltb a c = F32.ltb b c.
Proof.
  intros; destruct (F32.ltb a c) eqn:E1, (F32.ltb b c) eqn:E2; try reflexivity;
    exfalso; float_order.
Qed.

Lemma eqb_ltb_r (a b c : float) :
  F32.eqb a b = true -> F32.ltb c a = F32.ltb c b.
Proof.
  intros; destruct (F32.ltb c a) eqn:E1, (F32.ltb c b) eqn:E2; try reflexivity;
    exfalso; float_order.
Qed.

Lemma eqb_eqb_r (a b c : float) :
  F32.eqb a b = true -> F32.eqb c a = F32.eqb c b.
Proof.
  intros; destruct (F32.eqb c a) eqn:E1, (F32.eqb c b) eqn:E2; try reflexivity;
    exfalso; float_order.
Qed.

(** ** Signs of sums and quotients *)

Lemma binary_round_aux_sign (s : bool) (m e : Z) (l : location) :
  match binary_round_aux F32.prec F32.emax s m e l with
  | S754_nan => True
  | S754_zero s' | S754_infinity s' | S754_finite s' _ _ => s' = s
  end.
Proof.
  unfold binary_round_aux.
  destruct (shr_fexp F32.prec F32.emax m e l) as [mrs' e'].
  destruct (shr_fexp F32.prec F32.emax _ e' loc_Exact) as [mrs'' e''].
  destruct (shr_m mrs''); auto.
  destruct (Z.leb e'' (F32.emax - F32.prec)); reflexivity.
Qed.

Lemma add_sign_clear (a b : float) :
  sign_clear a -> sign_clear b -> sign_clear (F32.add a b).
Proof.
  destruct a as [sa|sa| |sa ma ea], b as [sb|sb| |sb mb eb]; simpl;
    intros Ha Hb; subst; try exact I; try reflexivity.
  unfold F32.add, SFadd, cond_Zopp, binary_normalize, binary_round.
  remember (Z.min ea eb) as ez.
  change (Z.pos (fst (shl_align ma ea ez)) + Z.pos (fst (shl_align mb eb ez)))
    with (Z.pos (fst (shl_align ma ea ez) + fst (shl_align mb eb ez))).
  generalize (fst (shl_align ma ea ez) + fst (shl_align mb eb ez))%positive; intros m.
  destruct (shl_align m ez _) as [mz ez'].
  apply (binary_round_aux_sign false).
Qed.

Lemma div_sign_clear (a b : float) :
  sign_clear a -> sign_clear b -> sign_clear (F32.div a b).
Proof.
  destruct a as [sa|sa| |sa ma ea], b as [sb|sb| |sb mb eb]; simpl;
    intros Ha Hb; subst; try exact I; try reflexivity.
  unfold F32.div, SFdiv.
  destruct (SFdiv_core_binary _ _ _ _ _ _) as [[mz ez] lz].
  apply (binary_round_aux_sign false).
Qed.

Lemma sum_sign_clear (l : list float) (acc : float) :
  sign_clear acc -> Forall sign_clear l -> sign_clear (fold_left F32.add l acc).
Proof.
  revert acc; induction l as [|x l IH]; intros acc Hacc Hl; simpl; [assumption|].
  inversion Hl; subst. apply IH; [apply add_sign_clear|]; assumption.
Qed.

Lemma softmax_sign_clear (fexp : float -> float) (output : list float) :
  (forall x, sign_clear (fexp x)) -> Forall sign_clear (softmax_spec fexp output).
Proof.
  intros Hexp. unfold softmax_spec.
  assert (He : Forall sign_clear (map fexp output)).
  { apply Forall_forall; intros x Hx; apply in_map_iff in Hx.
    destruct Hx as (y & <- & _); apply Hexp. }
  apply Forall_forall; intros x Hx; apply in_map_iff in Hx.
  destruct Hx as (y & <- & Hy).
  apply div_sign_clear.
  - rewrite Forall_forall in He; auto.
  - apply sum_sign_clear; [reflexivity | assumption].
Qed.

Lemma sign_clear_not_below_zero (x : float) :
  sign_clear x -> F32.ltb x F32.zero = false.
Proof. destruct x as [s|s| |s m e]; simpl; intros H; subst; reflexivity. Qed.

(** ** The running maximum *)

Lemma std_max_not_nan (v x : float) : is_nan v = false -> is_nan (std_max v x) = false.
Proof.
  intros Hv; unfold std_max; destruct (F32.ltb v x) eqn:E; [|assumption].
  apply ltb_not_nan in E; tauto.
Qed.

Lemma scan_val (l : list float) : forall (i : Z) (v : float) (idx : Z),
  is_nan v = false ->
  is_nan (fst (scan l i v idx)) = false /\
  F32.ltb (fst (scan l i v idx)) v = false /\
  (forall x, In x l -> F32.ltb (fst (scan l i v idx)) x = false) /\
  (fst (scan l i v idx) = v \/ In (fst (scan l i v idx)) l).
Proof.
  induction l as [|x l IH]; intros i v idx Hv; simpl.
  - repeat split; auto using ltb_irrefl. intros ? [].
  - pose proof (std_max_not_nan v x Hv) as Hv'.
    destruct (IH (i + 1) (std_max v x) (if F32.eqb (std_max v x) x then i else idx) Hv')
      as (Hn & Hge & Hall & Hin).
    set (vf := fst (scan l (i + 1) (std_max v x) _)) in *.
    clearbody vf. unfold std_max in *.
    destruct (F32.ltb v x) eqn:E.
    + repeat split; auto.
      * float_order.
      * intros y [<- | Hy]; auto.
      * destruct Hin as [-> | Hin]; auto.
    + repeat split; auto.
      * intros y [<- | Hy]; auto. float_order.
      * destruct Hin as [-> | Hin]; auto.
Qed.

Lemma scan_idx (l : list float) : forall (i : Z) (v : float) (idx : Z),
  is_nan v = false ->
  ((forall j, (j < length l)%nat -> F32.eqb (elem j l) (fst (scan l i v idx)) = false) /\
   snd (scan l i v idx) = idx) \/
  (exists j, (j < length l)%nat /\
     F32.eqb (elem j l) (fst (scan l i v idx)) = true /\
     (forall j', (j < j' < length l)%nat ->
        F32.eqb (elem j' l) (fst (scan l i v idx)) = false) /\
     snd (scan l i v idx) = i + Z.of_nat j).
Proof.
  induction l as [|x l IH]; intros i v idx Hv; simpl.
  - left; split; [intros; lia | reflexivity].
  - pose proof (std_max_not_nan v x Hv) as Hv'.
    pose proof (scan_val l (i + 1) (std_max v x)
                  (if F32.eqb (std_max v x) x then i else idx) Hv') as (Hn & _ & _ & Hin).
    destruct (IH (i + 1) (std_max v x) (if F32.eqb (std_max v x) x then i else idx) Hv')
      as [[Hnone Hk] | (j & Hj & Heq & Hlast & Hk)].
    + (* the final maximum is not attained in the tail: it is [std_max v x] *)
      assert (Hvf : fst (scan l (i + 1) (std_max v x)
                      (if F32.eqb (std_max v x) x then i else idx)) = std_max v x).
      { destruct Hin as [H | H]; [assumption | exfalso].
        apply (In_nth _ _ S754_nan) in H. destruct H as (n & Hlt & Hnth).
        specialize (Hnone n Hlt). unfold elem in Hnone.
        pose proof (eqb_refl _ Hn) as Hr. congruence. }
      rewrite Hk. rewrite Hvf in *.
      destruct (F32.eqb (std_max v x) x) eqn:E.
      * right; exists O. repeat split; try lia.
        -- simpl. rewrite eqb_sym. exact E.
        -- intros [|j'] Hj'; [lia|]. simpl. apply Hnone. lia.
      * left; split; [|reflexivity].
        intros [|j] Hj; simpl.
        -- rewrite eqb_sym. exact E.
        -- apply Hnone. lia.
    + right; exists (S j). repeat split.
      * lia.
      * exact Heq.
      * intros [|j'] Hj'; [lia|]. simpl. apply Hlast. lia.
      * rewrite Hk. lia.
Qed.

(** ** verifyOutput *)

(** A buffer of [outputSize] elements, element by element. *)
Lemma length_10 {A} (l : list A) :
  length l = 10%nat ->
  exists a0 a1 a2 a3 a4 a5 a6 a7 a8 a9, l = [a0; a1; a2; a3; a4; a5; a6; a7; a8; a9].
Proof.
  intros H.
  do 10 (destruct l as [|? l]; [discriminate H|]).
  destruct l; [|discriminate H].
  repeat eexists.
Qed.

(** The two loops compute the softmax in place, the running maximum of its
    entries from [0.0F] and the index [scan] keeps. *)
Lemma verifyOutput_loops_scan (fexp : float -> float) (output : list float) :
  length output = 10%nat ->
  verifyOutput_loops fexp output =
  (softmax_spec fexp output,
   fst (scan (softmax_spec fexp output) 0 F32.zero 0),
   snd (scan (softmax_spec fexp output) 0 F32.zero 0)).
Proof.
  intros H. apply length_10 in H.
  destruct H as (a0 & a1 & a2 & a3 & a4 & a5 & a6 & a7 & a8 & a9 & ->).
  cbv -[F32.add F32.div F32.eqb F32.ltb F32.zero std_max].
  reflexivity.
Qed.

Lemma elem_In (p : list float) (j : nat) : (j < length p)%nat -> In (elem j p) p.
Proof. intros; unfold elem; apply nth_In; assumption. Qed.

Lemma In_elem (p : list float) (x : float) :
  In x p -> exists j, (j < length p)%nat /\ elem j p = x.
Proof. intros H; apply (In_nth _ _ S754_nan) in H; exact H. Qed.

(** An entry that is maximal and not negative is equal to the running maximum
    from [0.0F]; [scan] then returns the last index of an entry of that
    value, and that index is the argmax. *)
Lemma scan_argmax (p : list float) (K : nat) :
  (K < length p)%nat ->
  is_nan (elem K p) = false ->
  (forall j, (j < length p)%nat -> F32.ltb (elem K p) (elem j p) = false) ->
  F32.ltb (elem K p) F32.zero = false ->
  exists k, is_argmax p k /\ (K <= k)%nat /\
    F32.eqb (elem k p) (elem K p) = true /\
    F32.eqb (elem k p) (fst (scan p 0 F32.zero 0)) = true /\
    snd (scan p 0 F32.zero 0) = Z.of_nat k.
Proof.
  intros HK Hnan Hmax Hpos.
  destruct (scan_val p 0 F32.zero 0 eq_refl) as (Hn & _ & Hall & Hin).
  pose proof (scan_idx p 0 F32.zero 0 eq_refl) as Hidx.
  set (vf := fst (scan p 0 F32.zero 0)) in *.
  assert (Heq : F32.eqb (elem K p) vf = true).
  { apply eqb_trichotomy; auto.
    - destruct Hin as [-> | Hin]; [assumption|].
      apply In_elem in Hin. destruct Hin as (j & Hj & <-). auto.
    - apply Hall, elem_In, HK. }
  destruct Hidx as [[Hnone _] | (k & Hk & Hkeq & Hlast & Hsnd)].
  { rewrite Hnone in Heq by assumption. discriminate. }
  exists k.
  assert (HkK : F32.eqb (elem k p) (elem K p) = true).
  { rewrite (eqb_eqb_r _ _ _ Heq). exact Hkeq. }
  assert (HKk : (K <= k)%nat).
  { destruct (Nat.le_gt_cases K k) as [|Hlt]; [assumption|].
    rewrite Hlast in Heq by lia. discriminate. }
  repeat split; auto.
  - apply eqb_not_nan in Hkeq; tauto.
  - intros j Hj. rewrite (eqb_ltb_l _ _ _ Hkeq). apply Hall, elem_In, Hj.
  - intros j Hj. rewrite (eqb_eqb_r _ _ _ Hkeq). apply Hlast, Hj.
Qed.

(** [idx == mNumber && val > c] for a threshold [c] above zero. *)
Lemma scan_threshold (p : list float) (c : float) (m : Z) :
  F32.ltb F32.zero c = true ->
  (snd (scan p 0 F32.zero 0) =? m) && F32.ltb c (fst (scan p 0 F32.zero 0)) = true <->
  exists K, is_argmax p K /\ Z.of_nat K = m /\ F32.ltb c (elem K p) = true.
Proof.
  intros Hc. split.
  - intros H. apply andb_true_iff in H. destruct H as [Hm Hv]. apply Z.eqb_eq in Hm.
    destruct (scan_val p 0 F32.zero 0 eq_refl) as (Hn & _ & Hall & Hin).
    pose proof (scan_idx p 0 F32.zero 0 eq_refl) as Hidx.
    set (vf := fst (scan p 0 F32.zero 0)) in *.
    destruct Hidx as [[Hnone _] | (k & Hk & Hkeq & Hlast & Hsnd)].
    + exfalso. destruct Hin as [Hz | Hin].
      * rewrite Hz in Hv. float_order.
      * apply In_elem in Hin. destruct Hin as (j & Hj & Hjv).
        specialize (Hnone j Hj). rewrite Hjv, eqb_refl in Hnone by assumption.
        discriminate.
    + exists k. split; [|split].
      * repeat split; auto.
        -- apply eqb_not_nan in Hkeq; tauto.
        -- intros j Hj. rewrite (eqb_ltb_l _ _ _ Hkeq). apply Hall, elem_In, Hj.
        -- intros j Hj. rewrite (eqb_eqb_r _ _ _ Hkeq). apply Hlast, Hj.
      * rewrite <- Hm, Hsnd. lia.
      * rewrite (eqb_ltb_r _ _ _ Hkeq). exact Hv.
  - intros (K & (HK & Hnan & Hmax & Hlastk) & Hm & Hv).
    assert (Hpos : F32.ltb (elem K p) F32.zero = false) by float_order.
    destruct (scan_argmax p K HK Hnan Hmax Hpos) as (k & _ & HKk & HkK & Hkv & Hsnd).
    assert (k = K).
    { destruct (Nat.eq_dec k K) as [|Hne]; [assumption|].
      rewrite Hlastk in HkK; [discriminate|].
      split; [lia|]. apply eqb_spec in Hkv.
      destruct (Nat.lt_ge_cases k (length p)) as [|Hge]; [assumption|].
      unfold elem in Hkv. rewrite nth_overflow in Hkv by assumption.
      destruct Hkv as [Hkv _]; discriminate. }
    subst k. apply andb_true_iff; split.
    + apply Z.eqb_eq. congruence.
    + rewrite <- (eqb_ltb_r _ _ _ Hkv). exact Hv.
Qed.

Lemma zero_below_c0_9 : F32.ltb F32.zero F32.c0_9 = true.
Proof. reflexivity. Qed.

(** C1.  On a 10-element output vector [verifyOutput] leaves in the buffer the
    softmax of the vector (every entry replaced by its exponential divided by
    the sum of all exponentials), and it returns [true] if and only if the
    index of the maximal softmax probability equals the expected digit
    [mNumber] and that probability is strictly greater than [0.9F]. *)
Theorem verifyOutput_softmax_argmax_threshold
  (fexp : float -> float) (output : list float) (mNumber : Z) :
  length output = 10%nat ->
  fst (fst (verifyOutput_loops fexp output)) = softmax_spec fexp output /\
  (verifyOutput fexp output mNumber = true <->
   exists K, is_argmax (softmax_spec fexp output) K /\
             Z.of_nat K = mNumber /\
             F32.ltb F32.c0_9 (elem K (softmax_spec fexp output)) = true).
Proof.
  intros Hlen. unfold verifyOutput.
  rewrite (verifyOutput_loops_scan fexp output Hlen). split; [reflexivity|].
  apply scan_threshold, zero_below_c0_9.
Qed.

(** C9.  When entries of the softmaxed output vector share the maximal value,
    the index [idx] that [verifyOutput] computes is the largest index of such
    an entry: it is the last position whose entry equals the running maximum
    [val].  ([exp] returns values with a clear sign bit.) *)
Theorem verifyOutput_ties_take_last_index
  (fexp : float -> float) (output : list float) (K : nat) :
  (forall x, sign_clear (fexp x)) ->
  length output = 10%nat ->
  (K < 10)%nat ->
  is_nan (elem K (softmax_spec fexp output)) = false ->
  (forall j, (j < 10)%nat ->
     F32.ltb (elem K (softmax_spec fexp output)) (elem j (softmax_spec fexp output)) = false) ->
  exists k,
    snd (verifyOutput_loops fexp output) = Z.of_nat k /\
    (K <= k < 10)%nat /\
    F32.eqb (elem k (softmax_spec fexp output)) (elem K (softmax_spec fexp output)) = true /\
    F32.eqb (elem k (softmax_spec fexp output)) (snd (fst (verifyOutput_loops fexp output)))
      = true /\
    forall j, (k < j < 10)%nat ->
      F32.eqb (elem j (softmax_spec fexp output)) (elem K (softmax_spec fexp output)) = false.
Proof.
  intros Hexp Hlen HK Hnan Hmax.
  rewrite (verifyOutput_loops_scan fexp output Hlen). simpl fst; simpl snd.
  assert (Hl : length (softmax_spec fexp output) = 10%nat).
  { unfold softmax_spec. rewrite !length_map. exact Hlen. }
  rewrite <- Hl in HK, Hmax.
  assert (Hpos : F32.ltb (elem K (softmax_spec fexp output)) F32.zero = false).
  { apply sign_clear_not_below_zero.
    pose proof (softmax_sign_clear fexp output Hexp) as Hs.
    rewrite Forall_forall in Hs. apply Hs, elem_In, HK. }
  destruct (scan_argmax _ K HK Hnan Hmax Hpos)
    as (k & (Hk & _ & _ & Hlast) & HKk & HkK & Hkv & Hsnd).
  exists k. rewrite <- Hl. repeat split; auto.
  intros j Hj. rewrite <- (eqb_eqb_r _ _ _ HkK). apply Hlast, Hj.
Qed.

Lemma verifyOutput_softmax_argmax_threshold_witness :
  length (demo_logits 3) = 10%nat /\
  (fst (fst (verifyOutput_loops demo_exp (demo_logits 3)))
     = softmax_spec demo_exp (demo_logits 3) /\
   (verifyOutput demo_exp (demo_logits 3) 3 = true <->
    exists K, is_argmax (softmax_spec demo_exp (demo_logits 3)) K /\
              Z.of_nat K = 3 /\
              F32.ltb F32.c0_9 (elem K (softmax_spec demo_exp (demo_logits 3))) = true)).
Proof.
  split; [reflexivity|].
  apply (verifyOutput_softmax_argmax_threshold demo_exp (demo_logits 3) 3).
  reflexivity.
Defined.

Lemma verifyOutput_ties_take_last_index_witness :
  exists k,
    snd (verifyOutput_loops demo_exp (demo_tie 3 7)) = Z.of_nat k /\
    (3 <= k < 10)%nat /\
    F32.eqb (elem k (softmax_spec demo_exp (demo_tie 3 7)))
            (elem 3 (softmax_spec demo_exp (demo_tie 3 7))) = true /\
    F32.eqb (elem k (softmax_spec demo_exp (demo_tie 3 7)))
            (snd (fst (verifyOutput_loops demo_exp (demo_tie 3 7)))) = true /\
    forall j, (k < j < 10)%nat ->
      F32.eqb (elem j (softmax_spec demo_exp (demo_tie 3 7)))
              (elem 3 (softmax_spec demo_exp (demo_tie 3 7))) = false.
Proof.
  apply (verifyOutput_ties_take_last_index demo_exp (demo_tie 3 7) 3).
  - intros x. unfold demo_exp. destruct (F32.ltb (F32.of_Z 10) x); reflexivity.
  - reflexivity.
  - lia.
  - reflexivity.
  - intros j Hj.
    do 10 (destruct j as [|j]; [vm_compute; reflexivity|]). lia.
Defined.

Example verifyOutput_tie_example :
  snd (verifyOutput_loops demo_exp (demo_tie 3 7)) = 7 /\
  verifyOutput demo_exp (demo_tie 3 7) 7 = false /\
  verifyOutput demo_exp (demo_logits 3) 3 = true /\
  verifyOutput demo_exp (demo_logits 3) 4 = false.
Proof. vm_compute. auto. Qed.

Example c0_9_bits : F32.c0_9 = S754_finite false 15099494 (-24).
Proof. reflexivity. Qed.

Example pixel_values : pixel x00 = F32.of_Z 1 /\ pixel xff = F32.zero.
Proof. vm_compute. auto. Qed.

(** ** Runs *)

Lemma trace_bind {A B} (m : Run A) (f : A -> Run B) :
  trace (bind m f) =
  trace m ++ match outcome m with Returns a => trace (f a) | _ => [] end.
Proof.
  unfold bind, trace, outcome. destruct (snd m); simpl; auto using app_nil_r.
Qed.

Lemma outcome_bind {A B} (m : Run A) (f : A -> Run B) :
  outcome (bind m f) =
  match outcome m with
  | Returns a => outcome (f a)
  | Aborts c => Aborts c
  | Undefined e => Undefined e
  | Throws x => Throws x
  end.
Proof. unfold bind, outcome. destruct (snd m); reflexivity. Qed.

Lemma silent_bind {A B} (P : Event -> bool) (m : Run A) (f : A -> Run B) :
  emits P (trace m) = false ->
  (forall a, emits P (trace (f a)) = false) ->
  emits P (trace (bind m f)) = false.
Proof.
  intros Hm Hf. rewrite trace_bind. unfold emits in *. rewrite existsb_app, Hm.
  destruct (outcome m); simpl; auto.
Qed.

Lemma trace_for_each_call {A} (l : list A) (ev : A -> Event) :
  trace (for_each l (fun x => call (ev x))) = map ev l /\
  outcome (for_each l (fun x => call (ev x))) = Returns tt.
Proof.
  induction l as [|x l [IHt IHo]]; [split; reflexivity|].
  unfold trace, outcome in *. cbn [for_each]. unfold bind at 1 2.
  cbn [call fst snd map app]. rewrite IHo. cbn [fst snd]. rewrite IHt.
  split; reflexivity.
Qed.

Lemma silent_for_each {A} (P : Event -> bool) (l : list A) (ev : A -> Event) :
  (forall x, P (ev x) = false) ->
  emits P (trace (for_each l (fun x => call (ev x)))) = false.
Proof.
  intros H. destruct (trace_for_each_call l ev) as [-> _].
  unfold emits. induction l as [|x l IH]; simpl; [reflexivity|].
  rewrite H, IH. reflexivity.
Qed.

Lemma filter_silent (P : Event -> bool) (l : list Event) :
  emits P l = false -> filter P l = [].
Proof.
  unfold emits. induction l as [|e l IH]; [reflexivity|]. cbn [existsb filter].
  intros H. apply orb_false_iff in H. destruct H as [-> H]. apply IH, H.
Qed.

(** Proves that a function never makes a call satisfying a predicate, along
    the structure of its body. *)
Ltac silent :=
  cbv zeta;
  repeat match goal with
  | |- emits _ (trace (bind _ _)) = false => apply silent_bind; [|intros ?]
  | |- emits _ (trace (for_each _ _)) = false =>
      apply silent_for_each; intros ?; reflexivity
  | |- emits _ (trace (if ?b then _ else _)) = false => destruct b
  | |- emits _ (trace (match ?o with Some _ => _ | None => _ end)) = false => destruct o
  | |- emits _ (trace _) = false => reflexivity
  end.

Lemma build_never_opens_plan_file (w : World) (s : SampleOnnxMNIST) :
  emits is_ifstream (trace (build w s)) = false.
Proof. unfold build, constructNetwork, ASSERT. silent. Qed.

Lemma build_never_infers (w : World) (s : SampleOnnxMNIST) :
  emits is_infer (trace (build w s)) = false.
Proof. unfold build, constructNetwork, ASSERT. silent. Qed.

Lemma loadV3_never_creates_builder (w : World) (s : SampleOnnxMNIST) :
  emits is_createInferBuilder (trace (loadV3 w s)) = false.
Proof. unfold loadV3. silent. Qed.

Lemma loadV3_never_passes_dla (w : World) (s : SampleOnnxMNIST) :
  emits is_dla (trace (loadV3 w s)) = false.
Proof.
  unfold loadV3. cbv zeta. change (negb (-1 =? -1)) with false. cbv iota. silent.
Qed.

Lemma infer_never_opens_plan_file (w : World) (s : SampleOnnxMNIST) :
  emits is_ifstream (trace (infer w s)) = false.
Proof. unfold infer, processInput, ASSERT. silent. Qed.

Lemma infer_never_creates_builder (w : World) (s : SampleOnnxMNIST) :
  emits is_createInferBuilder (trace (infer w s)) = false.
Proof. unfold infer, processInput, ASSERT. silent. Qed.

Lemma infer_never_passes_dla (w : World) (s : SampleOnnxMNIST) :
  emits is_dla (trace (infer w s)) = false.
Proof. unfold infer, processInput, ASSERT. silent. Qed.

Lemma infer_never_deserializes (w : World) (s : SampleOnnxMNIST) :
  emits is_deserialize (trace (infer w s)) = false.
Proof. unfold infer, processInput, ASSERT. silent. Qed.

Lemma infer_never_saves (w : World) (s : SampleOnnxMNIST) :
  emits is_saveEngine (trace (infer w s)) = false.
Proof. unfold infer, processInput, ASSERT. silent. Qed.

(** ** build *)

Ltac run_cbn :=
  cbn [bind call ret ASSERT undefined throw trace outcome fst snd app negb andb
       mParams mNumber mInputDims mOutputDims mRuntime mEngine
       with_mNumber with_mInputDims with_mOutputDims with_mRuntime with_mEngine].

Lemma constructNetwork_run (w : World) (s : SampleOnnxMNIST) :
  constructNetwork w s =
  if parseFromFile_ok w (onnx_file w s)
  then (E_parseFromFile (onnx_file w s) :: configure_calls (mParams s),
        Returns (true, negb (empty (Params.timingCacheFile (mParams s))) &&
                       buildTimingCacheFromFile_ok w (Params.timingCacheFile (mParams s))))
  else ([E_parseFromFile (onnx_file w s)], Returns (false, false)).
Proof.
  unfold constructNetwork, configure_calls, onnx_file.
  destruct (parseFromFile_ok w _); [|reflexivity].
  destruct (Params.fp16 (mParams s)), (Params.bf16 (mParams s)),
    (Params.int8 (mParams s)), (empty (Params.timingCacheFile (mParams s)));
    reflexivity.
Qed.

Lemma build_reaches_save (w : World) (s : SampleOnnxMNIST) :
  reaches_save w s = true ->
  exists plan,
    buildSerializedNetwork w = Some plan /\
    deserializeCudaEngine_ok w plan (Z.of_nat (length plan)) = true /\
    parseFromFile_ok w (onnx_file w s) = true /\
    trace (build w s) = build_calls w s plan /\
    if saveEngine_ok w (Params.saveEngine (mParams s))
    then if mnist_shape w
         then outcome (build w s) =
              Returns (true, with_mOutputDims (getOutput0_getDimensions w)
                               (with_mInputDims (getInput0_getDimensions w)
                  (with_mEngine (Some {| plan := plan |})
                     (with_mRuntime (Some TheRuntime) s))))
         else exists c, outcome (build w s) = Aborts c
    else outcome (build w s) =
         Returns (false, with_mEngine (Some {| plan := plan |})
                           (with_mRuntime (Some TheRuntime) s)).
Proof.
  unfold reaches_save. intros H.
  repeat (apply andb_true_iff in H; destruct H as [H ?]).
  destruct (buildSerializedNetwork w) as [plan|] eqn:Hplan; [|discriminate].
  match goal with
  | H : _ && _ = true |- _ => apply andb_true_iff in H; destruct H as [Hrt Hde]
  end.
  exists plan.
  repeat (split; [first [reflexivity | assumption] |]).
  unfold build, build_calls. rewrite constructNetwork_run, Hplan.
  repeat match goal with H : _ = true |- _ => rewrite H; clear H end.
  run_cbn.
  destruct (empty (Params.timingCacheFile (mParams s))),
    (buildTimingCacheFromFile_ok w (Params.timingCacheFile (mParams s)));
    run_cbn.
  all: rewrite <- ?app_assoc; cbn [app].
  all: destruct (saveEngine_ok w (Params.saveEngine (mParams s))); run_cbn;
    [|split; [rewrite ?app_nil_r|]; reflexivity].
  all: unfold mnist_shape.
  all: destruct (getNbInputs w =? 1), (nbDims (getInput0_getDimensions w) =? 4),
    (getNbOutputs w =? 1), (nbDims (getOutput0_getDimensions w) =? 2);
    run_cbn; rewrite ?app_nil_r; split; eauto.
Qed.

Lemma configure_calls_never_save (p : Params.t) :
  existsb is_saveEngine (configure_calls p) = false.
Proof.
  unfold configure_calls.
  destruct (Params.fp16 p), (Params.bf16 p), (Params.int8 p),
    (empty (Params.timingCacheFile p)); reflexivity.
Qed.

Lemma configure_calls_never_deserialize (p : Params.t) (data : list byte) (size : Z) :
  ~ In (E_deserializeCudaEngine data size) (configure_calls p).
Proof.
  unfold configure_calls.
  destruct (Params.fp16 p), (Params.bf16 p), (Params.int8 p),
    (empty (Params.timingCacheFile p)); simpl; intuition discriminate.
Qed.

(** The three facts of a run of [build] that stops before the engine is
    saved. *)
Ltac stops_early :=
  run_cbn;
  split; [|split];
  [ unfold emits; cbn [existsb is_saveEngine orb];
    rewrite ?existsb_app, ?configure_calls_never_save; reflexivity
  | eexists; reflexivity
  | let Hin := fresh "Hin" in
    intros ? ? Hin; cbn [In app] in Hin; rewrite ?in_app_iff in Hin; cbn [In] in Hin;
    repeat match goal with
    | H : _ \/ _ |- _ => destruct H
    | H : False |- _ => destruct H
    | H : In _ (configure_calls _) |- _ =>
        exfalso; exact (configure_calls_never_deserialize _ _ _ H)
    | H : @eq Event _ _ |- _ => first [discriminate H | injection H as <- <-; assumption]
    end ].

Lemma build_stops_before_save (w : World) (s : SampleOnnxMNIST) :
  reaches_save w s = false ->
  emits is_saveEngine (trace (build w s)) = false /\
  (exists s', outcome (build w s) = Returns (false, s')) /\
  (forall data size, In (E_deserializeCudaEngine data size) (trace (build w s)) ->
     deserializeCudaEngine_ok w data size = false).
Proof.
  unfold reaches_save, build. rewrite constructNetwork_run. intros H.
  destruct (createInferBuilder_ok w); [|stops_early].
  destruct (createNetworkV2_ok w); [|stops_early].
  destruct (createBuilderConfig_ok w); [|stops_early].
  destruct (createParser_ok w); [|stops_early].
  destruct (parseFromFile_ok w (onnx_file w s)); [|stops_early].
  destruct (makeCudaStream_ok w); [|stops_early].
  destruct (buildSerializedNetwork w) as [plan|]; [|stops_early].
  cbn [andb] in H.
  destruct (empty (Params.timingCacheFile (mParams s))),
    (buildTimingCacheFromFile_ok w (Params.timingCacheFile (mParams s)));
    (destruct (createInferRuntime_ok w); [|stops_early]);
    cbn [andb] in H; run_cbn; rewrite H; stops_early.
Qed.

(** [build] calls [sample::saveEngine] exactly when every earlier check
    passed. *)
Lemma build_saves_iff (w : World) (s : SampleOnnxMNIST) :
  emits is_saveEngine (trace (build w s)) = reaches_save w s.
Proof.
  destruct (reaches_save w s) eqn:H.
  - destruct (build_reaches_save w s H) as (plan & _ & _ & _ & -> & _).
    unfold build_calls, emits. rewrite !existsb_app. cbn.
    rewrite !orb_true_r. reflexivity.
  - apply build_stops_before_save, H.
Qed.

(** ** infer *)

Lemma fst_bind {A B} (m : Run A) (f : A -> Run B) :
  fst (bind m f) = fst m ++ match snd m with Returns a => fst (f a) | _ => [] end.
Proof. exact (trace_bind m f). Qed.

Lemma snd_bind {A B} (m : Run A) (f : A -> Run B) :
  snd (bind m f) =
  match snd m with
  | Returns a => snd (f a)
  | Aborts c => Aborts c
  | Undefined e => Undefined e
  | Throws x => Throws x
  end.
Proof. exact (outcome_bind m f). Qed.

Lemma infer_null_engine (w : World) (s : SampleOnnxMNIST) :
  mEngine s = None ->
  infer w s = ([E_BufferManager], Undefined "mEngine->createExecutionContext()").
Proof. intros H. unfold infer. rewrite H. reflexivity. Qed.

Lemma processInput_run (w : World) (s : SampleOnnxMNIST) :
  processInput w s =
  ([E_readPGMFile (digit_file w s) 28 28;
    E_gLogInfo "Input:";
    E_gLogInfo (ascii_art 0 (fill 784 (readPGMFile w (digit_file w s) 28 28)))],
   Returns (true, with_mNumber (drawn_digit w) s, host_input w s)).
Proof. reflexivity. Qed.

Ltac run_rw :=
  unfold trace, outcome;
  repeat (rewrite ?fst_bind, ?snd_bind;
          cbn [call ret ASSERT undefined throw fst snd negb app]).

Lemma infer_run (w : World) (s : SampleOnnxMNIST) (engine : ICudaEngine) :
  mEngine s = Some engine ->
  createExecutionContext_ok w = true ->
  length (Params.inputTensorNames (mParams s)) = 1%nat ->
  trace (infer w s) = infer_calls w s /\
  outcome (infer w s) =
  Returns (match executeV2 w (host_input w s) with
           | Some output => verifyOutput (exp w) output (drawn_digit w)
           | None => false
           end,
           with_mNumber (drawn_digit w) s).
Proof.
  intros He Hc Hn. unfold infer, infer_calls.
  destruct (trace_for_each_call (ioTensorNames w) E_setTensorAddress) as [Ht Ho].
  unfold trace, outcome in Ht, Ho.
  rewrite He, Hc, Hn, processInput_run.
  change (Z.of_nat 1 =? 1) with true.
  split.
  - run_rw. rewrite Ho, Ht. run_rw. 
    destruct (executeV2 w (host_input w s)) as [output|]; run_rw.
    + destruct (verifyOutput (exp w) output _); reflexivity.
    + reflexivity.
  - run_rw. rewrite Ho. run_rw.
    destruct (executeV2 w (host_input w s)) as [output|]; run_rw.
    + cbn [mNumber with_mNumber].
      destruct (verifyOutput (exp w) output _); reflexivity.
    + reflexivity.
Qed.

(** ** main *)

Lemma initializeSampleParams_run (args : Args.t) :
  initializeSampleParams args =
  ([E_cout (String.append "save Engine path: " (Args.saveEngine args))],
   Returns (params_of args)).
Proof. reflexivity. Qed.

Lemma main_run (w : World) (args : Args.t) :
  Args.help args = false ->
  main w true args =
  ((main_prologue args, Returns tt) ;;
   acquired <- acquire w (SampleOnnxMNIST_new (params_of args)) ;;
   if negb (fst acquired) then call E_reportFail ;; ret Status_reportFail else
   inferred <- infer w (snd acquired) ;;
   if negb (fst inferred) then call E_reportFail ;; ret Status_reportFail else
   call E_reportPass ;; ret Status_reportPass).
Proof. intros H. unfold main. rewrite H. reflexivity. Qed.

Lemma emits_bind {A B} (P : Event -> bool) (m : Run A) (f : A -> Run B) :
  emits P (trace (bind m f)) =
  emits P (trace m) ||
  match outcome m with Returns a => emits P (trace (f a)) | _ => false end.
Proof.
  rewrite trace_bind. unfold emits. rewrite existsb_app.
  destruct (outcome m); reflexivity.
Qed.

Create HintDb silent.
#[local] Hint Resolve build_never_opens_plan_file build_never_infers
  loadV3_never_creates_builder loadV3_never_passes_dla infer_never_opens_plan_file
  infer_never_creates_builder infer_never_passes_dla infer_never_deserializes
  infer_never_saves : silent.

Lemma build_creates_builder (w : World) (s : SampleOnnxMNIST) :
  emits is_createInferBuilder (trace (build w s)) = true.
Proof. unfold build. rewrite emits_bind. reflexivity. Qed.

Lemma loadV3_opens_plan_file (w : World) (s : SampleOnnxMNIST) :
  In (E_ifstream (Params.loadEngine (mParams s))) (trace (loadV3 w s)).
Proof. unfold loadV3. cbv zeta. rewrite trace_bind. left. reflexivity. Qed.

(** [main] after the arguments were accepted: its calls and its result, in
    terms of the engine acquisition step and of [infer]. *)
Lemma main_acquire (w : World) (args : Args.t) :
  Args.help args = false ->
  trace (main w true args) =
    main_prologue args ++
    trace (acquire w (SampleOnnxMNIST_new (params_of args))) ++
    main_epilogue w (outcome (acquire w (SampleOnnxMNIST_new (params_of args)))) /\
  outcome (main w true args) =
    main_result w (outcome (acquire w (SampleOnnxMNIST_new (params_of args)))).
Proof.
  intros H. rewrite (main_run w args H). unfold main_epilogue, main_result, trace, outcome.
  rewrite !fst_bind, !snd_bind. cbn [fst snd].
  destruct (snd (acquire w (SampleOnnxMNIST_new (params_of args))))
    as [[[] s1]| | |]; cbn [fst snd negb]; try (split; reflexivity).
  rewrite !fst_bind, !snd_bind.
  destruct (snd (infer w s1)) as [[[] s2]| | |]; cbn [fst snd negb]; split; reflexivity.
Qed.

Lemma main_epilogue_silent (w : World) (P : Event -> bool)
  (o : Outcome (bool * SampleOnnxMNIST)) :
  P E_reportFail = false -> P E_reportPass = false ->
  (forall s, emits P (trace (infer w s)) = false) ->
  emits P (main_epilogue w o) = false.
Proof.
  intros Hf Hp Hi. unfold main_epilogue, emits.
  destruct o as [[[] s1]| | |]; cbn [existsb]; rewrite ?Hf; try reflexivity.
  rewrite existsb_app. fold (emits P (trace (infer w s1))). rewrite Hi.
  destruct (outcome (infer w s1)) as [[[] s2]| | |]; cbn [existsb orb];
    rewrite ?Hf, ?Hp; reflexivity.
Qed.

Lemma acquire_build (w : World) (args : Args.t) :
  empty (Args.loadEngine args) = true ->
  acquire w (SampleOnnxMNIST_new (params_of args)) =
  build w (SampleOnnxMNIST_new (params_of args)).
Proof.
  intros H. unfold acquire, checkEngineLoad. cbn [mParams SampleOnnxMNIST_new
    params_of Params.loadEngine]. rewrite H. reflexivity.
Qed.

Lemma acquire_loadV3 (w : World) (args : Args.t) :
  empty (Args.loadEngine args) = false ->
  acquire w (SampleOnnxMNIST_new (params_of args)) =
  (call (E_cout "Engine load path is set") ;;
   loadV3 w (SampleOnnxMNIST_new (params_of args))).
Proof.
  intros H. unfold acquire, checkEngineLoad. cbn [mParams SampleOnnxMNIST_new
    params_of Params.loadEngine]. rewrite H. reflexivity.
Qed.

Lemma emits_In (P : Event -> bool) (e : Event) (tr : list Event) :
  In e tr -> P e = true -> emits P tr = true.
Proof. intros Hin HP. apply existsb_exists. exists e. auto. Qed.

(** ** loadV3 *)

(** The size [tellg] returns is negative exactly when the stream cannot
    seek. *)
Lemma tellg_negative (f : EngineFile) : (tellg f <? 0) = negb (file_seek_ok f).
Proof.
  unfold tellg. destruct (file_seek_ok f); [|reflexivity].
  apply Z.ltb_ge. apply Nat2Z.is_nonneg.
Qed.

(** A stream that is good after [read] told the number of its bytes, and the
    buffer for them was allocated. *)
Lemma tellg_read_ok (f : EngineFile) :
  file_read_ok f = true ->
  file_seek_ok f = true /\ file_alloc_ok f = true /\
  tellg f = Z.of_nat (length (file_bytes f)).
Proof.
  unfold file_read_ok, tellg.
  destruct (file_seek_ok f); [|discriminate].
  destruct (file_alloc_ok f); [auto|discriminate].
Qed.

(** [loadV3], case by case. *)
Lemma loadV3_cases (w : World) (s : SampleOnnxMNIST) :
  loadV3 w s =
  let path := Params.loadEngine (mParams s) in
  match ifstream w path with
  | None =>
      ([E_ifstream path; E_cerr (String.append "Error opening engine file: " path)],
       Returns (false, s))
  | Some f =>
      let size := Z.of_nat (length (file_bytes f)) in
      if file_seek_ok f
      then if file_alloc_ok f
           then if file_get_ok f
                then if createInferRuntime_ok w
                     then ([E_ifstream path; E_read size; E_createInferRuntime;
                            E_deserializeCudaEngine (file_bytes f) size],
                           Returns (true,
                                    with_mEngine
                                      (if deserializeCudaEngine_ok w (file_bytes f) size
                                       then Some {| plan := file_bytes f |} else None)
                                      (with_mRuntime (Some TheRuntime) s)))
                     else ([E_ifstream path; E_read size; E_createInferRuntime],
                           Undefined
                             "mRuntime->deserializeCudaEngine(engineData.data(), fsize)")
                else ([E_ifstream path; E_read size;
                       E_cerr (String.append "Error loading engine file: " path)],
                      Returns (false, s))
           else ([E_ifstream path], Throws "std::bad_alloc")
      else ([E_ifstream path], Throws "std::length_error")
  end.
Proof.
  unfold loadV3. cbv zeta.
  destruct (ifstream w (Params.loadEngine (mParams s))) as [f|]; [|reflexivity].
  rewrite tellg_negative. unfold file_read_ok, tellg.
  destruct (file_seek_ok f); [|reflexivity].
  destruct (file_alloc_ok f); [|reflexivity].
  destruct (file_get_ok f); [|reflexivity].
  destruct (createInferRuntime_ok w); reflexivity.
Qed.

(** C7.  On the load path [loadV3] reads the plan file wholesale: it asks for
    exactly as many bytes as the file holds, from its beginning, and hands the
    bytes it read, unchanged and with that byte count, to
    [deserializeCudaEngine].  Its calls and its result are the same whatever
    the bytes are: none is inspected. *)
Theorem loadV3_hands_whole_file_to_deserializer
  (w : World) (s : SampleOnnxMNIST) (f : EngineFile) :
  ifstream w (Params.loadEngine (mParams s)) = Some f ->
  file_read_ok f = true ->
  createInferRuntime_ok w = true ->
  trace (loadV3 w s) =
    [E_ifstream (Params.loadEngine (mParams s));
     E_read (Z.of_nat (length (file_bytes f)));
     E_createInferRuntime;
     E_deserializeCudaEngine (file_bytes f) (Z.of_nat (length (file_bytes f)))] /\
  outcome (loadV3 w s) =
    Returns (true,
             with_mEngine
               (if deserializeCudaEngine_ok w (file_bytes f)
                     (Z.of_nat (length (file_bytes f)))
                then Some {| plan := file_bytes f |} else None)
               (with_mRuntime (Some TheRuntime) s)).
Proof.
  intros Hopen Hread Hrt. destruct (tellg_read_ok f Hread) as (Hseek & Halloc & Hsize).
  unfold loadV3. cbv zeta.
  rewrite Hopen, tellg_negative, Hseek, Halloc, Hsize, Hread, Hrt.
  split; reflexivity.
Qed.

Lemma loadV3_hands_whole_file_to_deserializer_witness :
  trace (loadV3 (demo_world 13 true true 1 (demo_logits 3))
           (SampleOnnxMNIST_new (params_of args_load))) =
    [E_ifstream "mnist.engine"; E_read 4; E_createInferRuntime;
     E_deserializeCudaEngine demo_plan 4] /\
  outcome (loadV3 (demo_world 13 true true 1 (demo_logits 3))
             (SampleOnnxMNIST_new (params_of args_load))) =
    Returns (true,
             with_mEngine (Some {| plan := demo_plan |})
               (with_mRuntime (Some TheRuntime)
                  (SampleOnnxMNIST_new (params_of args_load)))).
Proof.
  exact (loadV3_hands_whole_file_to_deserializer
           (demo_world 13 true true 1 (demo_logits 3))
           (SampleOnnxMNIST_new (params_of args_load))
           demo_file
           eq_refl eq_refl eq_refl).
Defined.

(** ** The build path *)

Lemma build_calls_save (w : World) (s : SampleOnnxMNIST) (plan : list byte) (file : string) :
  In (E_saveEngine file) (build_calls w s plan) -> file = Params.saveEngine (mParams s).
Proof.
  unfold build_calls. rewrite !in_app_iff. cbn [In].
  intros [H|[H|[H|[H|H]]]].
  - repeat destruct H as [H|H]; try discriminate H; destruct H.
  - pose proof (emits_In is_saveEngine _ _ H eq_refl) as E.
    unfold emits in E. rewrite configure_calls_never_save in E. discriminate.
  - repeat destruct H as [H|H]; try discriminate H; destruct H.
  - destruct (_ && _); cbn [In] in H; repeat destruct H as [H|H];
      try discriminate H; destruct H.
  - repeat destruct H as [H|H]; try discriminate H; try (destruct H; fail).
    injection H as <-. reflexivity.
Qed.

Lemma build_calls_end (w : World) (s : SampleOnnxMNIST) (plan : list byte) :
  In (E_deserializeCudaEngine plan (Z.of_nat (length plan))) (build_calls w s plan) /\
  In (E_saveEngine (Params.saveEngine (mParams s))) (build_calls w s plan).
Proof.
  unfold build_calls. rewrite !in_app_iff. cbn [In]. split; do 4 right; auto.
Qed.

Lemma main_prologue_quiet (P : Event -> bool) (args : Args.t) :
  P E_reportTestStart = false ->
  (forall t, P (E_cout t) = false) -> (forall t, P (E_gLogInfo t) = false) ->
  emits P (main_prologue args) = false.
Proof.
  intros H1 H2 H3. unfold emits, main_prologue. cbn [existsb].
  rewrite H1, H2, H3. reflexivity.
Qed.

(** On the build path a call satisfying [P] that only [build] can make is one
    of the calls of [build]. *)
Lemma main_build_path_In (w : World) (args : Args.t) (P : Event -> bool) (e : Event) :
  Args.help args = false ->
  empty (Args.loadEngine args) = true ->
  P e = true ->
  emits P (main_prologue args) = false ->
  (forall o, emits P (main_epilogue w o) = false) ->
  In e (trace (main w true args)) ->
  In e (trace (build w (SampleOnnxMNIST_new (params_of args)))).
Proof.
  intros Hh Hl HP Hpro Hepi Hin.
  destruct (main_acquire w args Hh) as [Htr _]. rewrite acquire_build in Htr by assumption.
  rewrite Htr, !in_app_iff in Hin. destruct Hin as [Hin|[Hin|Hin]]; [|assumption|].
  - rewrite (emits_In P e _ Hin HP) in Hpro. discriminate.
  - pose proof (emits_In P e _ Hin HP) as E. rewrite Hepi in E. discriminate.
Qed.

(** C8.  On the build path [build] saves the engine whenever it has
    deserialized one, under the name given by [--saveEngine] whatever that
    name is (the empty string when the flag is absent); and if this save step
    fails then [build] returns [false] and the run is reported as failed,
    without inference, although the engine was built and deserialized. *)
Theorem build_save_failure_fails_run (w : World) (args : Args.t) :
  Args.help args = false ->
  empty (Args.loadEngine args) = true ->
  (forall data size,
     In (E_deserializeCudaEngine data size) (trace (main w true args)) ->
     deserializeCudaEngine_ok w data size = true ->
     In (E_saveEngine (Args.saveEngine args)) (trace (main w true args))) /\
  (forall file,
     In (E_saveEngine file) (trace (main w true args)) ->
     saveEngine_ok w file = false ->
     file = Args.saveEngine args /\
     (exists s', outcome (build w (SampleOnnxMNIST_new (params_of args)))
                 = Returns (false, s')) /\
     outcome (main w true args) = Returns Status_reportFail /\
     emits is_infer (trace (main w true args)) = false /\
     exists plan,
       buildSerializedNetwork w = Some plan /\
       deserializeCudaEngine_ok w plan (Z.of_nat (length plan)) = true /\
       In (E_deserializeCudaEngine plan (Z.of_nat (length plan)))
          (trace (main w true args))).
Proof.
  intros Hh Hl.
  set (sample := SampleOnnxMNIST_new (params_of args)).
  destruct (main_acquire w args Hh) as [Htr Hout].
  rewrite acquire_build in Htr, Hout by assumption. fold sample in Htr, Hout.
  assert (Hpd : emits is_deserialize (main_prologue args) = false) by reflexivity.
  assert (Hps : emits is_saveEngine (main_prologue args) = false) by reflexivity.
  assert (Hed : forall o, emits is_deserialize (main_epilogue w o) = false).
  { intros o. apply main_epilogue_silent; auto with silent. }
  assert (Hes : forall o, emits is_saveEngine (main_epilogue w o) = false).
  { intros o. apply main_epilogue_silent; auto with silent. }
  destruct (reaches_save w sample) eqn:Hreach.
  - destruct (build_reaches_save w sample Hreach)
      as (plan & Hplan & Hde & _ & Hb & Hres).
    destruct (build_calls_end w sample plan) as [Hin_de Hin_save].
    split.
    + intros _ _ _ _. rewrite Htr, Hb, !in_app_iff. right; left. exact Hin_save.
    + intros file Hin Hfail.
      apply (main_build_path_In w args is_saveEngine (E_saveEngine file) Hh Hl eq_refl Hps Hes)
        in Hin.
      fold sample in Hin. rewrite Hb in Hin. apply build_calls_save in Hin.
      change (Params.saveEngine (mParams sample)) with (Args.saveEngine args) in *.
      subst file. rewrite Hfail in Hres.
      split; [reflexivity|]. split; [eauto|]. split; [rewrite Hout, Hres; reflexivity|].
      split.
      * rewrite Htr, Hres. unfold emits. rewrite !existsb_app.
        fold (emits is_infer (trace (build w sample))).
        rewrite build_never_infers. reflexivity.
      * exists plan. repeat split; auto.
        rewrite Htr, Hb, !in_app_iff. right; left. exact Hin_de.
  - destruct (build_stops_before_save w sample Hreach) as (Hns & _ & Hall).
    split.
    + intros data size Hin Hok.
      apply (main_build_path_In w args is_deserialize (E_deserializeCudaEngine data size)
               Hh Hl eq_refl Hpd Hed) in Hin.
      rewrite (Hall _ _ Hin) in Hok. discriminate.
    + intros file Hin _.
      apply (main_build_path_In w args is_saveEngine (E_saveEngine file) Hh Hl eq_refl Hps Hes)
        in Hin.
      fold sample in Hin. rewrite (emits_In is_saveEngine _ _ Hin eq_refl) in Hns.
      discriminate.
Qed.

Lemma build_save_failure_fails_run_witness :
  In (E_saveEngine "")
     (trace (main (demo_world 13 true false 1 (demo_logits 3)) true args_default)) /\
  outcome (main (demo_world 13 true false 1 (demo_logits 3)) true args_default)
    = Returns Status_reportFail /\
  emits is_infer
    (trace (main (demo_world 13 true false 1 (demo_logits 3)) true args_default)) = false.
Proof.
  destruct (build_save_failure_fails_run
              (demo_world 13 true false 1 (demo_logits 3)) args_default
              eq_refl eq_refl) as [Hsave Hfail].
  assert (Hin : In (E_saveEngine (Args.saveEngine args_default))
                  (trace (main (demo_world 13 true false 1 (demo_logits 3)) true
                            args_default))).
  { apply (Hsave demo_plan 4); [vm_compute; tauto | reflexivity]. }
  destruct (Hfail "" Hin eq_refl) as (_ & _ & Hout & Hinf & _).
  split; [exact Hin|]. split; assumption.
Defined.

(** C10, as amended.  After a successful parse, and once the engine has been
    built, deserialized and saved, [build] asserts that the network has
    exactly one input of 4 dimensions and exactly one output of 2: for a
    network of this MNIST shape the assertions hold and [build] returns
    [true] with the dimensions recorded, for any other shape an assertion
    ends the program and [build] does not return. *)
Theorem build_asserts_mnist_shape (w : World) (s : SampleOnnxMNIST) :
  In (E_saveEngine (Params.saveEngine (mParams s))) (trace (build w s)) ->
  saveEngine_ok w (Params.saveEngine (mParams s)) = true ->
  parseFromFile_ok w (onnx_file w s) = true /\
  (mnist_shape w = true ->
   exists s', outcome (build w s) = Returns (true, s') /\
              mInputDims s' = getInput0_getDimensions w /\
              mOutputDims s' = getOutput0_getDimensions w) /\
  (mnist_shape w = false -> exists c, outcome (build w s) = Aborts c).
Proof.
  intros Hin Hok.
  pose proof (emits_In is_saveEngine _ _ Hin eq_refl) as Hreach.
  rewrite build_saves_iff in Hreach.
  destruct (build_reaches_save w s Hreach) as (plan & _ & _ & Hparse & _ & Hres).
  rewrite Hok in Hres. split; [assumption|]. split; intros Hshape; rewrite Hshape in Hres.
  - eexists. split; [exact Hres|]. split; reflexivity.
  - exact Hres.
Qed.

Lemma build_asserts_mnist_shape_witness :
  (exists s', outcome (build (demo_world 13 true true 1 (demo_logits 3))
                         (SampleOnnxMNIST_new (params_of args_save)))
              = Returns (true, s') /\
              mInputDims s' = {| nbDims := 4; d := [1; 1; 28; 28] |} /\
              mOutputDims s' = {| nbDims := 2; d := [1; 10] |}) /\
  (exists c, outcome (build (demo_world 13 true true 2 (demo_logits 3))
                        (SampleOnnxMNIST_new (params_of args_save))) = Aborts c).
Proof.
  split.
  - apply (build_asserts_mnist_shape (demo_world 13 true true 1 (demo_logits 3))
             (SampleOnnxMNIST_new (params_of args_save))); try reflexivity.
    vm_compute. tauto.
  - apply (build_asserts_mnist_shape (demo_world 13 true true 2 (demo_logits 3))
             (SampleOnnxMNIST_new (params_of args_save))); try reflexivity.
    vm_compute. tauto.
Defined.

(** C10 as stated fails: the model parses and has two inputs, saving the
    engine fails, and [build] returns [false] instead of ending the program by
    an assertion; [main] reports the failure. *)
Lemma build_other_shape_returns_false :
  parseFromFile_ok (demo_world 13 true false 2 (demo_logits 3))
    (onnx_file (demo_world 13 true false 2 (demo_logits 3))
       (SampleOnnxMNIST_new (params_of args_default))) = true /\
  mnist_shape (demo_world 13 true false 2 (demo_logits 3)) = false /\
  (exists s', outcome (build (demo_world 13 true false 2 (demo_logits 3))
                         (SampleOnnxMNIST_new (params_of args_default)))
              = Returns (false, s')) /\
  outcome (main (demo_world 13 true false 2 (demo_logits 3)) true args_default)
    = Returns Status_reportFail.
Proof. repeat split. eexists. reflexivity. Qed.

(** ** The order of the stages *)

Lemma stages_app (l1 l2 : list Event) : stages (l1 ++ l2) = stages l1 ++ stages l2.
Proof.
  induction l1 as [|e l1 IH]; [reflexivity|]. cbn [app stages].
  destruct (stage_of e); rewrite IH; reflexivity.
Qed.

Lemma stages_setTensorAddress (names : list string) :
  stages (map E_setTensorAddress names) = repeat StBind (length names).
Proof. induction names as [|n l IH]; [reflexivity|]. cbn. rewrite IH. reflexivity. Qed.

Lemma stages_build_calls (w : World) (s : SampleOnnxMNIST) (plan : list byte) :
  exists k, (1 <= k)%nat /\
    stages (build_calls w s plan) =
    [StParse] ++ repeat StConfigure k ++ [StBuild; StDeserialize].
Proof.
  unfold build_calls, configure_calls.
  destruct (Params.fp16 (mParams s)), (Params.bf16 (mParams s)),
    (Params.int8 (mParams s)), (empty (Params.timingCacheFile (mParams s)));
    cbn [negb andb];
    try destruct (buildTimingCacheFromFile_ok w (Params.timingCacheFile (mParams s)));
    cbn [app stages stage_of];
    match goal with
    | |- exists k, _ /\ ?l = _ =>
        exists (length l - 3)%nat; cbn; split; [lia | reflexivity]
    end.
Qed.

Lemma stages_infer_calls (w : World) (s : SampleOnnxMNIST) (output : list float) :
  executeV2 w (host_input w s) = Some output ->
  stages (infer_calls w s) =
  repeat StBind (S (length (ioTensorNames w))) ++ [StExecute; StPostProcess].
Proof.
  intros H. unfold infer_calls. rewrite H, !stages_app, stages_setTensorAddress.
  reflexivity.
Qed.

Lemma infer_without_context (w : World) (s : SampleOnnxMNIST) (engine : ICudaEngine) :
  mEngine s = Some engine ->
  createExecutionContext_ok w = false ->
  outcome (infer w s) = Returns (false, s).
Proof. intros He Hc. unfold infer. rewrite He, Hc. reflexivity. Qed.

(** C4.  On the build path every run that passes makes its staged calls in
    exactly this order: parse the model, configure the builder, build and
    serialize the network, deserialize the plan, bind the buffers, execute,
    post-process; and each of these stages succeeded before the next one
    began: the model parsed, a plan was built and deserialized into an engine,
    the inference pass produced an output, and the output was verified. *)
Theorem build_path_stage_order (w : World) (args : Args.t) :
  Args.help args = false ->
  empty (Args.loadEngine args) = true ->
  outcome (main w true args) = Returns Status_reportPass ->
  (exists k, (1 <= k)%nat /\
     stages (trace (main w true args)) =
     [StParse] ++ repeat StConfigure k ++ [StBuild; StDeserialize] ++
     repeat StBind (S (length (ioTensorNames w))) ++ [StExecute; StPostProcess]) /\
  parseFromFile_ok w
    (locateFile w "mnist.onnx" (Params.dataDirs (params_of args))) = true /\
  exists plan output,
    buildSerializedNetwork w = Some plan /\
    deserializeCudaEngine_ok w plan (Z.of_nat (length plan)) = true /\
    executeV2 w (host_input w (SampleOnnxMNIST_new (params_of args))) = Some output /\
    verifyOutput (exp w) output (Z.rem (rand w) 10) = true.
Proof.
  intros Hh Hl Hpass.
  set (sample := SampleOnnxMNIST_new (params_of args)).
  destruct (main_acquire w args Hh) as [Htr Hout].
  rewrite acquire_build in Htr, Hout by assumption. fold sample in Htr, Hout.
  rewrite Hpass in Hout.
  destruct (reaches_save w sample) eqn:Hreach.
  2:{ destruct (build_stops_before_save w sample Hreach) as (_ & (s' & Hb) & _).
      rewrite Hb in Hout. discriminate. }
  destruct (build_reaches_save w sample Hreach) as (plan & Hplan & Hde & Hparse & Hb & Hres).
  destruct (saveEngine_ok w (Params.saveEngine (mParams sample)));
    [|rewrite Hres in Hout; discriminate].
  destruct (mnist_shape w);
    [|destruct Hres as [c Hres]; rewrite Hres in Hout; discriminate].
  set (s2 := with_mOutputDims _ _) in Hres.
  rewrite Hres in Htr, Hout. cbn [main_result main_epilogue] in Htr, Hout.
  destruct (createExecutionContext_ok w) eqn:Hctx.
  2:{ rewrite (infer_without_context w s2 _ eq_refl Hctx) in Hout. discriminate. }
  destruct (infer_run w s2 _ eq_refl Hctx eq_refl) as [Hit Hio].
  change (host_input w s2) with (host_input w sample) in Hio.
  rewrite Hio in Htr, Hout. rewrite Hit in Htr.
  destruct (executeV2 w (host_input w sample)) as [output|] eqn:Hexec; [|discriminate].
  destruct (verifyOutput (exp w) output (drawn_digit w)) eqn:Hver; [|discriminate].
  destruct (stages_build_calls w sample plan) as (k & Hk & Hst).
  split; [|split].
  - exists k. split; [assumption|].
    rewrite Htr, Hb, !stages_app, Hst.
    rewrite (stages_infer_calls w s2 output Hexec).
    cbn [stages stage_of main_prologue app]. rewrite app_nil_r, <- !app_assoc.
    reflexivity.
  - exact Hparse.
  - exists plan, output. auto.
Qed.

Lemma build_path_stage_order_witness :
  (exists k, (1 <= k)%nat /\
     stages (trace (main (demo_world 13 true true 1 (demo_logits 3)) true args_save)) =
     [StParse] ++ repeat StConfigure k ++ [StBuild; StDeserialize] ++
     repeat StBind
       (S (length (ioTensorNames (demo_world 13 true true 1 (demo_logits 3))))) ++
     [StExecute; StPostProcess]) /\
  parseFromFile_ok (demo_world 13 true true 1 (demo_logits 3))
    (locateFile (demo_world 13 true true 1 (demo_logits 3)) "mnist.onnx"
       (Params.dataDirs (params_of args_save))) = true /\
  exists plan output,
    buildSerializedNetwork (demo_world 13 true true 1 (demo_logits 3)) = Some plan /\
    deserializeCudaEngine_ok (demo_world 13 true true 1 (demo_logits 3)) plan
      (Z.of_nat (length plan)) = true /\
    executeV2 (demo_world 13 true true 1 (demo_logits 3))
      (host_input (demo_world 13 true true 1 (demo_logits 3))
         (SampleOnnxMNIST_new (params_of args_save))) = Some output /\
    verifyOutput (exp (demo_world 13 true true 1 (demo_logits 3))) output
      (Z.rem (rand (demo_world 13 true true 1 (demo_logits 3))) 10) = true.
Proof.
  apply (build_path_stage_order (demo_world 13 true true 1 (demo_logits 3)) args_save).
  - reflexivity.
  - reflexivity.
  - vm_compute. reflexivity.
Defined.

Example build_path_stages_example :
  stages (trace (main (demo_world 13 true true 1 (demo_logits 3)) true args_save)) =
  [StParse; StConfigure; StConfigure; StConfigure; StConfigure; StBuild; StDeserialize;
   StBind; StBind; StBind; StExecute; StPostProcess].
Proof. vm_compute. reflexivity. Qed.

(** ** processInput *)

Lemma to_string_digit (n : Z) :
  0 <= n <= 9 ->
  to_string n = String (ascii_of_nat (48 + Z.to_nat n)) EmptyString.
Proof.
  intros H. rewrite <- (Z2Nat.id n) by lia.
  assert (Hm : (Z.to_nat n < 10)%nat) by lia.
  revert Hm. generalize (Z.to_nat n). intros m Hm.
  do 10 (destruct m as [|m]; [reflexivity|]). lia.
Qed.

Lemma length_fill (n : nat) (l : list byte) : length (fill n l) = n.
Proof.
  unfold fill. rewrite length_firstn, length_app, repeat_length. lia.
Qed.

Lemma infer_calls_readPGMFile (w : World) (s : SampleOnnxMNIST) (file : string) (h w' : Z) :
  In (E_readPGMFile file h w') (infer_calls w s) ->
  file = digit_file w s /\ h = 28 /\ w' = 28.
Proof.
  unfold infer_calls. rewrite !in_app_iff. cbn [In]. rewrite in_map_iff.
  intros [H|[H|[[H|H]|H]]].
  - repeat destruct H as [H|H]; try discriminate H; destruct H.
  - destruct H as (x & H & _). discriminate H.
  - injection H as <- <- <-. auto.
  - repeat destruct H as [H|H]; try discriminate H; destruct H.
  - destruct (executeV2 w (host_input w s)); cbn [In] in H;
      repeat destruct H as [H|H]; try discriminate H; destruct H.
Qed.

(** C5.  [processInput] generates the expected label locally: the digit
    [rand() % 10], between 0 and 9, is stored in [mNumber]; the image is read
    from the file whose name is that digit followed by [.pgm], as 28x28 bytes;
    and [infer] verifies the output against this same digit. *)
Theorem processInput_reads_the_drawn_digit
  (w : World) (s : SampleOnnxMNIST) (engine : ICudaEngine) :
  0 <= rand w ->
  mEngine s = Some engine ->
  createExecutionContext_ok w = true ->
  length (Params.inputTensorNames (mParams s)) = 1%nat ->
  let digit := Z.rem (rand w) 10 in
  let file := locateFile w
                (String (ascii_of_nat (48 + Z.to_nat digit)) ".pgm")
                (Params.dataDirs (mParams s)) in
  0 <= digit <= 9 /\
  digit = rand w mod 10 /\
  (exists buffer,
     outcome (processInput w s) = Returns (true, with_mNumber digit s, buffer) /\
     length buffer = 784%nat /\
     In (E_readPGMFile file 28 28) (trace (processInput w s)) /\
     (forall file' h' w', In (E_readPGMFile file' h' w') (trace (infer w s)) ->
        file' = file /\ h' = 28 /\ w' = 28) /\
     outcome (infer w s) =
       Returns (match executeV2 w buffer with
                | Some output => verifyOutput (exp w) output digit
                | None => false
                end,
                with_mNumber digit s)).
Proof.
  intros Hr He Hc Hn digit file.
  assert (Hd : 0 <= digit <= 9).
  { pose proof (Z.rem_bound_pos (rand w) 10 Hr ltac:(lia)). unfold digit. lia. }
  assert (Hfile : digit_file w s = file).
  { unfold digit_file, file, drawn_digit. fold digit.
    rewrite (to_string_digit digit Hd). reflexivity. }
  split; [exact Hd|]. split; [unfold digit; apply Z.rem_mod_nonneg; lia|].
  destruct (infer_run w s engine He Hc Hn) as [Hit Hio].
  exists (host_input w s). rewrite processInput_run. cbn [trace outcome fst snd].
  split; [reflexivity|]. split; [|split; [|split]].
  - unfold host_input. rewrite length_map. apply length_fill.
  - rewrite Hfile. left. reflexivity.
  - intros file' h' w' H. rewrite Hit in H.
    apply infer_calls_readPGMFile in H. rewrite Hfile in H. exact H.
  - exact Hio.
Qed.

Lemma processInput_reads_the_drawn_digit_witness :
  0 <= Z.rem (rand demo_pass) 10 <= 9 /\
  Z.rem (rand demo_pass) 10 = rand demo_pass mod 10 /\
  (exists buffer,
     outcome (processInput demo_pass demo_sample) =
       Returns (true, with_mNumber (Z.rem (rand demo_pass) 10) demo_sample, buffer) /\
     length buffer = 784%nat /\
     In (E_readPGMFile
           (locateFile demo_pass
              (String (ascii_of_nat (48 + Z.to_nat (Z.rem (rand demo_pass) 10))) ".pgm")
              (Params.dataDirs (mParams demo_sample))) 28 28)
        (trace (processInput demo_pass demo_sample)) /\
     (forall file' h' w',
        In (E_readPGMFile file' h' w') (trace (infer demo_pass demo_sample)) ->
        file' = locateFile demo_pass
                  (String (ascii_of_nat (48 + Z.to_nat (Z.rem (rand demo_pass) 10))) ".pgm")
                  (Params.dataDirs (mParams demo_sample)) /\ h' = 28 /\ w' = 28) /\
     outcome (infer demo_pass demo_sample) =
       Returns (match executeV2 demo_pass buffer with
                | Some output =>
                    verifyOutput (exp demo_pass) output (Z.rem (rand demo_pass) 10)
                | None => false
                end,
                with_mNumber (Z.rem (rand demo_pass) 10) demo_sample)).
Proof.
  apply (processInput_reads_the_drawn_digit demo_pass demo_sample {| plan := demo_plan |}).
  - unfold demo_pass, demo_world, rand. lia.
  - reflexivity.
  - reflexivity.
  - reflexivity.
Defined.

Example processInput_example :
  In (E_readPGMFile "data/mnist/3.pgm" 28 28) (trace (processInput demo_pass demo_sample)).
Proof. left. reflexivity. Qed.

(** ** The two engine acquisition paths *)

Lemma loadV3_runs_load (w : World) (s : SampleOnnxMNIST) :
  emits is_ifstream (trace (loadV3 w s)) = true.
Proof.
  apply (emits_In _ (E_ifstream (Params.loadEngine (mParams s)))).
  - apply loadV3_opens_plan_file.
  - reflexivity.
Qed.

(** C3, as amended.  On every run whose arguments are valid and do not ask
    for help, exactly one of the two engine acquisition paths executes:
    [loadV3] when and only when the load-engine parameter is a non-empty
    string, [build] otherwise. *)
Theorem main_runs_exactly_one_path (w : World) (args : Args.t) :
  Args.help args = false ->
  runs_load (trace (main w true args)) = negb (empty (Args.loadEngine args)) /\
  runs_build (trace (main w true args)) = empty (Args.loadEngine args).
Proof.
  intros Hh. destruct (main_acquire w args Hh) as [Htr _].
  unfold runs_load, runs_build, emits. rewrite Htr, !existsb_app.
  fold (emits is_ifstream (main_epilogue w
          (outcome (acquire w (SampleOnnxMNIST_new (params_of args)))))).
  fold (emits is_createInferBuilder (main_epilogue w
          (outcome (acquire w (SampleOnnxMNIST_new (params_of args)))))).
  rewrite !main_epilogue_silent
    by auto with silent.
  rewrite !orb_false_r. cbn [main_prologue existsb is_ifstream is_createInferBuilder orb].
  fold (emits is_ifstream (trace (acquire w (SampleOnnxMNIST_new (params_of args))))).
  fold (emits is_createInferBuilder
          (trace (acquire w (SampleOnnxMNIST_new (params_of args))))).
  destruct (empty (Args.loadEngine args)) eqn:Hl.
  - rewrite acquire_build by assumption.
    rewrite build_never_opens_plan_file, build_creates_builder. split; reflexivity.
  - rewrite acquire_loadV3 by assumption. rewrite !emits_bind.
    cbn [call trace outcome fst snd emits existsb is_ifstream is_createInferBuilder orb].
    fold (emits is_ifstream (trace (loadV3 w (SampleOnnxMNIST_new (params_of args))))).
    fold (emits is_createInferBuilder
            (trace (loadV3 w (SampleOnnxMNIST_new (params_of args))))).
    rewrite loadV3_runs_load, loadV3_never_creates_builder. split; reflexivity.
Qed.

Lemma main_runs_exactly_one_path_witness :
  (runs_load (trace (main demo_pass true args_load)) = negb (empty (Args.loadEngine args_load)) /\
   runs_build (trace (main demo_pass true args_load)) = empty (Args.loadEngine args_load)) /\
  (runs_load (trace (main demo_pass true args_save)) = negb (empty (Args.loadEngine args_save)) /\
   runs_build (trace (main demo_pass true args_save)) = empty (Args.loadEngine args_save)).
Proof.
  split.
  - apply (main_runs_exactly_one_path demo_pass args_load). reflexivity.
  - apply (main_runs_exactly_one_path demo_pass args_save). reflexivity.
Defined.

(** C3 as stated fails: the arguments [--help] are valid, and the run executes
    neither path. *)
Lemma main_help_runs_no_path :
  outcome (main demo_pass true args_help) = Returns EXIT_SUCCESS /\
  runs_load (trace (main demo_pass true args_help)) = false /\
  runs_build (trace (main demo_pass true args_help)) = false.
Proof. repeat split. Qed.

(** ** Parameters and the calls they reach *)

Lemma build_configures (w : World) (s : SampleOnnxMNIST) :
  createInferBuilder_ok w = true ->
  createNetworkV2_ok w = true ->
  createBuilderConfig_ok w = true ->
  createParser_ok w = true ->
  parseFromFile_ok w (onnx_file w s) = true ->
  exists rest,
    trace (build w s) =
    [E_createInferBuilder; E_createNetworkV2 0; E_createBuilderConfig; E_createParser;
     E_parseFromFile (onnx_file w s)] ++ configure_calls (mParams s) ++ rest.
Proof.
  intros H1 H2 H3 H4 H5. unfold build.
  rewrite H1, H2, H3, H4, constructNetwork_run, H5.
  unfold trace. do 5 (rewrite fst_bind; cbn [call ret fst snd negb]).
  cbn [app]. eexists. reflexivity.
Qed.

(** The configuration calls, one by one. *)
Lemma configure_calls_In (p : Params.t) (e : Event) :
  In e (configure_calls p) <->
  (e = E_setFlag kFP16 /\ Params.fp16 p = true) \/
  (e = E_setFlag kBF16 /\ Params.bf16 p = true) \/
  ((e = E_setFlag kINT8 \/ e = E_setAllDynamicRanges) /\ Params.int8 p = true) \/
  (e = E_buildTimingCacheFromFile (Params.timingCacheFile p) /\
   empty (Params.timingCacheFile p) = false) \/
  e = E_enableDLA (Params.dlaCore p).
Proof.
  unfold configure_calls. rewrite !in_app_iff.
  destruct (Params.fp16 p), (Params.bf16 p), (Params.int8 p),
    (empty (Params.timingCacheFile p)); cbn [In negb];
    intuition (first [discriminate | congruence | auto]).
Qed.

Lemma configure_calls_all (p : Params.t) :
  filter is_constructNetwork (configure_calls p) = configure_calls p.
Proof.
  unfold configure_calls.
  destruct (Params.fp16 p), (Params.bf16 p), (Params.int8 p),
    (empty (Params.timingCacheFile p)); reflexivity.
Qed.

Ltac network_calls :=
  run_cbn; cbn [filter is_constructNetwork];
  rewrite ?filter_app, ?configure_calls_all; cbn [filter is_constructNetwork app];
  rewrite ?app_nil_r; reflexivity.

(** The calls of [build] that parse and configure: none before the parser
    exists, the parse alone when it fails, and the configuration calls after
    it otherwise, whatever happens later in [build]. *)
Lemma build_network_calls (w : World) (s : SampleOnnxMNIST) :
  filter is_constructNetwork (trace (build w s)) =
  if createInferBuilder_ok w && createNetworkV2_ok w && createBuilderConfig_ok w &&
     createParser_ok w
  then E_parseFromFile (onnx_file w s) ::
       (if parseFromFile_ok w (onnx_file w s) then configure_calls (mParams s) else [])
  else [].
Proof.
  unfold build. rewrite constructNetwork_run.
  destruct (createInferBuilder_ok w); [|network_calls].
  destruct (createNetworkV2_ok w); [|network_calls].
  destruct (createBuilderConfig_ok w); [|network_calls].
  destruct (createParser_ok w); [|network_calls].
  destruct (parseFromFile_ok w (onnx_file w s)); [|network_calls].
  destruct (makeCudaStream_ok w); [|network_calls].
  destruct (buildSerializedNetwork w) as [plan|]; [|network_calls].
  destruct (empty (Params.timingCacheFile (mParams s))),
    (buildTimingCacheFromFile_ok w (Params.timingCacheFile (mParams s)));
    (destruct (createInferRuntime_ok w); [|network_calls]); run_cbn;
    (destruct (deserializeCudaEngine_ok w plan (Z.of_nat (length plan))); [|network_calls]);
    run_cbn;
    (destruct (saveEngine_ok w (Params.saveEngine (mParams s))); [|network_calls]);
    run_cbn;
    destruct (getNbInputs w =? 1), (nbDims (getInput0_getDimensions w) =? 4),
      (getNbOutputs w =? 1), (nbDims (getOutput0_getDimensions w) =? 2);
    network_calls.
Qed.

Lemma infer_never_configures (w : World) (s : SampleOnnxMNIST) :
  emits is_constructNetwork (trace (infer w s)) = false.
Proof. unfold infer, processInput, ASSERT. silent. Qed.

Lemma loadV3_never_configures (w : World) (s : SampleOnnxMNIST) :
  emits is_constructNetwork (trace (loadV3 w s)) = false.
Proof.
  unfold loadV3. cbv zeta. change (negb (-1 =? -1)) with false. cbv iota. silent.
Qed.

Lemma loadV3_never_reads_image (w : World) (s : SampleOnnxMNIST) (P : Event -> bool) :
  P = is_readPGMFile \/ P = is_executeV2 \/ P = is_saveEngine ->
  emits P (trace (loadV3 w s)) = false.
Proof.
  intros H. unfold loadV3. cbv zeta. change (negb (-1 =? -1)) with false. cbv iota.
  destruct H as [-> | [-> | ->]]; silent.
Qed.

Lemma build_never_reads_image (w : World) (s : SampleOnnxMNIST) (P : Event -> bool) :
  P = is_readPGMFile \/ P = is_executeV2 ->
  emits P (trace (build w s)) = false.
Proof.
  intros H. unfold build, constructNetwork, ASSERT.
  destruct H as [-> | ->]; silent.
Qed.

Lemma loadV3_ifstream_calls (w : World) (s : SampleOnnxMNIST) :
  filter is_ifstream (trace (loadV3 w s)) = [E_ifstream (Params.loadEngine (mParams s))].
Proof.
  rewrite loadV3_cases. cbv zeta.
  destruct (ifstream w _) as [f|]; [|reflexivity].
  destruct (file_seek_ok f); [|reflexivity].
  destruct (file_alloc_ok f); [|reflexivity].
  destruct (file_get_ok f); [|reflexivity].
  destruct (createInferRuntime_ok w); reflexivity.
Qed.

(** The calls of [main] that satisfy [P], when only the engine acquisition
    step can make such calls. *)
Lemma main_filter_acquire (w : World) (args : Args.t) (P : Event -> bool) :
  Args.help args = false ->
  emits P (main_prologue args) = false ->
  P E_reportFail = false -> P E_reportPass = false ->
  (forall s, emits P (trace (infer w s)) = false) ->
  filter P (trace (main w true args)) =
  filter P (trace (acquire w (SampleOnnxMNIST_new (params_of args)))).
Proof.
  intros Hh Hpro Hf Hp Hi. destruct (main_acquire w args Hh) as [Htr _].
  rewrite Htr, !filter_app, (filter_silent P _ Hpro).
  rewrite (filter_silent P _ (main_epilogue_silent w P _ Hf Hp Hi)).
  rewrite app_nil_r. reflexivity.
Qed.

Lemma In_filter (P : Event -> bool) (e : Event) (tr : list Event) :
  P e = true -> (In e tr <-> In e (filter P tr)).
Proof. intros H. rewrite filter_In. tauto. Qed.

Lemma main_load_path_trace (w : World) (args : Args.t) :
  Args.help args = false ->
  empty (Args.loadEngine args) = false ->
  trace (main w true args) =
  main_prologue args ++
  (E_cout "Engine load path is set" ::
   trace (loadV3 w (SampleOnnxMNIST_new (params_of args)))) ++
  main_epilogue w (outcome (loadV3 w (SampleOnnxMNIST_new (params_of args)))).
Proof.
  intros Hh Hl. destruct (main_acquire w args Hh) as [Htr _].
  rewrite acquire_loadV3 in Htr by assumption. rewrite Htr.
  unfold trace, outcome. rewrite fst_bind, snd_bind. reflexivity.
Qed.

(** The engine acquisition step leaves the parameters as they are. *)
Lemma acquire_keeps_params (w : World) (s s1 : SampleOnnxMNIST) :
  outcome (acquire w s) = Returns (true, s1) -> mParams s1 = mParams s.
Proof.
  unfold acquire. destruct (checkEngineLoad s).
  - unfold outcome. rewrite snd_bind. cbn [call snd]. rewrite loadV3_cases. cbv zeta.
    destruct (ifstream w _) as [f|]; [|discriminate].
    destruct (file_seek_ok f); [|discriminate].
    destruct (file_alloc_ok f); [|discriminate].
    destruct (file_get_ok f); [|discriminate].
    destruct (createInferRuntime_ok w); [|discriminate].
    intros H. injection H as <-. reflexivity.
  - destruct (reaches_save w s) eqn:Hreach.
    2:{ destruct (build_stops_before_save w s Hreach) as (_ & (s0 & Hb) & _).
        rewrite Hb. discriminate. }
    destruct (build_reaches_save w s Hreach) as (plan & _ & _ & _ & _ & Hres).
    destruct (saveEngine_ok w (Params.saveEngine (mParams s))).
    2:{ rewrite Hres. discriminate. }
    destruct (mnist_shape w).
    2:{ destruct Hres as (c & Hres). rewrite Hres. discriminate. }
    rewrite Hres. intros H. injection H as <-. reflexivity.
Qed.

(** The image that [infer] reads, and that it reads one before it executes. *)
Lemma infer_image_calls (w : World) (s : SampleOnnxMNIST) :
  length (Params.inputTensorNames (mParams s)) = 1%nat ->
  (forall file h w', In (E_readPGMFile file h w') (trace (infer w s)) ->
     file = digit_file w s /\ h = 28 /\ w' = 28) /\
  (In E_executeV2 (trace (infer w s)) ->
   In (E_readPGMFile (digit_file w s) 28 28) (trace (infer w s))).
Proof.
  intros Hn. destruct (mEngine s) as [engine|] eqn:He.
  2:{ rewrite (infer_null_engine w s He). cbn [trace fst In].
      split; [intros file h w' [H|[]]; discriminate H | intros [H|[]]; discriminate H]. }
  destruct (createExecutionContext_ok w) eqn:Hc.
  2:{ assert (Ht : trace (infer w s) = [E_BufferManager; E_createExecutionContext]).
      { unfold infer. rewrite He, Hc. reflexivity. }
      rewrite Ht. cbn [In].
      split; [intros file h w' [H|[H|[]]]; discriminate H | intros [H|[H|[]]]; discriminate H]. }
  destruct (infer_run w s engine He Hc Hn) as [Ht _]. rewrite Ht. split.
  - apply infer_calls_readPGMFile.
  - intros _. unfold infer_calls. rewrite !in_app_iff. cbn [In]. auto.
Qed.

Lemma main_image_calls (w : World) (args : Args.t) :
  Args.help args = false ->
  (forall file h w', In (E_readPGMFile file h w') (trace (main w true args)) ->
     file = digit_file w (SampleOnnxMNIST_new (params_of args)) /\ h = 28 /\ w' = 28) /\
  (In E_executeV2 (trace (main w true args)) ->
   In (E_readPGMFile (digit_file w (SampleOnnxMNIST_new (params_of args))) 28 28)
      (trace (main w true args))).
Proof.
  intros Hh. destruct (main_acquire w args Hh) as [Htr _].
  set (sample := SampleOnnxMNIST_new (params_of args)) in *.
  assert (Hacq : forall P, P = is_readPGMFile \/ P = is_executeV2 ->
                   emits P (trace (acquire w sample)) = false).
  { intros P HP. unfold acquire. destruct (checkEngineLoad sample).
    - apply silent_bind.
      + destruct HP as [-> | ->]; reflexivity.
      + intros _. apply loadV3_never_reads_image. tauto.
    - apply build_never_reads_image, HP. }
  assert (Hepi : forall e, In e (main_epilogue w (outcome (acquire w sample))) ->
            e = E_reportFail \/ e = E_reportPass \/
            exists s1, In e (trace (infer w s1)) /\ mParams s1 = mParams sample).
  { intros e. unfold main_epilogue.
    destruct (outcome (acquire w sample)) as [[[] s1]| | |] eqn:Ho; cbn [In];
      try (intros [<-|[]]; auto; fail); try (intros []; fail).
    rewrite in_app_iff. intros [H|H].
    - right. right. exists s1. split; [exact H|]. apply (acquire_keeps_params w), Ho.
    - destruct (outcome (infer w s1)) as [[[] s2]| | |]; cbn [In] in H;
        [destruct H as [<-|[]]; auto | destruct H as [<-|[]]; auto
        | destruct H | destruct H | destruct H]. }
  assert (Hfile : forall s1, mParams s1 = mParams sample -> digit_file w s1 = digit_file w sample).
  { intros s1 E. unfold digit_file. rewrite E. reflexivity. }
  split.
  - intros file h w' Hin. rewrite Htr, !in_app_iff in Hin.
    destruct Hin as [Hin|[Hin|Hin]].
    + cbn [main_prologue In] in Hin. repeat destruct Hin as [Hin|Hin]; try discriminate Hin.
      destruct Hin.
    + specialize (Hacq is_readPGMFile (or_introl eq_refl)).
      rewrite (emits_In is_readPGMFile _ _ Hin eq_refl) in Hacq. discriminate Hacq.
    + apply Hepi in Hin. destruct Hin as [Hin|[Hin|(s1 & Hin & Hp)]]; try discriminate Hin.
      rewrite <- (Hfile s1 Hp).
      apply (proj1 (infer_image_calls w s1 ltac:(rewrite Hp; reflexivity))), Hin.
  - intros Hin. rewrite Htr, !in_app_iff in Hin |- *.
    destruct Hin as [Hin|[Hin|Hin]].
    + cbn [main_prologue In] in Hin. repeat destruct Hin as [Hin|Hin]; try discriminate Hin.
      destruct Hin.
    + specialize (Hacq is_executeV2 (or_intror eq_refl)).
      rewrite (emits_In is_executeV2 _ _ Hin eq_refl) in Hacq. discriminate Hacq.
    + right. right. pose proof Hin as Hin'. apply Hepi in Hin'.
      destruct Hin' as [Hin'|[Hin'|(s1 & Hin' & Hp)]]; try discriminate Hin'.
      revert Hin. unfold main_epilogue.
      destruct (outcome (acquire w sample)) as [[[] s0]| | |] eqn:Ho; cbn [In];
        try tauto; try (intros [H|[]]; discriminate H).
      rewrite !in_app_iff. intros [H|H].
      * left. rewrite <- (Hfile s0 (acquire_keeps_params w _ _ Ho)).
        apply (proj2 (infer_image_calls w s0
                 ltac:(rewrite (acquire_keeps_params w _ _ Ho); reflexivity))), H.
      * destruct (outcome (infer w s0)) as [[[] s2]| | |]; cbn [In] in H;
          repeat destruct H as [H|H]; try discriminate H; destruct H.
Qed.

(** C6, as amended.  Each command-line flag populates the corresponding field
    of the parameter struct unchanged, and [dataDirs] defaults to
    [data/mnist/], [data/samples/mnist/].  The populated parameters are passed
    on to the calls of the path that runs, except the DLA core on the load
    path.  On the build path, once the builder, the network, the config and
    the parser exist and the model is parsed from the file located in
    [dataDirs]: [enableDLA] receives the value of [--useDLACore] and no other,
    [setFlag] is called for FP16, BF16 and INT8 exactly when the respective
    flag is set, [buildTimingCacheFromFile] is called exactly with a non-empty
    [timingCacheFile], and the engine is saved under no other name than
    [saveEngine], exactly when [build] gets as far as saving.  On the load path
    the plan file that is opened is [loadEngine] and no other, no call of the
    builder is made, and the DLA core is passed to no call: [loadV3] keeps
    [DLACore] at [-1] and never calls [setDLACore].  On both paths every image
    is read from the file of the drawn digit located in [dataDirs], and one is
    read in every run that executes the engine. *)
Theorem params_populated_and_passed_on (w : World) (args : Args.t) :
  Args.help args = false ->
  (exists p,
     outcome (initializeSampleParams args) = Returns p /\
     Params.dlaCore p = Args.useDLACore args /\
     Params.int8 p = Args.runInInt8 args /\
     Params.fp16 p = Args.runInFp16 args /\
     Params.bf16 p = Args.runInBf16 args /\
     Params.timingCacheFile p = Args.timingCacheFile args /\
     Params.saveEngine p = Args.saveEngine args /\
     Params.loadEngine p = Args.loadEngine args /\
     Params.dataDirs p =
       match Args.dataDirs args with
       | [] => ["data/mnist/"; "data/samples/mnist/"]
       | _ :: _ => Args.dataDirs args
       end) /\
  (empty (Args.loadEngine args) = true ->
   createInferBuilder_ok w = true ->
   createNetworkV2_ok w = true ->
   createBuilderConfig_ok w = true ->
   createParser_ok w = true ->
   parseFromFile_ok w
     (locateFile w "mnist.onnx" (Params.dataDirs (params_of args))) = true ->
   (forall path, In (E_parseFromFile path) (trace (main w true args)) <->
      path = locateFile w "mnist.onnx" (Params.dataDirs (params_of args))) /\
   (forall core, In (E_enableDLA core) (trace (main w true args)) <->
      core = Args.useDLACore args) /\
   (In (E_setFlag kFP16) (trace (main w true args)) <-> Args.runInFp16 args = true) /\
   (In (E_setFlag kBF16) (trace (main w true args)) <-> Args.runInBf16 args = true) /\
   (In (E_setFlag kINT8) (trace (main w true args)) <-> Args.runInInt8 args = true) /\
   (forall file, In (E_buildTimingCacheFromFile file) (trace (main w true args)) <->
      file = Args.timingCacheFile args /\ empty file = false) /\
   (forall file, In (E_saveEngine file) (trace (main w true args)) <->
      file = Args.saveEngine args /\
      reaches_save w (SampleOnnxMNIST_new (params_of args)) = true)) /\
  (empty (Args.loadEngine args) = false ->
   (forall path, In (E_ifstream path) (trace (main w true args)) <->
      path = Args.loadEngine args) /\
   emits is_constructNetwork (trace (main w true args)) = false /\
   emits is_saveEngine (trace (main w true args)) = false /\
   emits is_dla (trace (main w true args)) = false /\
   forall core, ~ dla_reaches_runtime core (trace (main w true args))) /\
  (forall path h w', In (E_readPGMFile path h w') (trace (main w true args)) ->
     path = locateFile w (String.append (to_string (Z.rem (rand w) 10)) ".pgm")
              (Params.dataDirs (params_of args)) /\
     h = 28 /\ w' = 28) /\
  (In E_executeV2 (trace (main w true args)) ->
   In (E_readPGMFile
         (locateFile w (String.append (to_string (Z.rem (rand w) 10)) ".pgm")
            (Params.dataDirs (params_of args))) 28 28)
      (trace (main w true args))).
Proof.
  intros Hh.
  set (sample := SampleOnnxMNIST_new (params_of args)).
  split; [|split; [|split; [|exact (main_image_calls w args Hh)]]].
  - exists (params_of args). repeat split.
  - intros Hl H1 H2 H3 H4 H5.
    assert (Hf : filter is_constructNetwork (trace (main w true args)) =
                 E_parseFromFile (onnx_file w sample) :: configure_calls (params_of args)).
    { rewrite (main_filter_acquire w args is_constructNetwork Hh eq_refl eq_refl eq_refl
                 (infer_never_configures w)).
      rewrite acquire_build by assumption. rewrite build_network_calls.
      change (onnx_file w (SampleOnnxMNIST_new (params_of args)))
        with (locateFile w "mnist.onnx" (Params.dataDirs (params_of args))).
      rewrite H1, H2, H3, H4, H5. reflexivity. }
    assert (Hin : forall e, is_constructNetwork e = true ->
              (In e (trace (main w true args)) <->
               e = E_parseFromFile (onnx_file w sample) \/
               In e (configure_calls (params_of args)))).
    { intros e He. rewrite (In_filter is_constructNetwork e _ He), Hf. cbn [In].
      split; intros [H|H]; auto. }
    pose proof (fun e => configure_calls_In (params_of args) e) as Hc.
    cbn [params_of Params.fp16 Params.bf16 Params.int8 Params.timingCacheFile
         Params.dlaCore] in Hc.
    split; [|split; [|split; [|split; [|split; [|split]]]]].
    + intros path. rewrite (Hin (E_parseFromFile path) eq_refl). split.
      * intros [H|H]; [injection H as ->; reflexivity|].
        apply Hc in H. intuition congruence.
      * intros ->. left. reflexivity.
    + intros core. rewrite (Hin (E_enableDLA core) eq_refl). split.
      * intros [H|H]; [discriminate H|]. apply Hc in H. intuition congruence.
      * intros ->. right. apply Hc. auto 6.
    + rewrite (Hin (E_setFlag kFP16) eq_refl). split.
      * intros [H|H]; [discriminate H|]. apply Hc in H. intuition congruence.
      * intros H. right. apply Hc. auto.
    + rewrite (Hin (E_setFlag kBF16) eq_refl). split.
      * intros [H|H]; [discriminate H|]. apply Hc in H. intuition congruence.
      * intros H. right. apply Hc. auto.
    + rewrite (Hin (E_setFlag kINT8) eq_refl). split.
      * intros [H|H]; [discriminate H|]. apply Hc in H. intuition congruence.
      * intros H. right. apply Hc. auto 6.
    + intros file. rewrite (Hin (E_buildTimingCacheFromFile file) eq_refl). split.
      * intros [H|H]; [discriminate H|]. apply Hc in H. intuition congruence.
      * intros [-> He]. right. apply Hc. auto 6.
    + intros file. split.
      * intros H.
        apply (main_build_path_In w args is_saveEngine (E_saveEngine file) Hh Hl eq_refl)
          in H;
          [| apply main_prologue_quiet; reflexivity
           | intros o; apply main_epilogue_silent; auto with silent].
        fold sample in H. destruct (reaches_save w sample) eqn:Hreach.
        -- destruct (build_reaches_save w sample Hreach) as (plan & _ & _ & _ & Htr & _).
           rewrite Htr in H. apply build_calls_save in H. split; [exact H|reflexivity].
        -- destruct (build_stops_before_save w sample Hreach) as (Hno & _).
           rewrite (emits_In is_saveEngine _ _ H eq_refl) in Hno. discriminate.
      * intros [-> Hreach]. destruct (main_acquire w args Hh) as [Htr _].
        rewrite acquire_build in Htr by assumption. fold sample in Htr.
        destruct (build_reaches_save w sample Hreach) as (plan & _ & _ & _ & Hb & _).
        rewrite Htr, Hb, !in_app_iff. right; left.
        exact (proj2 (build_calls_end w sample plan)).
  - intros Hl.
    assert (Hfilter : forall P, emits P (main_prologue args) = false ->
              P E_reportFail = false -> P E_reportPass = false ->
              P (E_cout "Engine load path is set") = false ->
              (forall s, emits P (trace (infer w s)) = false) ->
              filter P (trace (main w true args)) = filter P (trace (loadV3 w sample))).
    { intros P Hpro Hf Hp Hc Hi.
      rewrite (main_filter_acquire w args P Hh Hpro Hf Hp Hi).
      rewrite acquire_loadV3 by assumption. fold sample.
      unfold trace. rewrite fst_bind. cbn [call fst snd app filter]. rewrite Hc.
      reflexivity. }
    assert (Hquiet : forall P, emits P (main_prologue args) = false ->
              P E_reportFail = false -> P E_reportPass = false ->
              P (E_cout "Engine load path is set") = false ->
              (forall s, emits P (trace (infer w s)) = false) ->
              emits P (trace (loadV3 w sample)) = false ->
              emits P (trace (main w true args)) = false).
    { intros P Hpro Hf Hp Hc Hi Hl3.
      pose proof (Hfilter P Hpro Hf Hp Hc Hi) as E.
      rewrite (filter_silent P _ Hl3) in E.
      unfold emits. destruct (existsb P (trace (main w true args))) eqn:Hex; [|reflexivity].
      apply existsb_exists in Hex. destruct Hex as (e & Hin & HP).
      assert (Hin' : In e (filter P (trace (main w true args)))) by (apply filter_In; auto).
      rewrite E in Hin'. destruct Hin'. }
    assert (Hdla : emits is_dla (trace (main w true args)) = false).
    { apply Hquiet; try reflexivity; auto with silent. }
    split; [|split; [|split; [|split]]].
    + intros path. rewrite (In_filter is_ifstream (E_ifstream path) _ eq_refl).
      rewrite Hfilter by (try reflexivity; auto with silent).
      rewrite loadV3_ifstream_calls. cbn [In]. split.
      * intros [H|[]]. injection H as <-. reflexivity.
      * intros ->. left. reflexivity.
    + apply Hquiet; try reflexivity.
      * apply infer_never_configures.
      * apply loadV3_never_configures.
    + apply Hquiet; try reflexivity; auto with silent.
      apply loadV3_never_reads_image. tauto.
    + exact Hdla.
    + intros core [H|H]; rewrite (emits_In is_dla _ _ H eq_refl) in Hdla; discriminate.
Qed.

Lemma params_populated_and_passed_on_witness :
  (In (E_enableDLA 3) (trace (main demo_pass true args_save)) /\
   (In (E_setFlag kFP16) (trace (main demo_pass true args_save)) <->
    Args.runInFp16 args_save = true) /\
   (In (E_setFlag kINT8) (trace (main demo_pass true args_save)) <->
    Args.runInInt8 args_save = true) /\
   In (E_buildTimingCacheFromFile "timing.cache") (trace (main demo_pass true args_save))) /\
  (In (E_ifstream "mnist.engine") (trace (main demo_pass true args_load)) /\
   emits is_dla (trace (main demo_pass true args_load)) = false).
Proof.
  destruct (params_populated_and_passed_on demo_pass args_save eq_refl)
    as (_ & Hbuild & _).
  destruct (Hbuild eq_refl eq_refl eq_refl eq_refl eq_refl eq_refl)
    as (_ & Hdla & Hfp & _ & Hi8 & Htc & _).
  destruct (params_populated_and_passed_on demo_pass args_load eq_refl)
    as (_ & _ & Hload & _).
  destruct (Hload eq_refl) as (Hopen & _ & _ & Hq & _).
  split; [|split].
  - split; [apply Hdla; reflexivity|]. split; [exact Hfp|]. split; [exact Hi8|].
    apply Htc. split; reflexivity.
  - apply Hopen. reflexivity.
  - exact Hq.
Defined.

(** C6 as stated fails on the load path: with
    [--loadEngine=mnist.engine --useDLACore=3] the run passes and no call
    hands core 3 to the runtime. *)
Lemma load_path_drops_dla_core :
  Args.useDLACore args_load = 3 /\
  outcome (main demo_pass true args_load) = Returns Status_reportPass /\
  ~ dla_reaches_runtime (Args.useDLACore args_load) (trace (main demo_pass true args_load)).
Proof.
  split; [reflexivity|]. split; [vm_compute; reflexivity|].
  unfold dla_reaches_runtime. vm_compute. intuition discriminate.
Qed.

(** ** Failures on the load path *)

(** [load] checks the engine it obtained: a null engine makes it return
    [false]. *)
Lemma load_checks_engine (w : World) (s : SampleOnnxMNIST) :
  getEngine_ok w (Params.loadEngine (mParams s)) (-1) = false ->
  outcome (load w s) = Returns (false, with_mEngine None s).
Proof. intros H. unfold load. rewrite H. reflexivity. Qed.

(** [build] checks the engine it deserialized. *)
Lemma build_checks_engine (w : World) (s : SampleOnnxMNIST) :
  (forall data size, deserializeCudaEngine_ok w data size = false) ->
  exists s', outcome (build w s) = Returns (false, s').
Proof.
  intros H. apply build_stops_before_save. unfold reaches_save.
  destruct (buildSerializedNetwork w); [rewrite H|]; rewrite ?andb_false_r; reflexivity.
Qed.

(** [loadV3] does not: it returns [true] with a null engine. *)
Lemma loadV3_keeps_null_engine (w : World) (s : SampleOnnxMNIST) (f : EngineFile) :
  ifstream w (Params.loadEngine (mParams s)) = Some f ->
  file_read_ok f = true ->
  createInferRuntime_ok w = true ->
  deserializeCudaEngine_ok w (file_bytes f) (Z.of_nat (length (file_bytes f))) = false ->
  exists s', outcome (loadV3 w s) = Returns (true, s') /\ mEngine s' = None.
Proof.
  intros Hopen Hread Hrt Hde. destruct (tellg_read_ok f Hread) as (Hseek & Halloc & Hsize).
  unfold loadV3. cbv zeta.
  rewrite Hopen, tellg_negative, Hseek, Halloc, Hsize, Hread, Hrt, Hde.
  eexists. split; reflexivity.
Qed.

(** C2 fails on the load path.  The plan file is read, [deserializeCudaEngine]
    returns null, and [loadV3] still returns [true]: [main] goes on to [infer],
    which dereferences the null engine; no failure is reported.  On the build
    path the same failure makes [build] return [false], the failure is
    reported and [infer] does not run. *)
Theorem load_path_null_engine_not_reported :
  (exists s, outcome (loadV3 demo_bad_plan (SampleOnnxMNIST_new (params_of args_load)))
             = Returns (true, s) /\ mEngine s = None) /\
  outcome (main demo_bad_plan true args_load)
    = Undefined "mEngine->createExecutionContext()" /\
  emits is_reportFail (trace (main demo_bad_plan true args_load)) = false /\
  emits is_infer (trace (main demo_bad_plan true args_load)) = true /\
  outcome (main demo_bad_plan true args_default) = Returns Status_reportFail /\
  emits is_reportFail (trace (main demo_bad_plan true args_default)) = true /\
  emits is_infer (trace (main demo_bad_plan true args_default)) = false.
Proof.
  split; [eexists; split; reflexivity|].
  repeat split; vm_compute; reflexivity.
Qed.

(* ================================================================== *)
(** * Further properties of the source *)
(* ================================================================== *)

(** ** verifyOutput: what [idx] and [val] can be *)

Lemma scan_idx_range (l : list float) (i : Z) (v : float) (idx : Z) :
  is_nan v = false ->
  snd (scan l i v idx) = idx \/
  i <= snd (scan l i v idx) < i + Z.of_nat (length l).
Proof.
  intros Hv. destruct (scan_idx l i v idx Hv) as [[_ H]|(j & Hj & _ & _ & H)].
  - left. exact H.
  - right. rewrite H. lia.
Qed.

(** Whatever the output tensor holds and whatever [exp] returns, the index
    that the loops of [verifyOutput] compute is one of 0..9 and [val] is a
    number that is not below zero: [verifyOutput] returns [true] only for an
    expected label between 0 and 9. *)
Theorem verifyOutput_index_in_range
  (fexp : float -> float) (output : list float) (mNumber : Z) :
  length output = 10%nat ->
  0 <= snd (verifyOutput_loops fexp output) <= 9 /\
  is_nan (snd (fst (verifyOutput_loops fexp output))) = false /\
  F32.ltb (snd (fst (verifyOutput_loops fexp output))) F32.zero = false /\
  (verifyOutput fexp output mNumber = true -> 0 <= mNumber <= 9).
Proof.
  intros Hlen. unfold verifyOutput.
  rewrite (verifyOutput_loops_scan fexp output Hlen). cbn [fst snd].
  assert (Hl : length (softmax_spec fexp output) = 10%nat).
  { unfold softmax_spec. rewrite !length_map. exact Hlen. }
  destruct (scan_val (softmax_spec fexp output) 0 F32.zero 0 eq_refl) as (Hn & Hge & _).
  pose proof (scan_idx_range (softmax_spec fexp output) 0 F32.zero 0 eq_refl) as Hi.
  rewrite Hl in Hi.
  assert (Hr : 0 <= snd (scan (softmax_spec fexp output) 0 F32.zero 0) <= 9) by lia.
  split; [exact Hr|]. split; [exact Hn|]. split; [exact Hge|].
  intros Hm. apply andb_true_iff in Hm. destruct Hm as [Hm _].
  apply Z.eqb_eq in Hm. lia.
Qed.

Lemma verifyOutput_index_in_range_witness :
  0 <= snd (verifyOutput_loops demo_exp (demo_logits 3)) <= 9 /\
  is_nan (snd (fst (verifyOutput_loops demo_exp (demo_logits 3)))) = false /\
  F32.ltb (snd (fst (verifyOutput_loops demo_exp (demo_logits 3)))) F32.zero = false /\
  (verifyOutput demo_exp (demo_logits 3) 3 = true -> 0 <= 3 <= 9).
Proof.
  apply (verifyOutput_index_in_range demo_exp (demo_logits 3) 3). reflexivity.
Defined.

(** ** verifyOutput: NaN and overflow *)

Lemma add_nan_r (x : float) : F32.add x S754_nan = S754_nan.
Proof. destruct x; reflexivity. Qed.

Lemma sum_from_nan (l : list float) : fold_left F32.add l S754_nan = S754_nan.
Proof. induction l as [|x l IH]; [reflexivity|]. exact IH. Qed.

Lemma sum_with_nan (l : list float) (acc : float) :
  In S754_nan l -> fold_left F32.add l acc = S754_nan.
Proof.
  revert acc. induction l as [|x l IH]; intros acc H; [destruct H|].
  cbn [fold_left]. destruct H as [-> | H].
  - rewrite add_nan_r. apply sum_from_nan.
  - apply IH, H.
Qed.

Lemma div_nan_r (x : float) : F32.div x S754_nan = S754_nan.
Proof. destruct x; reflexivity. Qed.

(** The running maximum skips entries that are NaN or [+0]. *)
Lemma scan_nothing_above_zero (l : list float) : forall i idx,
  Forall (fun x => x = S754_nan \/ x = F32.zero) l ->
  fst (scan l i F32.zero idx) = F32.zero.
Proof.
  induction l as [|x l IH]; intros i idx H; [reflexivity|].
  inversion H as [|? ? Hx Hl]; subst. cbn [scan].
  destruct Hx as [-> | ->]; apply IH, Hl.
Qed.

Lemma verifyOutput_zero_val (fexp : float -> float) (output : list float) (mNumber : Z) :
  length output = 10%nat ->
  Forall (fun x => x = S754_nan \/ x = F32.zero) (softmax_spec fexp output) ->
  verifyOutput fexp output mNumber = false.
Proof.
  intros Hlen H. unfold verifyOutput.
  rewrite (verifyOutput_loops_scan fexp output Hlen).
  rewrite (scan_nothing_above_zero _ 0 0 H). apply andb_false_r.
Qed.

(** The entries of the softmaxed vector, one by one. *)
Lemma elem_softmax (fexp : float -> float) (output : list float) (i : nat) :
  (i < length output)%nat ->
  elem i (softmax_spec fexp output) =
  F32.div (fexp (elem i output)) (fold_left F32.add (map fexp output) F32.zero).
Proof.
  intros Hi. unfold softmax_spec, elem.
  rewrite (nth_indep _ S754_nan (F32.div (fexp S754_nan)
             (fold_left F32.add (map fexp output) F32.zero)))
    by (rewrite !length_map; exact Hi).
  rewrite (map_nth (fun x => F32.div x (fold_left F32.add (map fexp output) F32.zero))).
  rewrite (map_nth fexp). reflexivity.
Qed.

(** If [exp] yields NaN on some entry of the output tensor (a NaN logit, for
    an [exp] that maps NaN to NaN), the sum and every softmax entry are NaN.
    [verifyOutput] then returns [true] for no expected digit, and the log line
    of every class, the first included, asks for the conversion of NaN to
    [int], which is undefined. *)
Theorem verifyOutput_nan_cannot_pass
  (fexp : float -> float) (output : list float) (x : float) (mNumber : Z) :
  length output = 10%nat ->
  In x output ->
  fexp x = S754_nan ->
  Forall (fun p => p = S754_nan) (softmax_spec fexp output) /\
  verifyOutput fexp output mNumber <> true /\
  forall i, (i < 10)%nat ->
    elem i (fst (fst (verifyOutput_loops fexp output))) = S754_nan /\
    star_count (elem i (fst (fst (verifyOutput_loops fexp output)))) = None /\
    stars (elem i (fst (fst (verifyOutput_loops fexp output)))) =
      Undefined "int(std::floor(output[i] * 10 + 0.5F))".
Proof.
  intros Hlen Hin Hx.
  assert (Hsum : fold_left F32.add (map fexp output) F32.zero = S754_nan).
  { apply sum_with_nan. rewrite <- Hx. apply in_map, Hin. }
  assert (Hall : Forall (fun p => p = S754_nan) (softmax_spec fexp output)).
  { unfold softmax_spec. rewrite Hsum. apply Forall_forall. intros p Hp.
    apply in_map_iff in Hp. destruct Hp as (e & <- & _). apply div_nan_r. }
  split; [exact Hall|]. split.
  - rewrite (verifyOutput_zero_val fexp output mNumber Hlen); [discriminate|].
    eapply Forall_impl; [|exact Hall]. intros p ->. left. reflexivity.
  - intros i Hi. rewrite (verifyOutput_loops_scan fexp output Hlen). cbn [fst].
    assert (E : elem i (softmax_spec fexp output) = S754_nan).
    { rewrite elem_softmax by (rewrite Hlen; exact Hi). rewrite Hsum. apply div_nan_r. }
    rewrite E. repeat split.
Qed.

Lemma verifyOutput_nan_cannot_pass_witness :
  Forall (fun p => p = S754_nan) (softmax_spec overflowing_exp (logits_with 3 S754_nan)) /\
  verifyOutput overflowing_exp (logits_with 3 S754_nan) 3 <> true /\
  forall i, (i < 10)%nat ->
    elem i (fst (fst (verifyOutput_loops overflowing_exp (logits_with 3 S754_nan))))
      = S754_nan /\
    star_count
      (elem i (fst (fst (verifyOutput_loops overflowing_exp (logits_with 3 S754_nan)))))
      = None /\
    stars (elem i (fst (fst (verifyOutput_loops overflowing_exp (logits_with 3 S754_nan)))))
      = Undefined "int(std::floor(output[i] * 10 + 0.5F))".
Proof.
  apply (verifyOutput_nan_cannot_pass overflowing_exp (logits_with 3 S754_nan) S754_nan 3).
  - reflexivity.
  - do 3 right. left. reflexivity.
  - reflexivity.
Defined.

Lemma add_overflowed_l (a b : float) :
  overflowed a -> sign_clear b -> overflowed (F32.add a b).
Proof.
  intros [-> | ->] Hb; [left; reflexivity|].
  destruct b as [s|s| |s m e]; cbn in Hb; subst; cbn; unfold overflowed; auto.
Qed.

Lemma add_overflowed_r (a : float) :
  sign_clear a -> overflowed (F32.add a (S754_infinity false)).
Proof.
  destruct a as [s|s| |s m e]; cbn; intros H; subst; unfold overflowed; auto.
Qed.

Lemma sum_overflowed (l : list float) : forall acc,
  overflowed acc -> Forall sign_clear l -> overflowed (fold_left F32.add l acc).
Proof.
  induction l as [|x l IH]; intros acc Ha Hl; [exact Ha|].
  inversion Hl; subst. cbn [fold_left]. apply IH; [|assumption].
  apply add_overflowed_l; assumption.
Qed.

Lemma sum_with_infinity (l : list float) : forall acc,
  sign_clear acc -> Forall sign_clear l -> In (S754_infinity false) l ->
  overflowed (fold_left F32.add l acc).
Proof.
  induction l as [|x l IH]; intros acc Ha Hl Hin; [destruct Hin|].
  inversion Hl; subst. cbn [fold_left]. destruct Hin as [-> | Hin].
  - apply sum_overflowed; [apply add_overflowed_r|]; assumption.
  - apply IH; [apply add_sign_clear| |]; assumption.
Qed.

Lemma div_by_overflowed (x s : float) :
  sign_clear x -> overflowed s -> F32.div x s = S754_nan \/ F32.div x s = F32.zero.
Proof.
  intros Hx [-> | ->]; [left; apply div_nan_r|].
  destruct x as [sx|sx| |sx m e]; cbn in Hx; subst; cbn; auto.
Qed.

(** The softmax is computed without subtracting the largest logit: if [exp]
    overflows to [+infinity] on entry [i] of the output tensor, the sum is
    infinite (or NaN), softmax entry [i] is NaN and every other one is NaN or
    zero.  [verifyOutput] then returns [true] for no expected digit, and the
    log line of class [i] asks for the conversion of NaN to [int], which is
    undefined.  ([exp] returns values with a clear sign bit, or NaN.) *)
Theorem verifyOutput_overflow_cannot_pass
  (fexp : float -> float) (output : list float) (i : nat) (mNumber : Z) :
  (forall y, sign_clear (fexp y)) ->
  length output = 10%nat ->
  (i < 10)%nat ->
  fexp (elem i output) = S754_infinity false ->
  Forall (fun p => p = S754_nan \/ p = F32.zero) (softmax_spec fexp output) /\
  verifyOutput fexp output mNumber <> true /\
  elem i (fst (fst (verifyOutput_loops fexp output))) = S754_nan /\
  star_count (elem i (fst (fst (verifyOutput_loops fexp output)))) = None /\
  stars (elem i (fst (fst (verifyOutput_loops fexp output)))) =
    Undefined "int(std::floor(output[i] * 10 + 0.5F))".
Proof.
  intros Hexp Hlen Hi Hx.
  assert (He : Forall sign_clear (map fexp output)).
  { apply Forall_forall. intros e H. apply in_map_iff in H.
    destruct H as (y & <- & _). apply Hexp. }
  assert (Hsum : overflowed (fold_left F32.add (map fexp output) F32.zero)).
  { apply sum_with_infinity; [reflexivity | exact He |].
    rewrite <- Hx. apply in_map, elem_In. rewrite Hlen. exact Hi. }
  assert (Hall : Forall (fun p => p = S754_nan \/ p = F32.zero) (softmax_spec fexp output)).
  { unfold softmax_spec. apply Forall_forall. intros p Hp.
    apply in_map_iff in Hp. destruct Hp as (e & <- & Hein).
    apply div_by_overflowed; [|exact Hsum].
    rewrite Forall_forall in He. apply He, Hein. }
  split; [exact Hall|]. split.
  - rewrite (verifyOutput_zero_val fexp output mNumber Hlen Hall). discriminate.
  - rewrite (verifyOutput_loops_scan fexp output Hlen). cbn [fst].
    assert (E : elem i (softmax_spec fexp output) = S754_nan).
    { rewrite elem_softmax by (rewrite Hlen; exact Hi). rewrite Hx.
      destruct Hsum as [-> | ->]; reflexivity. }
    rewrite E. repeat split.
Qed.

Lemma verifyOutput_overflow_cannot_pass_witness :
  Forall (fun p => p = S754_nan \/ p = F32.zero)
    (softmax_spec overflowing_exp (demo_logits 3)) /\
  verifyOutput overflowing_exp (demo_logits 3) 3 <> true /\
  elem 3 (fst (fst (verifyOutput_loops overflowing_exp (demo_logits 3)))) = S754_nan /\
  star_count (elem 3 (fst (fst (verifyOutput_loops overflowing_exp (demo_logits 3)))))
    = None /\
  stars (elem 3 (fst (fst (verifyOutput_loops overflowing_exp (demo_logits 3))))) =
    Undefined "int(std::floor(output[i] * 10 + 0.5F))".
Proof.
  apply (verifyOutput_overflow_cannot_pass overflowing_exp (demo_logits 3) 3 3).
  - intros y. unfold overflowing_exp.
    destruct y; try exact I; destruct (F32.ltb (F32.of_Z 10) _); reflexivity.
  - reflexivity.
  - lia.
  - reflexivity.
Defined.

(** ** processInput: the normalised image and its picture in the log *)

Lemma all_bytes_complete (b : byte) : In b all_bytes.
Proof.
  unfold all_bytes. apply in_map_iff. exists (Byte.to_nat b). split.
  - unfold byte_of_nat. rewrite Byte.of_to_nat. reflexivity.
  - apply in_seq. pose proof (Byte.to_nat_bounded b). lia.
Qed.

Lemma pixel_table_in_range :
  forallb (fun b => leb F32.zero (pixel b) && leb (pixel b) (F32.of_Z 1)) all_bytes = true.
Proof. vm_compute. reflexivity. Qed.

Lemma pixel_table_decreasing :
  (let table := map (fun b => (uint8 b, pixel b)) all_bytes in
   forallb (fun p1 =>
     forallb (fun p2 => implb (fst p1 <=? fst p2) (leb (snd p2) (snd p1))) table)
     table) = true.
Proof. vm_compute. reflexivity. Qed.

Lemma uint8_range (b : byte) : 0 <= uint8 b <= 255.
Proof. unfold uint8. pose proof (Byte.to_N_bounded b). lia. Qed.

(** [processInput] fills the host input buffer with 784 numbers between 0 and
    1, whatever [readPGMFile] delivered: a pixel of gray value 0 becomes 1.0, a
    pixel of value 255 becomes 0.0, and a brighter pixel never becomes a
    larger number. *)
Theorem processInput_normalises_pixels (w : World) (s : SampleOnnxMNIST) :
  (exists s' buffer,
     outcome (processInput w s) = Returns (true, s', buffer) /\
     length buffer = 784%nat /\
     Forall (fun x => leb F32.zero x = true /\ leb x (F32.of_Z 1) = true) buffer) /\
  pixel x00 = F32.of_Z 1 /\
  pixel xff = F32.zero /\
  forall b1 b2, uint8 b1 <= uint8 b2 -> leb (pixel b2) (pixel b1) = true.
Proof.
  assert (Hrange : forall b, leb F32.zero (pixel b) = true /\ leb (pixel b) (F32.of_Z 1) = true).
  { intros b. pose proof pixel_table_in_range as H.
    rewrite forallb_forall in H. specialize (H b (all_bytes_complete b)).
    apply andb_true_iff in H. exact H. }
  split; [|split; [|split]].
  - rewrite processInput_run. do 2 eexists. split; [reflexivity|]. split.
    + unfold host_input. rewrite length_map. apply length_fill.
    + unfold host_input. apply Forall_forall. intros x Hx.
      apply in_map_iff in Hx. destruct Hx as (b & <- & _). apply Hrange.
  - vm_compute. reflexivity.
  - vm_compute. reflexivity.
  - intros b1 b2 Hle. pose proof pixel_table_decreasing as H. cbv zeta in H.
    rewrite forallb_forall in H.
    specialize (H (uint8 b1, pixel b1)
                  (in_map (fun b => (uint8 b, pixel b)) _ _ (all_bytes_complete b1))).
    rewrite forallb_forall in H.
    specialize (H (uint8 b2, pixel b2)
                  (in_map (fun b => (uint8 b, pixel b)) _ _ (all_bytes_complete b2))).
    cbn [fst snd] in H. apply Z.leb_le in Hle. rewrite Hle in H. exact H.
Qed.

Lemma ascii_art_length (fileData : list byte) : forall i,
  0 <= i ->
  Z.of_nat (String.length (ascii_art i fileData)) =
  Z.of_nat (length fileData) + ((i + Z.of_nat (length fileData)) / 28 - i / 28).
Proof.
  induction fileData as [|b rest IH]; intros i Hi.
  - cbn [ascii_art String.length length]. rewrite Z.add_0_r. lia.
  - cbn [ascii_art]. unfold inputW.
    assert (Hstep : (i + 1) / 28 - i / 28 = if Z.rem (i + 1) 28 =? 0 then 1 else 0).
    { rewrite Z.rem_mod_nonneg by lia.
      destruct (Z.eqb_spec ((i + 1) mod 28) 0) as [E|E];
        revert E; Z.div_mod_to_equations; lia. }
    specialize (IH (i + 1) ltac:(lia)).
    replace (i + Z.of_nat (length (b :: rest)))
      with (i + 1 + Z.of_nat (length rest)) by (cbn [length]; lia).
    destruct (Z.rem (i + 1) 28 =? 0); cbn [String.length length]; lia.
Qed.

(** One row of the picture: the characters of its bytes, then the line
    break, which [ascii_art] writes when the next index is a multiple of 28. *)
Lemma ascii_art_row (row : list byte) : forall (rest : list byte) (i : Z),
  0 <= i ->
  row <> [] ->
  i mod 28 + Z.of_nat (length row) = 28 ->
  ascii_art i (row ++ rest) =
  picture_line row (ascii_art (i + Z.of_nat (length row)) rest).
Proof.
  induction row as [|b row IH]; intros rest i Hi Hne Hrow; [congruence|].
  cbn [app ascii_art]. unfold picture_line, inputW. cbn [map string_of_list_ascii].
  fold (ramp_char b). cbn [String.append]. f_equal.
  rewrite Z.rem_mod_nonneg by lia.
  destruct row as [|b' row].
  - cbn [length] in Hrow. change (Z.of_nat 1) with 1 in *.
    assert (E : (i + 1) mod 28 = 0).
    { revert Hrow. Z.div_mod_to_equations. lia. }
    rewrite E. reflexivity.
  - assert (E : (i + 1) mod 28 = i mod 28 + 1).
    { revert Hrow. cbn [length]. Z.div_mod_to_equations. lia. }
    destruct (Z.eqb_spec ((i + 1) mod 28) 0) as [E0|_].
    { exfalso. pose proof (Z.mod_pos_bound i 28 ltac:(lia)). lia. }
    rewrite (IH rest (i + 1)); [|lia|discriminate|].
    + unfold picture_line. do 3 f_equal. cbn [length]. lia.
    + rewrite E. cbn [length] in *. lia.
Qed.

Lemma rows_shape (n : nat) : forall fileData,
  length fileData = (28 * n)%nat ->
  length (rows n fileData) = n /\
  Forall (fun row => length row = 28%nat) (rows n fileData) /\
  concat (rows n fileData) = fileData.
Proof.
  induction n as [|n IH]; intros fileData H.
  - destruct fileData; [|discriminate H]. repeat split. constructor.
  - cbn [rows]. destruct (IH (skipn 28 fileData)) as (H1 & H2 & H3).
    { rewrite length_skipn. lia. }
    cbn [length concat]. rewrite H1, H3, firstn_skipn. repeat split.
    constructor; [|exact H2]. rewrite length_firstn. lia.
Qed.

Lemma ascii_art_rows (n : nat) : forall (fileData : list byte) (r : Z),
  0 <= r ->
  length fileData = (28 * n)%nat ->
  ascii_art (28 * r) fileData = fold_right picture_line "" (rows n fileData).
Proof.
  induction n as [|n IH]; intros fileData r Hr H.
  - destruct fileData; [reflexivity|discriminate H].
  - cbn [rows fold_right]. rewrite <- (IH (skipn 28 fileData) (r + 1));
      [|lia|rewrite length_skipn; lia].
    assert (Hrow : length (firstn 28 fileData) = 28%nat)
      by (rewrite length_firstn; lia).
    rewrite <- (firstn_skipn 28 fileData) at 1.
    rewrite (ascii_art_row (firstn 28 fileData) (skipn 28 fileData) (28 * r)).
    + rewrite Hrow. do 2 f_equal. lia.
    + lia.
    + intros E. rewrite E in Hrow. discriminate Hrow.
    + rewrite Hrow. rewrite Z.mul_comm, Z.mod_mul by lia. reflexivity.
Qed.

(** The picture of the image in the log: the index [fileData[i] / 26] into the
    ten characters of [" .:-=+*#%@"] is always one of 0..9, and for the 784
    bytes of the image the picture consists of 28 lines, one for each row of
    28 bytes in order, each made of the 28 characters of its bytes and
    followed by a line break: 812 characters in all. *)
Theorem ascii_art_shape (w : World) (s : SampleOnnxMNIST) :
  (forall b : byte,
     (Z.to_nat (uint8 b / 26) < length (list_ascii_of_string " .:-=+*#%@"))%nat) /\
  (forall fileData, length fileData = 784%nat ->
     ascii_art 0 fileData = picture fileData /\
     length (rows 28 fileData) = 28%nat /\
     Forall (fun row => length row = 28%nat) (rows 28 fileData) /\
     concat (rows 28 fileData) = fileData /\
     String.length (ascii_art 0 fileData) = (28 * 29)%nat) /\
  In (E_gLogInfo (picture (fill 784 (readPGMFile w (digit_file w s) 28 28))))
     (trace (processInput w s)).
Proof.
  assert (Hlen : forall fileData, length fileData = 784%nat ->
            String.length (ascii_art 0 fileData) = (28 * 29)%nat).
  { intros fileData H. pose proof (ascii_art_length fileData 0 ltac:(lia)) as E.
    rewrite H in E. change ((0 + Z.of_nat 784) / 28 - 0 / 28) with 28 in E. lia. }
  assert (Hpic : forall fileData, length fileData = 784%nat ->
            ascii_art 0 fileData = picture fileData).
  { intros fileData H. exact (ascii_art_rows 28 fileData 0 ltac:(lia) H). }
  split; [|split].
  - intros b. pose proof (uint8_range b) as Hb. cbn [list_ascii_of_string length].
    assert (uint8 b / 26 <= 9) by (Z.div_mod_to_equations; lia).
    assert (0 <= uint8 b / 26) by (Z.div_mod_to_equations; lia). lia.
  - intros fileData H. destruct (rows_shape 28 fileData H) as (H1 & H2 & H3).
    split; [exact (Hpic fileData H)|]. split; [exact H1|]. split; [exact H2|].
    split; [exact H3|exact (Hlen fileData H)].
  - rewrite processInput_run. cbn [trace fst In]. right. right. left.
    rewrite Hpic by apply length_fill. reflexivity.
Qed.

(** ** loadV3, loadV2 and load *)

Lemma loadV2_cases (w : World) (s : SampleOnnxMNIST) :
  loadV2 w s =
  let path := Params.loadEngine (mParams s) in
  match ifstream w path with
  | None =>
      ([E_ifstream path; E_cerr (String.append "Error opening engine file: " path)],
       Returns (false, s))
  | Some f =>
      let size := Z.of_nat (length (file_bytes f)) in
      if file_seek_ok f
      then if file_alloc_ok f
           then if file_get_ok f
                then if createInferRuntime_ok w
                     then ([E_ifstream path; E_read size; E_createInferRuntime;
                            E_deserializeCudaEngine (file_bytes f) size],
                           Returns (true,
                                    with_mEngine
                                      (if deserializeCudaEngine_ok w (file_bytes f) size
                                       then Some {| plan := file_bytes f |} else None)
                                      s))
                     else ([E_ifstream path; E_read size; E_createInferRuntime],
                           Undefined
                             "runtime->deserializeCudaEngine(engineData.data(), fsize)")
                else ([E_ifstream path; E_read size;
                       E_cerr (String.append "Error loading engine file: " path)],
                      Returns (false, s))
           else ([E_ifstream path], Throws "std::bad_alloc")
      else ([E_ifstream path], Throws "std::length_error")
  end.
Proof.
  unfold loadV2. cbv zeta.
  destruct (ifstream w (Params.loadEngine (mParams s))) as [f|]; [|reflexivity].
  rewrite tellg_negative. unfold file_read_ok, tellg.
  destruct (file_seek_ok f); [|reflexivity].
  destruct (file_alloc_ok f); [|reflexivity].
  destruct (file_get_ok f); [|reflexivity].
  destruct (createInferRuntime_ok w); reflexivity.
Qed.

(** [loadV2] and [loadV3] make the same calls, fail on the same files and
    leave the same engine; they differ only in the runtime, which [loadV3]
    stores in [mRuntime] and [loadV2] does not.  Both throw the same exception
    on a stream that cannot tell its size, and both dereference a null runtime
    when [createInferRuntime] fails after the file was read. *)
Theorem loadV2_agrees_with_loadV3 (w : World) (s : SampleOnnxMNIST) :
  trace (loadV2 w s) = trace (loadV3 w s) /\
  match outcome (loadV2 w s), outcome (loadV3 w s) with
  | Returns (b2, s2), Returns (b3, s3) =>
      b2 = b3 /\ mEngine s2 = mEngine s3 /\ mParams s2 = mParams s3 /\
      mNumber s2 = mNumber s3 /\ mRuntime s2 = mRuntime s /\
      (b3 = true -> mRuntime s3 = Some TheRuntime)
  | Undefined _, Undefined _ => createInferRuntime_ok w = false
  | Throws x2, Throws x3 => x2 = x3
  | _, _ => False
  end /\
  (forall f,
     ifstream w (Params.loadEngine (mParams s)) = Some f ->
     file_read_ok f = true ->
     createInferRuntime_ok w = false ->
     outcome (loadV2 w s) =
       Undefined "runtime->deserializeCudaEngine(engineData.data(), fsize)" /\
     outcome (loadV3 w s) =
       Undefined "mRuntime->deserializeCudaEngine(engineData.data(), fsize)").
Proof.
  rewrite loadV2_cases, loadV3_cases. cbv zeta. split; [|split].
  - destruct (ifstream w (Params.loadEngine (mParams s))) as [f|]; [|reflexivity].
    destruct (file_seek_ok f); [|reflexivity].
    destruct (file_alloc_ok f); [|reflexivity].
    destruct (file_get_ok f); [|reflexivity].
    destruct (createInferRuntime_ok w); reflexivity.
  - destruct (ifstream w (Params.loadEngine (mParams s))) as [f|].
    2:{ cbn. repeat split; auto. discriminate. }
    destruct (file_seek_ok f); [|reflexivity].
    destruct (file_alloc_ok f); [|reflexivity].
    destruct (file_get_ok f).
    2:{ cbn. repeat split; auto. discriminate. }
    destruct (createInferRuntime_ok w) eqn:Hrt; cbn; repeat split; auto.
  - intros f Hopen Hread Hrt. destruct (tellg_read_ok f Hread) as (Hseek & Halloc & _).
    unfold file_read_ok in Hread. rewrite Hseek, Halloc in Hread. cbn [andb] in Hread.
    rewrite Hopen, Hseek, Halloc, Hread, Hrt. split; reflexivity.
Qed.

Lemma loadV2_agrees_with_loadV3_witness :
  outcome (loadV2 demo_no_runtime (SampleOnnxMNIST_new (params_of args_load))) =
    Undefined "runtime->deserializeCudaEngine(engineData.data(), fsize)" /\
  outcome (loadV3 demo_no_runtime (SampleOnnxMNIST_new (params_of args_load))) =
    Undefined "mRuntime->deserializeCudaEngine(engineData.data(), fsize)".
Proof.
  exact (proj2 (proj2 (loadV2_agrees_with_loadV3 demo_no_runtime
                         (SampleOnnxMNIST_new (params_of args_load))))
           demo_file eq_refl eq_refl eq_refl).
Defined.

(** [load] returns [true] exactly when it holds an engine afterwards; it asks
    for the engine of the load-engine parameter with DLA core [-1], whatever
    the DLA core parameter is, and changes nothing else in the object. *)
Theorem load_true_iff_engine (w : World) (s : SampleOnnxMNIST) :
  exists b s',
    outcome (load w s) = Returns (b, s') /\
    (b = true <-> mEngine s' <> None) /\
    b = getEngine_ok w (Params.loadEngine (mParams s)) (-1) /\
    hd_error (trace (load w s)) = Some (E_getEngine (Params.loadEngine (mParams s)) (-1)) /\
    emits is_dla (trace (load w s)) = false /\
    mParams s' = mParams s /\ mRuntime s' = mRuntime s /\ mNumber s' = mNumber s.
Proof.
  unfold load. cbv zeta.
  destruct (getEngine_ok w (Params.loadEngine (mParams s)) (-1)); cbn.
  - do 2 eexists. split; [reflexivity|]. cbn.
    split; [split; intros; congruence|]. repeat (split; [reflexivity|]). reflexivity.
  - do 2 eexists. split; [reflexivity|]. cbn.
    split; [split; intros; congruence|]. repeat (split; [reflexivity|]). reflexivity.
Qed.

(** ** What build and infer guarantee when they return *)

Lemma mnist_shape_true (w : World) :
  mnist_shape w = true ->
  getNbInputs w = 1 /\ nbDims (getInput0_getDimensions w) = 4 /\
  getNbOutputs w = 1 /\ nbDims (getOutput0_getDimensions w) = 2.
Proof.
  unfold mnist_shape. intros H.
  repeat (apply andb_true_iff in H; destruct H as [H ?]).
  repeat split; apply Z.eqb_eq; assumption.
Qed.

(** When [build] returns [true] the object holds the runtime and a non-null
    engine made from the plan built in this run, the engine was saved, the
    network has one input of 4 dimensions and one output of 2, which are
    recorded in [mInputDims] and [mOutputDims], and the parameters and the
    digit are unchanged.  [build] never dereferences a null pointer. *)
Theorem build_true_postcondition (w : World) (s : SampleOnnxMNIST) :
  (forall e, outcome (build w s) <> Undefined e) /\
  forall s', outcome (build w s) = Returns (true, s') ->
    (exists plan, buildSerializedNetwork w = Some plan /\
                  mEngine s' = Some {| plan := plan |}) /\
    mRuntime s' = Some TheRuntime /\
    saveEngine_ok w (Params.saveEngine (mParams s)) = true /\
    In (E_saveEngine (Params.saveEngine (mParams s))) (trace (build w s)) /\
    getNbInputs w = 1 /\ getNbOutputs w = 1 /\
    mInputDims s' = getInput0_getDimensions w /\ nbDims (mInputDims s') = 4 /\
    mOutputDims s' = getOutput0_getDimensions w /\ nbDims (mOutputDims s') = 2 /\
    mParams s' = mParams s /\ mNumber s' = mNumber s.
Proof.
  destruct (reaches_save w s) eqn:Hreach.
  2:{ destruct (build_stops_before_save w s Hreach) as (_ & (s0 & Hb) & _).
      rewrite Hb. split; [discriminate|]. intros s' H. discriminate H. }
  destruct (build_reaches_save w s Hreach) as (plan & Hplan & _ & _ & Htr & Hres).
  destruct (saveEngine_ok w (Params.saveEngine (mParams s))) eqn:Hsave.
  2:{ rewrite Hres. split; [discriminate|]. intros s' H. discriminate H. }
  destruct (mnist_shape w) eqn:Hshape.
  2:{ destruct Hres as (c & Hres). rewrite Hres. split; [discriminate|].
      intros s' H. discriminate H. }
  rewrite Hres. split; [discriminate|]. intros s' H. injection H as <-.
  destruct (mnist_shape_true w Hshape) as (H1 & H2 & H3 & H4).
  split; [exists plan; split; [assumption|reflexivity]|].
  split; [reflexivity|]. split; [reflexivity|].
  split; [rewrite Htr; apply build_calls_end|].
  split; [exact H1|]. split; [exact H3|]. split; [reflexivity|]. split; [exact H2|].
  split; [reflexivity|]. split; [exact H4|]. split; reflexivity.
Qed.

Lemma infer_bad_tensor_names (w : World) (s : SampleOnnxMNIST) (engine : ICudaEngine) :
  mEngine s = Some engine ->
  createExecutionContext_ok w = true ->
  length (Params.inputTensorNames (mParams s)) <> 1%nat ->
  outcome (infer w s) = Aborts "mParams.inputTensorNames.size() == 1".
Proof.
  intros He Hc Hn. unfold infer. rewrite He, Hc.
  assert (E : (Z.of_nat (length (Params.inputTensorNames (mParams s))) =? 1) = false)
    by (apply Z.eqb_neq; lia).
  destruct (trace_for_each_call (ioTensorNames w) E_setTensorAddress) as [_ Ho].
  unfold outcome in Ho. run_rw. rewrite Ho. run_rw. rewrite E. reflexivity.
Qed.

(** When [infer] returns, the object is unchanged except for [mNumber]; and it
    returns [true] only if the execution context was created, [executeV2]
    succeeded on the buffer filled from the image of the drawn digit, and
    [verifyOutput] accepted the output for that digit. *)
Theorem infer_postcondition (w : World) (s s' : SampleOnnxMNIST) (b : bool) :
  outcome (infer w s) = Returns (b, s') ->
  mParams s' = mParams s /\ mEngine s' = mEngine s /\ mRuntime s' = mRuntime s /\
  mInputDims s' = mInputDims s /\ mOutputDims s' = mOutputDims s /\
  mEngine s <> None /\
  (b = true ->
   createExecutionContext_ok w = true /\
   mNumber s' = Z.rem (rand w) 10 /\
   exists output,
     executeV2 w (host_input w s) = Some output /\
     verifyOutput (exp w) output (Z.rem (rand w) 10) = true).
Proof.
  intros H.
  destruct (mEngine s) as [engine|] eqn:He.
  2:{ rewrite (infer_null_engine w s He) in H. discriminate H. }
  destruct (createExecutionContext_ok w) eqn:Hc.
  2:{ rewrite (infer_without_context w s engine He Hc) in H. injection H as <- <-.
      rewrite He. repeat split; try congruence. }
  destruct (Nat.eq_dec (length (Params.inputTensorNames (mParams s))) 1) as [Hn|Hn].
  2:{ rewrite (infer_bad_tensor_names w s engine He Hc Hn) in H. discriminate H. }
  destruct (infer_run w s engine He Hc Hn) as [_ Ho]. rewrite Ho in H.
  injection H as Hb <-.
  cbn [mParams mEngine mRuntime mInputDims mOutputDims mNumber with_mNumber].
  rewrite He.
  do 5 (split; [reflexivity|]). split; [discriminate|].
  intros Htrue. subst b. split; [reflexivity|]. split; [reflexivity|].
  destruct (executeV2 w (host_input w s)) as [output|]; [|discriminate].
  exists output. split; [reflexivity|]. exact Htrue.
Qed.

Lemma infer_postcondition_witness :
  mParams (with_mNumber 3 demo_sample) = mParams demo_sample /\
  mEngine (with_mNumber 3 demo_sample) = mEngine demo_sample /\
  mRuntime (with_mNumber 3 demo_sample) = mRuntime demo_sample /\
  mInputDims (with_mNumber 3 demo_sample) = mInputDims demo_sample /\
  mOutputDims (with_mNumber 3 demo_sample) = mOutputDims demo_sample /\
  mEngine demo_sample <> None /\
  (true = true ->
   createExecutionContext_ok demo_pass = true /\
   mNumber (with_mNumber 3 demo_sample) = Z.rem (rand demo_pass) 10 /\
   exists output,
     executeV2 demo_pass (host_input demo_pass demo_sample) = Some output /\
     verifyOutput (exp demo_pass) output (Z.rem (rand demo_pass) 10) = true).
Proof.
  apply (infer_postcondition demo_pass demo_sample (with_mNumber 3 demo_sample) true).
  vm_compute. reflexivity.
Defined.

(** ** main: reports, failures on the load path, abnormal ends *)

Lemma build_never_reports (w : World) (s : SampleOnnxMNIST) :
  emits is_report (trace (build w s)) = false.
Proof. unfold build, constructNetwork, ASSERT. silent. Qed.

Lemma loadV3_never_reports (w : World) (s : SampleOnnxMNIST) :
  emits is_report (trace (loadV3 w s)) = false.
Proof.
  rewrite loadV3_cases. cbv zeta.
  destruct (ifstream w _) as [f|]; [|reflexivity].
  destruct (file_seek_ok f); [|reflexivity].
  destruct (file_alloc_ok f); [|reflexivity].
  destruct (file_get_ok f); [|reflexivity].
  destruct (createInferRuntime_ok w); reflexivity.
Qed.

Lemma loadV3_never_saves (w : World) (s : SampleOnnxMNIST) :
  emits is_saveEngine (trace (loadV3 w s)) = false.
Proof.
  rewrite loadV3_cases. cbv zeta.
  destruct (ifstream w _) as [f|]; [|reflexivity].
  destruct (file_seek_ok f); [|reflexivity].
  destruct (file_alloc_ok f); [|reflexivity].
  destruct (file_get_ok f); [|reflexivity].
  destruct (createInferRuntime_ok w); reflexivity.
Qed.

Lemma infer_never_reports (w : World) (s : SampleOnnxMNIST) :
  emits is_report (trace (infer w s)) = false.
Proof. unfold infer, processInput, ASSERT. silent. Qed.

Lemma acquire_never_reports (w : World) (s : SampleOnnxMNIST) :
  emits is_report (trace (acquire w s)) = false.
Proof.
  unfold acquire. destruct (checkEngineLoad s).
  - apply silent_bind; [reflexivity|]. intros _. apply loadV3_never_reports.
  - apply build_never_reports.
Qed.

Lemma main_invalid_arguments (w : World) (args : Args.t) :
  main w false args = ([E_gLogError "Invalid arguments"; E_printHelpInfo], Returns EXIT_FAILURE).
Proof. reflexivity. Qed.

Lemma main_help (w : World) (args : Args.t) :
  Args.help args = true -> main w true args = ([E_printHelpInfo], Returns EXIT_SUCCESS).
Proof. intros H. unfold main. rewrite H. reflexivity. Qed.

(** In every run, [reportTestStart] is called exactly when the arguments are
    valid and do not ask for help.  A run that ends with the value of
    [reportPass] (resp. [reportFail]) made exactly one report, that one, as its
    last call; a run that ends otherwise (invalid arguments, help, a failed
    assertion, a null dereference, an exception) made no report. *)
Theorem main_reports_once (w : World) (argsOK : bool) (args : Args.t) :
  (In E_reportTestStart (trace (main w argsOK args)) <->
   argsOK = true /\ Args.help args = false) /\
  match outcome (main w argsOK args) with
  | Returns Status_reportPass =>
      filter is_report (trace (main w argsOK args)) = [E_reportPass] /\
      exists before, trace (main w argsOK args) = before ++ [E_reportPass]
  | Returns Status_reportFail =>
      filter is_report (trace (main w argsOK args)) = [E_reportFail] /\
      exists before, trace (main w argsOK args) = before ++ [E_reportFail]
  | _ => filter is_report (trace (main w argsOK args)) = []
  end.
Proof.
  destruct argsOK.
  2:{ rewrite main_invalid_arguments. cbn. split; [|reflexivity].
      split; [intros [H|[H|[]]]; discriminate H | intros [H _]; discriminate H]. }
  destruct (Args.help args) eqn:Hh.
  { rewrite (main_help w args Hh). cbn. split; [|reflexivity].
    split; [intros [H|[]]; discriminate H | intros [_ H]; discriminate H]. }
  destruct (main_acquire w args Hh) as [Htr Hout].
  set (sample := SampleOnnxMNIST_new (params_of args)) in *.
  split.
  { rewrite Htr. split; [auto|]. intros _. left. reflexivity. }
  rewrite Hout, Htr, !filter_app.
  rewrite (filter_silent is_report (trace (acquire w sample)) (acquire_never_reports w sample)).
  cbn [main_prologue filter is_report app].
  destruct (outcome (acquire w sample)) as [[[] s1]| | |]; cbn [main_result main_epilogue].
  - rewrite filter_app, (filter_silent _ _ (infer_never_reports w s1)).
    destruct (outcome (infer w s1)) as [[[] s2]| | |]; cbn [filter is_report app];
      try reflexivity; (split; [reflexivity|]);
      exists (main_prologue args ++ trace (acquire w sample) ++ trace (infer w s1));
      unfold main_prologue; cbn [app]; rewrite <- ?app_assoc; reflexivity.
  - cbn [filter is_report]. split; [reflexivity|].
    exists (main_prologue args ++ trace (acquire w sample)).
    unfold main_prologue; cbn [app]; rewrite <- ?app_assoc; reflexivity.
  - reflexivity.
  - reflexivity.
  - reflexivity.
Qed.

(** On the load path, a plan file that cannot be opened, or that told its
    size, got its buffer and then could not be read to its end, makes the run
    report failure after an error message on [cerr]: no runtime is created,
    nothing is deserialized and [infer] does not run. *)
Theorem load_path_file_error_reported (w : World) (args : Args.t) :
  Args.help args = false ->
  empty (Args.loadEngine args) = false ->
  match ifstream w (Args.loadEngine args) with
  | None => True
  | Some f => file_seek_ok f = true /\ file_alloc_ok f = true /\ file_get_ok f = false
  end ->
  outcome (main w true args) = Returns Status_reportFail /\
  trace (main w true args) =
    main_prologue args ++
    [E_cout "Engine load path is set"; E_ifstream (Args.loadEngine args)] ++
    match ifstream w (Args.loadEngine args) with
    | None =>
        [E_cerr (String.append "Error opening engine file: " (Args.loadEngine args))]
    | Some f =>
        [E_read (Z.of_nat (length (file_bytes f)));
         E_cerr (String.append "Error loading engine file: " (Args.loadEngine args))]
    end ++ [E_reportFail] /\
  emits is_createInferRuntime (trace (main w true args)) = false /\
  emits is_deserialize (trace (main w true args)) = false /\
  emits is_infer (trace (main w true args)) = false.
Proof.
  intros Hh Hl Hfile.
  destruct (main_acquire w args Hh) as [Htr Hout].
  rewrite acquire_loadV3 in Htr, Hout by assumption.
  unfold trace, outcome in Htr, Hout. rewrite fst_bind in Htr. rewrite snd_bind in Hout.
  cbn [call fst snd] in Htr, Hout. rewrite loadV3_cases in Htr, Hout.
  cbv zeta in Htr, Hout.
  change (Params.loadEngine (mParams (SampleOnnxMNIST_new (params_of args))))
    with (Args.loadEngine args) in Htr, Hout.
  unfold trace, outcome.
  destruct (ifstream w (Args.loadEngine args)) as [f|].
  - destruct Hfile as (Hseek & Halloc & Hget). rewrite Hseek, Halloc, Hget in Htr, Hout.
    cbn [fst snd main_result main_epilogue app] in Htr, Hout.
    rewrite Htr, Hout. unfold emits. rewrite !existsb_app.
    repeat split; reflexivity.
  - cbn [fst snd main_result main_epilogue app] in Htr, Hout.
    rewrite Htr, Hout. unfold emits. rewrite !existsb_app.
    repeat split; reflexivity.
Qed.

Lemma load_path_file_error_reported_witness :
  (outcome (main demo_no_file true args_load) = Returns Status_reportFail /\
   emits is_createInferRuntime (trace (main demo_no_file true args_load)) = false) /\
  (outcome (main demo_unreadable true args_load) = Returns Status_reportFail /\
   emits is_createInferRuntime (trace (main demo_unreadable true args_load)) = false).
Proof.
  destruct (load_path_file_error_reported demo_no_file args_load eq_refl eq_refl I)
    as (H1 & _ & H2 & _).
  destruct (load_path_file_error_reported demo_unreadable args_load eq_refl eq_refl
              (conj eq_refl (conj eq_refl eq_refl)))
    as (H3 & _ & H4 & _).
  repeat split; assumption.
Defined.

Lemma infer_with_engine (w : World) (s : SampleOnnxMNIST) (engine : ICudaEngine) :
  mEngine s = Some engine ->
  length (Params.inputTensorNames (mParams s)) = 1%nat ->
  exists s', outcome (infer w s) = Returns (infer_verdict w s, s').
Proof.
  intros He Hn. unfold infer_verdict.
  destruct (createExecutionContext_ok w) eqn:Hc.
  - destruct (infer_run w s engine He Hc Hn) as [_ Ho]. rewrite Ho. eexists. reflexivity.
  - rewrite (infer_without_context w s engine He Hc). eexists. reflexivity.
Qed.

(** The result of [main] on the load path. *)
Lemma main_load_path_result (w : World) (args : Args.t) :
  Args.help args = false ->
  empty (Args.loadEngine args) = false ->
  outcome (main w true args) =
  match ifstream w (Args.loadEngine args) with
  | None => Returns Status_reportFail
  | Some f =>
      if file_read_ok f
      then if createInferRuntime_ok w
           then if deserializeCudaEngine_ok w (file_bytes f)
                     (Z.of_nat (length (file_bytes f)))
                then Returns (status_of
                                (infer_verdict w (SampleOnnxMNIST_new (params_of args))))
                else Undefined "mEngine->createExecutionContext()"
           else Undefined "mRuntime->deserializeCudaEngine(engineData.data(), fsize)"
      else if file_seek_ok f
           then if file_alloc_ok f
                then Returns Status_reportFail
                else Throws "std::bad_alloc"
           else Throws "std::length_error"
  end.
Proof.
  intros Hh Hl. destruct (main_acquire w args Hh) as [_ Hout].
  rewrite acquire_loadV3 in Hout by assumption.
  unfold outcome in Hout. rewrite snd_bind in Hout. cbn [call snd] in Hout.
  rewrite loadV3_cases in Hout. cbv zeta in Hout.
  change (Params.loadEngine (mParams (SampleOnnxMNIST_new (params_of args))))
    with (Args.loadEngine args) in Hout.
  unfold outcome. rewrite Hout.
  destruct (ifstream w (Args.loadEngine args)) as [f|]; [|reflexivity].
  unfold file_read_ok.
  destruct (file_seek_ok f); [|reflexivity].
  destruct (file_alloc_ok f); [|reflexivity].
  destruct (file_get_ok f); [|reflexivity].
  destruct (createInferRuntime_ok w); [|reflexivity].
  cbn [snd main_result andb].
  destruct (deserializeCudaEngine_ok w (file_bytes f) _).
  - match goal with
    | |- context [infer w ?s1] =>
        destruct (infer_with_engine w s1 _ eq_refl eq_refl) as (s' & Hi);
        change (infer_verdict w s1)
          with (infer_verdict w (SampleOnnxMNIST_new (params_of args))) in Hi
    end.
    rewrite Hi. unfold status_of.
    destruct (infer_verdict w _); reflexivity.
  - rewrite infer_null_engine by reflexivity. reflexivity.
Qed.

(** The result of [main] on the build path. *)
Lemma main_build_path_result (w : World) (args : Args.t) :
  Args.help args = false ->
  empty (Args.loadEngine args) = true ->
  if reaches_save w (SampleOnnxMNIST_new (params_of args)) &&
     saveEngine_ok w (Args.saveEngine args)
  then if mnist_shape w
       then outcome (main w true args) =
            Returns (status_of (infer_verdict w (SampleOnnxMNIST_new (params_of args))))
       else exists c, outcome (main w true args) = Aborts c
  else outcome (main w true args) = Returns Status_reportFail.
Proof.
  intros Hh Hl. destruct (main_acquire w args Hh) as [_ Hout].
  rewrite acquire_build in Hout by assumption.
  set (sample := SampleOnnxMNIST_new (params_of args)) in *.
  destruct (reaches_save w sample) eqn:Hreach; cbn [andb].
  2:{ destruct (build_stops_before_save w sample Hreach) as (_ & (s' & Hb) & _).
      rewrite Hout, Hb. reflexivity. }
  destruct (build_reaches_save w sample Hreach) as (plan & _ & _ & _ & _ & Hres).
  change (Params.saveEngine (mParams sample)) with (Args.saveEngine args) in Hres.
  destruct (saveEngine_ok w (Args.saveEngine args)).
  2:{ rewrite Hout, Hres. reflexivity. }
  destruct (mnist_shape w).
  2:{ destruct Hres as (c & Hres). exists c. rewrite Hout, Hres. reflexivity. }
  rewrite Hout, Hres. cbn [main_result].
  match goal with
  | |- context [infer w ?s1] =>
      destruct (infer_with_engine w s1 _ eq_refl eq_refl) as (s' & Hi);
      change (infer_verdict w s1) with (infer_verdict w sample) in Hi
  end.
  rewrite Hi. unfold status_of. destruct (infer_verdict w sample); reflexivity.
Qed.

Lemma reaches_save_spelled (w : World) (s : SampleOnnxMNIST) :
  reaches_save w s = true <->
  createInferBuilder_ok w = true /\ createNetworkV2_ok w = true /\
  createBuilderConfig_ok w = true /\ createParser_ok w = true /\
  parseFromFile_ok w (onnx_file w s) = true /\ makeCudaStream_ok w = true /\
  exists plan, buildSerializedNetwork w = Some plan /\
               createInferRuntime_ok w = true /\
               deserializeCudaEngine_ok w plan (Z.of_nat (length plan)) = true.
Proof.
  unfold reaches_save. rewrite !andb_true_iff.
  destruct (buildSerializedNetwork w) as [plan|].
  - rewrite andb_true_iff. split.
    + intros ((((((H1 & H2) & H3) & H4) & H5) & H6) & H7 & H8).
      repeat (split; [assumption|]). exists plan. auto.
    + intros (H1 & H2 & H3 & H4 & H5 & H6 & p & Hp & H7 & H8).
      injection Hp as <-. auto 10.
  - split.
    + intros (_ & H). discriminate H.
    + intros (_ & _ & _ & _ & _ & _ & p & Hp & _). discriminate Hp.
Qed.

Lemma infer_verdict_spelled (w : World) (s : SampleOnnxMNIST) :
  infer_verdict w s = true <->
  createExecutionContext_ok w = true /\
  exists output, executeV2 w (host_input w s) = Some output /\
                 verifyOutput (exp w) output (Z.rem (rand w) 10) = true.
Proof.
  unfold infer_verdict. rewrite andb_true_iff.
  destruct (executeV2 w (host_input w s)) as [output|].
  - split.
    + intros [H1 H2]. split; [assumption|]. exists output. auto.
    + intros (H1 & o & Ho & H2). injection Ho as <-. auto.
  - split.
    + intros [_ H]. discriminate H.
    + intros (_ & o & Ho & _). discriminate Ho.
Qed.

(** On the build path the run passes exactly when every step succeeded: the
    builder, network, config and parser were created, the model parsed, the
    profile stream was created, a plan was built, the runtime was created, the
    plan was deserialized, the engine was saved, the network has the MNIST
    shape, the execution context was created, [executeV2] succeeded and
    [verifyOutput] accepted its output for the drawn digit. *)
Theorem build_path_passes_iff (w : World) (args : Args.t) :
  Args.help args = false ->
  empty (Args.loadEngine args) = true ->
  (outcome (main w true args) = Returns Status_reportPass <->
   createInferBuilder_ok w = true /\ createNetworkV2_ok w = true /\
   createBuilderConfig_ok w = true /\ createParser_ok w = true /\
   parseFromFile_ok w
     (locateFile w "mnist.onnx" (Params.dataDirs (params_of args))) = true /\
   makeCudaStream_ok w = true /\
   (exists plan, buildSerializedNetwork w = Some plan /\
                 createInferRuntime_ok w = true /\
                 deserializeCudaEngine_ok w plan (Z.of_nat (length plan)) = true) /\
   saveEngine_ok w (Args.saveEngine args) = true /\
   mnist_shape w = true /\
   createExecutionContext_ok w = true /\
   exists output,
     executeV2 w (host_input w (SampleOnnxMNIST_new (params_of args))) = Some output /\
     verifyOutput (exp w) output (Z.rem (rand w) 10) = true).
Proof.
  intros Hh Hl. pose proof (main_build_path_result w args Hh Hl) as H.
  pose proof (reaches_save_spelled w (SampleOnnxMNIST_new (params_of args))) as Hr.
  pose proof (infer_verdict_spelled w (SampleOnnxMNIST_new (params_of args))) as Hv.
  change (onnx_file w (SampleOnnxMNIST_new (params_of args)))
    with (locateFile w "mnist.onnx" (Params.dataDirs (params_of args))) in Hr.
  destruct (reaches_save w (SampleOnnxMNIST_new (params_of args))).
  2:{ cbn [andb] in H. rewrite H. split; [discriminate|].
      intros (H1 & H2 & H3 & H4 & H5 & H6 & H7 & _).
      assert (false = true) by (apply Hr; auto 10). discriminate. }
  destruct (saveEngine_ok w (Args.saveEngine args)).
  2:{ cbn [andb] in H. rewrite H. split; [discriminate|].
      intros (_ & _ & _ & _ & _ & _ & _ & E & _). discriminate E. }
  destruct (mnist_shape w).
  2:{ cbn [andb] in H. destruct H as (c & H). rewrite H. split; [discriminate|].
      intros (_ & _ & _ & _ & _ & _ & _ & _ & E & _). discriminate E. }
  cbn [andb] in H. rewrite H. unfold status_of.
  destruct (infer_verdict w (SampleOnnxMNIST_new (params_of args))).
  - split; [|reflexivity]. intros _.
    destruct (proj1 Hr eq_refl) as (H1 & H2 & H3 & H4 & H5 & H6 & H7).
    destruct (proj1 Hv eq_refl) as (H8 & H9). auto 12.
  - split; [discriminate|].
    intros (_ & _ & _ & _ & _ & _ & _ & _ & _ & H8 & H9).
    assert (false = true) by (apply Hv; auto). discriminate.
Qed.

Lemma build_path_passes_iff_witness :
  outcome (main demo_pass true args_save) = Returns Status_reportPass <->
  createInferBuilder_ok demo_pass = true /\ createNetworkV2_ok demo_pass = true /\
  createBuilderConfig_ok demo_pass = true /\ createParser_ok demo_pass = true /\
  parseFromFile_ok demo_pass
    (locateFile demo_pass "mnist.onnx" (Params.dataDirs (params_of args_save))) = true /\
  makeCudaStream_ok demo_pass = true /\
  (exists plan, buildSerializedNetwork demo_pass = Some plan /\
                createInferRuntime_ok demo_pass = true /\
                deserializeCudaEngine_ok demo_pass plan (Z.of_nat (length plan)) = true) /\
  saveEngine_ok demo_pass (Args.saveEngine args_save) = true /\
  mnist_shape demo_pass = true /\
  createExecutionContext_ok demo_pass = true /\
  exists output,
    executeV2 demo_pass (host_input demo_pass (SampleOnnxMNIST_new (params_of args_save)))
      = Some output /\
    verifyOutput (exp demo_pass) output (Z.rem (rand demo_pass) 10) = true.
Proof.
  apply (build_path_passes_iff demo_pass args_save); reflexivity.
Defined.

(** On the load path the run passes exactly when the plan file was opened and
    read, the runtime was created, the plan was deserialized, the execution
    context was created, [executeV2] succeeded and [verifyOutput] accepted its
    output for the drawn digit. *)
Theorem load_path_passes_iff (w : World) (args : Args.t) :
  Args.help args = false ->
  empty (Args.loadEngine args) = false ->
  (outcome (main w true args) = Returns Status_reportPass <->
   exists f,
     ifstream w (Args.loadEngine args) = Some f /\
     file_read_ok f = true /\
     createInferRuntime_ok w = true /\
     deserializeCudaEngine_ok w (file_bytes f) (Z.of_nat (length (file_bytes f))) = true /\
     createExecutionContext_ok w = true /\
     exists output,
       executeV2 w (host_input w (SampleOnnxMNIST_new (params_of args))) = Some output /\
       verifyOutput (exp w) output (Z.rem (rand w) 10) = true).
Proof.
  intros Hh Hl. rewrite (main_load_path_result w args Hh Hl).
  pose proof (infer_verdict_spelled w (SampleOnnxMNIST_new (params_of args))) as Hv.
  destruct (ifstream w (Args.loadEngine args)) as [f|].
  2:{ split; [discriminate|]. intros (f & Hf & _). discriminate Hf. }
  destruct (file_read_ok f) eqn:Hread.
  2:{ split; [destruct (file_seek_ok f), (file_alloc_ok f); discriminate|].
      intros (f' & Hf & E & _). injection Hf as <-. congruence. }
  destruct (createInferRuntime_ok w).
  2:{ split; [discriminate|]. intros (f' & _ & _ & E & _). discriminate E. }
  destruct (deserializeCudaEngine_ok w (file_bytes f) _) eqn:Hde.
  2:{ split; [discriminate|]. intros (f' & Hf & _ & _ & E & _).
      injection Hf as <-. congruence. }
  unfold status_of. destruct (infer_verdict w (SampleOnnxMNIST_new (params_of args))).
  - split; [|reflexivity]. intros _. exists f.
    destruct (proj1 Hv eq_refl) as (H8 & H9). auto 8.
  - split; [discriminate|]. intros (f' & _ & _ & _ & _ & H8 & H9).
    assert (false = true) by (apply Hv; auto). discriminate.
Qed.

Lemma load_path_passes_iff_witness :
  outcome (main demo_pass true args_load) = Returns Status_reportPass <->
  exists f,
    ifstream demo_pass (Args.loadEngine args_load) = Some f /\
    file_read_ok f = true /\
    createInferRuntime_ok demo_pass = true /\
    deserializeCudaEngine_ok demo_pass (file_bytes f)
      (Z.of_nat (length (file_bytes f))) = true /\
    createExecutionContext_ok demo_pass = true /\
    exists output,
      executeV2 demo_pass (host_input demo_pass (SampleOnnxMNIST_new (params_of args_load)))
        = Some output /\
      verifyOutput (exp demo_pass) output (Z.rem (rand demo_pass) 10) = true.
Proof.
  apply (load_path_passes_iff demo_pass args_load); reflexivity.
Defined.


(** The program is ended by an assertion only on the build path, by one of
    the assertions on the shape of the network in [build]: every step up to
    saving the engine succeeded and the network does not have the MNIST
    shape.  The assertion of [infer] on the number of input tensor names never
    fails in a run of [main]. *)
Theorem main_aborts_iff (w : World) (argsOK : bool) (args : Args.t) :
  (exists c, outcome (main w argsOK args) = Aborts c) <->
  argsOK = true /\ Args.help args = false /\ empty (Args.loadEngine args) = true /\
  createInferBuilder_ok w = true /\ createNetworkV2_ok w = true /\
  createBuilderConfig_ok w = true /\ createParser_ok w = true /\
  parseFromFile_ok w
    (locateFile w "mnist.onnx" (Params.dataDirs (params_of args))) = true /\
  makeCudaStream_ok w = true /\
  (exists plan, buildSerializedNetwork w = Some plan /\
                createInferRuntime_ok w = true /\
                deserializeCudaEngine_ok w plan (Z.of_nat (length plan)) = true) /\
  saveEngine_ok w (Args.saveEngine args) = true /\
  mnist_shape w = false.
Proof.
  destruct argsOK.
  2:{ rewrite main_invalid_arguments. split; [intros (c & H); discriminate H|].
      intros (H & _). discriminate H. }
  destruct (Args.help args) eqn:Hh.
  { rewrite (main_help w args Hh). split; [intros (c & H); discriminate H|].
    intros (_ & H & _). discriminate H. }
  destruct (empty (Args.loadEngine args)) eqn:Hl.
  2:{ rewrite (main_load_path_result w args Hh Hl).
      split; [|intros (_ & _ & E & _); discriminate E].
      intros (c & H).
      destruct (ifstream w _) as [f|]; [|discriminate H].
      destruct (file_read_ok f); [|destruct (file_seek_ok f), (file_alloc_ok f); discriminate H].
      destruct (createInferRuntime_ok w); [|discriminate H].
      destruct (deserializeCudaEngine_ok w _ _); discriminate H. }
  pose proof (main_build_path_result w args Hh Hl) as H.
  pose proof (reaches_save_spelled w (SampleOnnxMNIST_new (params_of args))) as Hr.
  change (onnx_file w (SampleOnnxMNIST_new (params_of args)))
    with (locateFile w "mnist.onnx" (Params.dataDirs (params_of args))) in Hr.
  destruct (reaches_save w (SampleOnnxMNIST_new (params_of args))).
  2:{ cbn [andb] in H. rewrite H. split; [intros (c & E); discriminate E|].
      intros (_ & _ & _ & H1 & H2 & H3 & H4 & H5 & H6 & H7 & _).
      assert (false = true) by (apply Hr; auto 10). discriminate. }
  destruct (saveEngine_ok w (Args.saveEngine args)).
  2:{ cbn [andb] in H. rewrite H. split; [intros (c & E); discriminate E|].
      intros (_ & _ & _ & _ & _ & _ & _ & _ & _ & _ & E & _). discriminate E. }
  cbn [andb] in H. destruct (mnist_shape w).
  - rewrite H. split; [intros (c & E); discriminate E|].
    intros (_ & _ & _ & _ & _ & _ & _ & _ & _ & _ & _ & E). discriminate E.
  - split; [|intros _; exact H]. intros _.
    destruct (proj1 Hr eq_refl) as (H1 & H2 & H3 & H4 & H5 & H6 & H7). auto 14.
Qed.


(** ** The load path and the options of the build path *)

Lemma infer_depends_on (w : World) (s1 s2 : SampleOnnxMNIST) :
  mEngine s1 = mEngine s2 ->
  Params.dataDirs (mParams s1) = Params.dataDirs (mParams s2) ->
  length (Params.inputTensorNames (mParams s1)) = 1%nat ->
  length (Params.inputTensorNames (mParams s2)) = 1%nat ->
  main_epilogue w (Returns (true, s1)) = main_epilogue w (Returns (true, s2)).
Proof.
  intros He Hd H1 H2. cbn [main_epilogue].
  destruct (mEngine s2) as [engine|] eqn:He2.
  2:{ rewrite !infer_null_engine by assumption. reflexivity. }
  destruct (createExecutionContext_ok w) eqn:Hc.
  2:{ rewrite (infer_without_context w s1 engine He Hc),
        (infer_without_context w s2 engine He2 Hc).
      assert (Ht : forall s, mEngine s = Some engine ->
                trace (infer w s) = [E_BufferManager; E_createExecutionContext]).
      { intros s Hs. unfold infer. rewrite Hs, Hc. reflexivity. }
      rewrite (Ht s1 He), (Ht s2 He2). reflexivity. }
  destruct (infer_run w s1 engine He Hc H1) as [Ht1 Ho1].
  destruct (infer_run w s2 engine He2 Hc H2) as [Ht2 Ho2].
  assert (Hf : digit_file w s1 = digit_file w s2) by (unfold digit_file; rewrite Hd; reflexivity).
  assert (Hh : host_input w s1 = host_input w s2) by (unfold host_input; rewrite Hf; reflexivity).
  rewrite Ht1, Ho1, Ht2, Ho2. unfold infer_calls. rewrite Hf, Hh.
  destruct (executeV2 w (host_input w s2)) as [output|]; [|reflexivity].
  destruct (verifyOutput (exp w) output (drawn_digit w)); reflexivity.
Qed.

(** On the load path the options of the build path have no effect: two runs
    whose arguments agree on the plan file and on the data directories end
    the same way, whatever [--int8], [--fp16], [--bf16], [--useDLACore],
    [--timingCacheFile] and [--saveEngine] are; and they make the same calls
    when they also agree on [--saveEngine], which is only printed. *)
Theorem load_path_ignores_build_options (w : World) (a1 a2 : Args.t) :
  Args.help a1 = false ->
  Args.help a2 = false ->
  empty (Args.loadEngine a1) = false ->
  Args.loadEngine a1 = Args.loadEngine a2 ->
  Args.dataDirs a1 = Args.dataDirs a2 ->
  outcome (main w true a1) = outcome (main w true a2) /\
  (Args.saveEngine a1 = Args.saveEngine a2 ->
   trace (main w true a1) = trace (main w true a2)).
Proof.
  intros Hh1 Hh2 Hl1 Hpath Hdirs.
  assert (Hl2 : empty (Args.loadEngine a2) = false) by (rewrite <- Hpath; exact Hl1).
  assert (Hd : Params.dataDirs (params_of a1) = Params.dataDirs (params_of a2)).
  { cbn [params_of Params.dataDirs]. rewrite Hdirs. reflexivity. }
  split.
  - rewrite (main_load_path_result w a1 Hh1 Hl1), (main_load_path_result w a2 Hh2 Hl2).
    rewrite Hpath.
    assert (Hv : infer_verdict w (SampleOnnxMNIST_new (params_of a1)) =
                 infer_verdict w (SampleOnnxMNIST_new (params_of a2))).
    { unfold infer_verdict, host_input, digit_file.
      cbn [mParams SampleOnnxMNIST_new]. rewrite Hd. reflexivity. }
    rewrite Hv. reflexivity.
  - intros Hsave.
    rewrite (main_load_path_trace w a1 Hh1 Hl1), (main_load_path_trace w a2 Hh2 Hl2).
    unfold main_prologue. rewrite Hsave. rewrite !loadV3_cases. cbv zeta.
    change (Params.loadEngine (mParams (SampleOnnxMNIST_new (params_of a1))))
      with (Args.loadEngine a1).
    change (Params.loadEngine (mParams (SampleOnnxMNIST_new (params_of a2))))
      with (Args.loadEngine a2).
    rewrite Hpath.
    destruct (ifstream w (Args.loadEngine a2)) as [f|]; [|reflexivity].
    destruct (file_seek_ok f); [|reflexivity].
    destruct (file_alloc_ok f); [|reflexivity].
    destruct (file_get_ok f); [|reflexivity].
    destruct (createInferRuntime_ok w); [|reflexivity].
    cbn [trace outcome fst snd].
    rewrite (infer_depends_on w
               (with_mEngine _ (with_mRuntime (Some TheRuntime)
                                  (SampleOnnxMNIST_new (params_of a1))))
               (with_mEngine
                  (if deserializeCudaEngine_ok w (file_bytes f)
                        (Z.of_nat (length (file_bytes f)))
                   then Some {| plan := file_bytes f |} else None)
                  (with_mRuntime (Some TheRuntime) (SampleOnnxMNIST_new (params_of a2)))));
      try reflexivity.
    exact Hd.
Qed.

Lemma load_path_ignores_build_options_witness :
  outcome (main demo_pass true args_load) = outcome (main demo_pass true args_load_all) /\
  (Args.saveEngine args_load = Args.saveEngine args_load_all ->
   trace (main demo_pass true args_load) = trace (main demo_pass true args_load_all)).
Proof.
  apply (load_path_ignores_build_options demo_pass args_load args_load_all); reflexivity.
Defined.

(** ** build and the timing cache *)

Lemma configure_calls_never_update (p : Params.t) :
  filter is_updateTimingCacheFile (configure_calls p) = [].
Proof.
  unfold configure_calls.
  destruct (Params.fp16 p), (Params.bf16 p), (Params.int8 p),
    (empty (Params.timingCacheFile p)); reflexivity.
Qed.

Ltac update_calls :=
  run_cbn; cbn [filter is_updateTimingCacheFile];
  rewrite ?filter_app, ?configure_calls_never_update; reflexivity.

Lemma build_update_calls (w : World) (s : SampleOnnxMNIST) :
  filter is_updateTimingCacheFile (trace (build w s)) =
  if createInferBuilder_ok w && createNetworkV2_ok w && createBuilderConfig_ok w &&
     createParser_ok w && parseFromFile_ok w (onnx_file w s) && makeCudaStream_ok w &&
     match buildSerializedNetwork w with Some _ => true | None => false end &&
     negb (empty (Params.timingCacheFile (mParams s))) &&
     buildTimingCacheFromFile_ok w (Params.timingCacheFile (mParams s))
  then [E_updateTimingCacheFile (Params.timingCacheFile (mParams s))]
  else [].
Proof.
  unfold build. rewrite constructNetwork_run.
  destruct (createInferBuilder_ok w); [|update_calls].
  destruct (createNetworkV2_ok w); [|update_calls].
  destruct (createBuilderConfig_ok w); [|update_calls].
  destruct (createParser_ok w); [|update_calls].
  destruct (parseFromFile_ok w (onnx_file w s)); [|update_calls].
  destruct (makeCudaStream_ok w); [|update_calls].
  destruct (buildSerializedNetwork w) as [plan|]; [|update_calls].
  destruct (empty (Params.timingCacheFile (mParams s))),
    (buildTimingCacheFromFile_ok w (Params.timingCacheFile (mParams s)));
    (destruct (createInferRuntime_ok w); [|update_calls]); run_cbn;
    (destruct (deserializeCudaEngine_ok w plan (Z.of_nat (length plan))); [|update_calls]);
    run_cbn;
    (destruct (saveEngine_ok w (Params.saveEngine (mParams s))); [|update_calls]);
    run_cbn;
    destruct (getNbInputs w =? 1), (nbDims (getInput0_getDimensions w) =? 4),
      (getNbOutputs w =? 1), (nbDims (getOutput0_getDimensions w) =? 2);
    update_calls.
Qed.

(** [build] writes the timing cache back at most once, to the file named by
    [--timingCacheFile], and exactly when that name is not empty, the cache
    was built from the file during configuration and the serialized network
    was built; a failure after that (runtime, deserialization, saving, shape)
    does not undo it. *)
Theorem build_updates_timing_cache_iff (w : World) (s : SampleOnnxMNIST) (file : string) :
  (In (E_updateTimingCacheFile file) (trace (build w s)) <->
   file = Params.timingCacheFile (mParams s) /\
   empty file = false /\
   buildTimingCacheFromFile_ok w file = true /\
   createInferBuilder_ok w = true /\ createNetworkV2_ok w = true /\
   createBuilderConfig_ok w = true /\ createParser_ok w = true /\
   parseFromFile_ok w (onnx_file w s) = true /\ makeCudaStream_ok w = true /\
   buildSerializedNetwork w <> None) /\
  (length (filter is_updateTimingCacheFile (trace (build w s))) <= 1)%nat.
Proof.
  pose proof (build_update_calls w s) as Hf.
  split.
  2:{ rewrite Hf. destruct (_ && _); cbn; lia. }
  assert (Hin : In (E_updateTimingCacheFile file) (trace (build w s)) <->
                In (E_updateTimingCacheFile file)
                   (filter is_updateTimingCacheFile (trace (build w s)))).
  { rewrite filter_In. cbn. tauto. }
  rewrite Hin, Hf. clear Hin Hf.
  destruct (createInferBuilder_ok w), (createNetworkV2_ok w), (createBuilderConfig_ok w),
    (createParser_ok w), (parseFromFile_ok w (onnx_file w s)), (makeCudaStream_ok w),
    (buildSerializedNetwork w) as [plan|];
    cbn [andb];
    try (split; [intros [] | intros (_ & _ & _ & H1 & H2 & H3 & H4 & H5 & H6 & H7);
                               first [discriminate | congruence]]).
  destruct (empty (Params.timingCacheFile (mParams s))) eqn:He; cbn [negb andb].
  { split; [intros []|]. intros (-> & E & _). congruence. }
  destruct (buildTimingCacheFromFile_ok w (Params.timingCacheFile (mParams s))) eqn:Hb.
  2:{ split; [intros []|]. intros (-> & _ & E & _). congruence. }
  split.
  - intros [H|[]]. injection H as <-. repeat split; auto. discriminate.
  - intros (-> & _). left. reflexivity.
Qed.

(** ** Instances on the example worlds *)

Lemma build_true_postcondition_witness :
  (exists plan, buildSerializedNetwork demo_pass = Some plan /\
     mEngine
       (with_mOutputDims (getOutput0_getDimensions demo_pass)
          (with_mInputDims (getInput0_getDimensions demo_pass)
             (with_mEngine (Some {| plan := demo_plan |})
                (with_mRuntime (Some TheRuntime)
                   (SampleOnnxMNIST_new (params_of args_save))))))
     = Some {| plan := plan |}) /\
  nbDims (getInput0_getDimensions demo_pass) = 4 /\
  nbDims (getOutput0_getDimensions demo_pass) = 2.
Proof.
  destruct (proj2 (build_true_postcondition demo_pass
                     (SampleOnnxMNIST_new (params_of args_save)))
              (with_mOutputDims (getOutput0_getDimensions demo_pass)
                 (with_mInputDims (getInput0_getDimensions demo_pass)
                    (with_mEngine (Some {| plan := demo_plan |})
                       (with_mRuntime (Some TheRuntime)
                          (SampleOnnxMNIST_new (params_of args_save)))))))
    as (Hplan & _ & _ & _ & _ & _ & _ & Hin & _ & Hout & _).
  - vm_compute. reflexivity.
  - split; [exact Hplan|]. split; [exact Hin | exact Hout].
Defined.



Lemma main_aborts_iff_witness :
  exists c, outcome (main (demo_world 13 true true 2 (demo_logits 3)) true args_default)
            = Aborts c.
Proof.
  apply (main_aborts_iff (demo_world 13 true true 2 (demo_logits 3)) true args_default).
  repeat (split; [reflexivity|]).
  split; [exists demo_plan; repeat split|]. split; reflexivity.
Defined.

Lemma build_updates_timing_cache_iff_witness :
  In (E_updateTimingCacheFile "timing.cache")
     (trace (build demo_pass (SampleOnnxMNIST_new (params_of args_save)))).
Proof.
  apply (proj1 (build_updates_timing_cache_iff demo_pass
                  (SampleOnnxMNIST_new (params_of args_save)) "timing.cache")).
  repeat (split; [reflexivity|]). discriminate.
Defined.
